(** * A shallow embedding of the ticket/branch workflow engine of
    [src/sage/dev/sagedev.py]

    The development follows the Python class [SageDev]: the registry of
    ticket/branch/dependency associations (the four saving dictionaries),
    the name validation helpers, the working-tree guard
    ([reset_to_clean_state], [clean]), [checkout_ticket], [checkout_branch],
    [abandon], [merge] and [push].

    Python exceptions are modelled by a state-and-error monad: a raised
    exception keeps every mutation performed before it, exactly as in the
    source.  The version-control backend, the ticket server and the user
    interface are collaborators of [SageDev]; they are modelled by small
    explicit state machines (section "Collaborators"). *)

From Stdlib Require Import ZArith String Ascii List Bool Lia.
From stdpp Require Import gmap strings list fin_maps pretty.

Open Scope string_scope.
Open Scope Z_scope.

(** ** Python values used as ticket or branch names *)

(** [ticket_or_branch] arguments are [None], an [int] or a [str]. *)
Inductive pyname :=
| PNone
| PInt (n : Z)
| PStr (s : string).

#[export] Instance pyname_eq_dec : EqDecision pyname.
Proof. solve_decision. Defined.

(** The exceptions raised by the code under study.  [NonTermination] is
    not an exception: it marks a call whose [while True] loop never
    returns. *)
Inductive exn :=
| SageDevValueError (msg : string)
| OperationCancelledError (msg : string)
| GitError (cmd : string)
| DetachedHeadError
| KeyError (msg : string)
| ValueError (msg : string)
| TypeError (msg : string)
| AssertionError
| NonTermination.

#[export] Instance exn_eq_dec : EqDecision exn.
Proof. solve_decision. Defined.

(** ** Character-level helpers *)

Module Chars.

Definition eqb_ascii_list (a b : list ascii) : bool :=
  if decide (a = b) then true else false.

Fixpoint starts_with (p s : list ascii) : bool :=
  match p, s with
  | [], _ => true
  | _ :: _, [] => false
  | a :: p', b :: s' => Ascii.eqb a b && starts_with p' s'
  end.

Fixpoint contains (p s : list ascii) : bool :=
  starts_with p s ||
  match s with
  | [] => false
  | _ :: s' => contains p s'
  end.

Definition ends_with (p s : list ascii) : bool :=
  starts_with (rev p) (rev s).

Definition newline : ascii := "010"%char.

(** The prefix of [s] that [.*] can run over: [.] matches every character
    but the newline. *)
Fixpoint first_line (s : list ascii) : list ascii :=
  match s with
  | [] => []
  | c :: s' => if Ascii.eqb c newline then [] else c :: first_line s'
  end.

Definition chars (s : string) : list ascii := list_ascii_of_string s.

End Chars.

Import Chars.

(** ** [GIT_BRANCH_REGEX] (lines 11-13)

    [^(?!.*/\.)(?!.*\.\.)(?!/)(?!.*//)(?!.*@\{)(?!.*\\)]
    [[^\040\177 ~^:?*[]+(?<!\.lock)(?<!/)(?<!\.)$] *)

Module Regex.

(** The complemented character class [[^\040\177 ~^:?*[]]. *)
Definition class_char (c : ascii) : bool :=
  negb (Ascii.eqb c "032"%char || Ascii.eqb c "127"%char
        || Ascii.eqb c " "%char || Ascii.eqb c "~"%char
        || Ascii.eqb c "^"%char || Ascii.eqb c ":"%char
        || Ascii.eqb c "?"%char || Ascii.eqb c "*"%char
        || Ascii.eqb c "["%char).

(** The six negative lookaheads, all anchored at position 0. *)
Definition lookaheads (s : list ascii) : bool :=
  let l := first_line s in
  negb (contains (chars "/.") l)
  && negb (contains (chars "..") l)
  && negb (starts_with (chars "/") s)
  && negb (contains (chars "//") l)
  && negb (contains (chars "@{") l)
  && negb (contains (chars "\") l).

(** [t] is what the class consumed: non-empty, all characters in the class,
    and the three negative lookbehinds hold at its end. *)
Definition body (t : list ascii) : bool :=
  match t with [] => false | _ :: _ => true end
  && forallb class_char t
  && negb (ends_with (chars ".lock") t)
  && negb (ends_with (chars "/") t)
  && negb (ends_with (chars ".") t).

(** [$] matches at the end of the string and before a final newline. *)
Definition before_final_newline (s : list ascii) : option (list ascii) :=
  match rev s with
  | c :: r => if Ascii.eqb c newline then Some (rev r) else None
  | [] => None
  end.

Definition matches (s : list ascii) : bool :=
  lookaheads s
  && (body s
      || match before_final_newline s with
         | Some t => body t
         | None => false
         end).

End Regex.

Definition GIT_BRANCH_REGEX (name : string) : bool :=
  Regex.matches (chars name).

(** The name of the branch which holds the vanilla clone (comment on
    line 14; the doctests print it as [master]). *)
Definition MASTER_BRANCH : string := "master".

(** ** Python's [int] on a [str] (base 10)

    Optional surrounding whitespace, an optional sign, then one or more
    ASCII digits; anything else is a [ValueError] ([None] here). *)

Module PyInt.

Definition is_space (c : ascii) : bool :=
  Ascii.eqb c " "%char || Ascii.eqb c "009"%char || Ascii.eqb c "010"%char
  || Ascii.eqb c "011"%char || Ascii.eqb c "012"%char || Ascii.eqb c "013"%char.

Definition digit (c : ascii) : option Z :=
  let n := Z.of_nat (nat_of_ascii c) in
  if (48 <=? n) && (n <=? 57) then Some (n - 48) else None.

Fixpoint digits (acc : Z) (s : list ascii) : option Z :=
  match s with
  | [] => Some acc
  | c :: s' =>
      match digit c with
      | Some d => digits (10 * acc + d) s'
      | None => None
      end
  end.

Fixpoint lstrip (s : list ascii) : list ascii :=
  match s with
  | c :: s' => if is_space c then lstrip s' else s
  | [] => []
  end.

Definition strip (s : list ascii) : list ascii :=
  rev (lstrip (rev (lstrip s))).

Definition unsigned (s : list ascii) : option Z :=
  match s with
  | [] => None
  | _ :: _ => digits 0 s
  end.

Definition int (s : string) : option Z :=
  match strip (chars s) with
  | [] => None
  | c :: t =>
      if Ascii.eqb c "-"%char then Z.opp <$> unsigned t
      else if Ascii.eqb c "+"%char then unsigned t
      else unsigned (c :: t)
  end.

End PyInt.

(** ** The state of one invocation *)

Definition commit := nat.

(** The refs handed to the backend: the strings ['HEAD'] and
    ['FETCH_HEAD'], and the names of local branches. *)
Inductive gitref :=
| Head
| FetchHead
| Branch (b : string).

(** Where [HEAD] points: a named branch, or a bare commit (detached). *)
Inductive head_ref :=
| OnBranch (b : string)
| Detached (c : commit).

#[export] Instance head_ref_eq_dec : EqDecision head_ref.
Proof. solve_decision. Defined.

(** Modelled from the spec: the version-control backend (section 6,
    "Version-control backend primitives"); [git_interface.py] is a
    collaborator.  [ancestry a b] is the backend's answer to "is [a] an
    ancestor of [b]".  [blocked] are the branches whose checkout the backend
    refuses because it would overwrite untracked files, [conflicting] the
    commits whose merge into [HEAD] needs manual resolution, and
    [branch_fault] injects a backend failure into the next branch creation
    ([Some true]: the branch was written before the failure). *)
Record git_repo := GitRepo {
  local_branches : gmap string commit;
  HEAD : head_ref;
  FETCH_HEAD : option commit;
  unclean_states : list string;
  modified_files : list string;
  untracked_files : list string;
  stash_stack : list (list string);
  merged_in : list commit;
  remote_heads : gmap string commit;
  ancestry : commit -> commit -> bool;
  blocked : gset string;
  conflicting : gset commit;
  branch_fault : option bool;
  offline : bool
}.

(** Modelled from the spec: the ticket service (section 6, "Ticket service
    primitives"): which tickets exist, the branch field and the dependency
    field of each. *)
Record trac_server := TracServer {
  username : string;
  known_tickets : gset Z;
  branch_field : gmap Z string;
  dependency_field : gmap Z (list Z)
}.

(** The four saving dictionaries created in [SageDev.__init__]
    (lines 50-61): [branch_to_ticket], [ticket_to_branch], [dependencies]
    and [remote_branches]. *)
Record registry := Registry {
  ticket_to_branch : gmap Z string;
  branch_to_ticket : gmap string Z;
  ticket_dependencies : gmap Z (list Z);
  branch_to_remote_branch : gmap string string
}.

(** Modelled from the spec: the prompt capability (section 6): the answers
    the user is going to type, and what has been displayed so far (most
    recent first). *)
Record user_interface := UserInterface {
  answers : list string;
  displayed : list string
}.

Record state := State {
  git : git_repo;
  trac : trac_server;
  reg : registry;
  UI : user_interface
}.

(** ** The state-and-exception monad *)

Definition M (A : Type) : Type := state -> (exn + A) * state.

Definition ret {A} (a : A) : M A := fun s => (inr a, s).

Definition bind {A B} (m : M A) (f : A -> M B) : M B := fun s =>
  match m s with
  | (inr a, s') => f a s'
  | (inl e, s') => (inl e, s')
  end.

Notation "x <- m ;; k" := (bind m (fun x => k))
  (at level 100, m at next level, right associativity).
Notation "m ;;; k" := (bind m (fun _ => k))
  (at level 100, right associativity).

Definition raise {A} (e : exn) : M A := fun s => (inl e, s).

(** [try: body except: handler] *)
Definition try_except {A} (body : M A) (handler : exn -> M A) : M A :=
  fun s =>
    match body s with
    | (inr a, s') => (inr a, s')
    | (inl e, s') => handler e s'
    end.

Definition get {A} (f : state -> A) : M A := fun s => (inr (f s), s).

Definition set_git (f : git_repo -> git_repo) : M unit :=
  fun s => (inr tt, State (f (git s)) (trac s) (reg s) (UI s)).
Definition set_trac (f : trac_server -> trac_server) : M unit :=
  fun s => (inr tt, State (git s) (f (trac s)) (reg s) (UI s)).
Definition set_reg (f : registry -> registry) : M unit :=
  fun s => (inr tt, State (git s) (trac s) (f (reg s)) (UI s)).
Definition set_UI (f : user_interface -> user_interface) : M unit :=
  fun s => (inr tt, State (git s) (trac s) (reg s) (f (UI s))).

Definition when (b : bool) (m : M unit) : M unit :=
  if b then m else ret tt.

(** ** Collaborators *)

(** *** The user interface *)

Module Ui.

Definition show (msg : string) : M unit :=
  set_UI (fun u => UserInterface (answers u) (msg :: displayed u)).
Definition error := show.
Definition info := show.
Definition warning := show.
(** Debug output is not displayed. *)
Definition debug (msg : string) : M unit := ret tt.

(** The user is asked again until the answer is one of the options; an
    exhausted input takes the default. *)
Fixpoint select_from (options : list string) (default : string)
    (ans : list string) : string * list string :=
  match ans with
  | [] => (default, [])
  | a :: rest =>
      if bool_decide (a ∈ options) then (a, rest)
      else select_from options default rest
  end.

Definition select (prompt : string) (options : list string) (default : nat)
    : M string :=
  fun s =>
    let '(a, rest) :=
      select_from options (nth default options "") (answers (UI s)) in
    (inr a, State (git s) (trac s) (reg s)
                  (UserInterface rest (prompt :: displayed (UI s)))).

Fixpoint confirm_from (default : bool) (ans : list string)
    : bool * list string :=
  match ans with
  | [] => (default, [])
  | a :: rest =>
      if bool_decide (a ∈ ["y"; "yes"]) then (true, rest)
      else if bool_decide (a ∈ ["n"; "no"]) then (false, rest)
      else confirm_from default rest
  end.

Definition confirm (prompt : string) (default : bool) : M bool :=
  fun s =>
    let '(a, rest) := confirm_from default (answers (UI s)) in
    (inr a, State (git s) (trac s) (reg s)
                  (UserInterface rest (prompt :: displayed (UI s)))).

End Ui.

(** *** The version-control backend *)

Module Git.

Definition with_branches (f : gmap string commit -> gmap string commit)
    (g : git_repo) : git_repo :=
  GitRepo (f (local_branches g)) (HEAD g) (FETCH_HEAD g) (unclean_states g)
    (modified_files g) (untracked_files g) (stash_stack g) (merged_in g)
    (remote_heads g) (ancestry g) (blocked g) (conflicting g)
    (branch_fault g) (offline g).

Definition with_HEAD (h : head_ref) (g : git_repo) : git_repo :=
  GitRepo (local_branches g) h (FETCH_HEAD g) (unclean_states g)
    (modified_files g) (untracked_files g) (stash_stack g) (merged_in g)
    (remote_heads g) (ancestry g) (blocked g) (conflicting g)
    (branch_fault g) (offline g).

Definition with_FETCH_HEAD (c : option commit) (g : git_repo) : git_repo :=
  GitRepo (local_branches g) (HEAD g) c (unclean_states g)
    (modified_files g) (untracked_files g) (stash_stack g) (merged_in g)
    (remote_heads g) (ancestry g) (blocked g) (conflicting g)
    (branch_fault g) (offline g).

(** The working tree: backend states, tracked changes, untracked files,
    stash, pending merges. *)
Definition with_tree (st md ut : list string) (sk : list (list string))
    (mi : list commit) (g : git_repo) : git_repo :=
  GitRepo (local_branches g) (HEAD g) (FETCH_HEAD g) st md ut sk mi
    (remote_heads g) (ancestry g) (blocked g) (conflicting g)
    (branch_fault g) (offline g).

Definition with_remote (f : gmap string commit -> gmap string commit)
    (g : git_repo) : git_repo :=
  GitRepo (local_branches g) (HEAD g) (FETCH_HEAD g) (unclean_states g)
    (modified_files g) (untracked_files g) (stash_stack g) (merged_in g)
    (f (remote_heads g)) (ancestry g) (blocked g) (conflicting g)
    (branch_fault g) (offline g).

Definition with_branch_fault (bf : option bool) (g : git_repo) : git_repo :=
  GitRepo (local_branches g) (HEAD g) (FETCH_HEAD g) (unclean_states g)
    (modified_files g) (untracked_files g) (stash_stack g) (merged_in g)
    (remote_heads g) (ancestry g) (blocked g) (conflicting g)
    bf (offline g).

Definition with_ancestry (a : commit -> commit -> bool) (g : git_repo)
    : git_repo :=
  GitRepo (local_branches g) (HEAD g) (FETCH_HEAD g) (unclean_states g)
    (modified_files g) (untracked_files g) (stash_stack g) (merged_in g)
    (remote_heads g) a (blocked g) (conflicting g)
    (branch_fault g) (offline g).

Definition commit_for_branch (g : git_repo) (b : string) : option commit :=
  local_branches g !! b.

(** The commit a ref stands for, given the branches, [HEAD] and
    [FETCH_HEAD]. *)
Definition resolve (branches : gmap string commit) (head : head_ref)
    (fetch_head : option commit) (ref : gitref) : option commit :=
  match ref with
  | Head =>
      match head with
      | OnBranch b => branches !! b
      | Detached c => Some c
      end
  | FetchHead => fetch_head
  | Branch b => branches !! b
  end.

Definition commit_for_ref (g : git_repo) (ref : gitref) : option commit :=
  resolve (local_branches g) (HEAD g) (FETCH_HEAD g) ref.

Definition current_branch : M string :=
  fun s =>
    match HEAD (git s) with
    | OnBranch b => (inr b, s)
    | Detached _ => (inl DetachedHeadError, s)
    end.

(** [is_ancestor_of a b]; an unresolvable ref is a backend error. *)
Definition is_ancestor_of (a b : gitref) : M bool :=
  fun s =>
    match commit_for_ref (git s) a, commit_for_ref (git s) b with
    | Some ca, Some cb => (inr (ancestry (git s) ca cb), s)
    | _, _ => (inl (GitError "merge-base"), s)
    end.

Definition is_child_of (a b : gitref) : M bool := is_ancestor_of b a.

(** [git branch name start] *)
Definition branch (name : string) (start : gitref) : M unit :=
  fun s =>
    let g := git s in
    match branch_fault g with
    | Some written =>
        let g' := with_branch_fault None g in
        let g'' :=
          match written, commit_for_ref g start, local_branches g !! name with
          | true, Some c, None => with_branches (insert name c) g'
          | _, _, _ => g'
          end in
        (inl (GitError "branch"), State g'' (trac s) (reg s) (UI s))
    | None =>
        match commit_for_ref g start, local_branches g !! name with
        | Some c, None =>
            (inr tt, State (with_branches (insert name c) g)
                           (trac s) (reg s) (UI s))
        | _, _ => (inl (GitError "branch"), s)
        end
    end.

(** [git branch -D name] *)
Definition branch_delete (name : string) : M unit :=
  fun s =>
    let g := git s in
    match local_branches g !! name with
    | Some _ =>
        if bool_decide (HEAD g = OnBranch name)
        then (inl (GitError "branch -D"), s)
        else (inr tt, State (with_branches (delete name) g)
                            (trac s) (reg s) (UI s))
    | None => (inl (GitError "branch -D"), s)
    end.

(** [git branch -m old new] *)
Definition branch_move (old new : string) : M unit :=
  fun s =>
    let g := git s in
    match local_branches g !! old, local_branches g !! new with
    | Some c, None =>
        let g' := with_branches (fun m => <[new := c]> (delete old m)) g in
        let g'' :=
          if bool_decide (HEAD g = OnBranch old)
          then with_HEAD (OnBranch new) g' else g' in
        (inr tt, State g'' (trac s) (reg s) (UI s))
    | _, _ => (inl (GitError "branch -m"), s)
    end.

Definition fetch (remote_branch : string) : M unit :=
  fun s =>
    let g := git s in
    if offline g then (inl (GitError "fetch"), s)
    else
      match remote_heads g !! remote_branch with
      | Some c => (inr tt, State (with_FETCH_HEAD (Some c) g)
                                 (trac s) (reg s) (UI s))
      | None => (inl (GitError "fetch"), s)
      end.

(** [git ls-remote --exit-code repository refs/heads/name] *)
Definition ls_remote (name : string) : M bool :=
  fun s =>
    if offline (git s) then (inl (GitError "ls-remote"), s)
    else (inr (bool_decide (is_Some (remote_heads (git s) !! name))), s).

(** The checkout keeps the working tree; it is refused when it would
    overwrite files and the commit changes. *)
Definition checkout (b : string) : M unit :=
  fun s =>
    let g := git s in
    match local_branches g !! b with
    | Some c =>
        if bool_decide (commit_for_ref g Head = Some c)
           || negb (bool_decide (b ∈ blocked g))
        then (inr tt, State (with_HEAD (OnBranch b) g)
                            (trac s) (reg s) (UI s))
        else (inl (GitError "checkout"), s)
    | None => (inl (GitError "checkout"), s)
    end.

(** [git push repository branch:remote_branch]; without [force] the server
    only accepts fast-forwards. *)
Definition push (b remote_branch : string) (force : bool) : M unit :=
  fun s =>
    let g := git s in
    if offline g then (inl (GitError "push"), s)
    else
      match local_branches g !! b with
      | None => (inl (GitError "push"), s)
      | Some c =>
          let ff :=
            match remote_heads g !! remote_branch with
            | Some r => ancestry g r c
            | None => true
            end in
          if force || ff
          then (inr tt, State (with_remote (insert remote_branch c) g)
                              (trac s) (reg s) (UI s))
          else (inl (GitError "push"), s)
      end.

(** [git merge ref] without creating a commit. *)
Definition merge (ref : gitref) : M unit :=
  fun s =>
    let g := git s in
    match commit_for_ref g ref with
    | None => (inl (GitError "merge"), s)
    | Some c =>
        if bool_decide (c ∈ conflicting g)
        then (inl (GitError "merge"),
              State (with_tree ("merge" :: unclean_states g)
                       (modified_files g) (untracked_files g)
                       (stash_stack g) (merged_in g) g)
                    (trac s) (reg s) (UI s))
        else (inr tt,
              State (with_tree (unclean_states g) (modified_files g)
                       (untracked_files g) (stash_stack g)
                       (c :: merged_in g) g)
                    (trac s) (reg s) (UI s))
    end.

(** [git commit -a --no-edit]: the tree becomes a fresh commit on top of
    [HEAD] and of everything merged in. *)
Definition fresh_commit (g : git_repo) : commit :=
  S (map_fold (fun _ c acc => Nat.max c acc)
       (map_fold (fun _ c acc => Nat.max c acc)
          (match HEAD g with Detached c => c | OnBranch _ => O end)
          (remote_heads g))
       (local_branches g)).

Definition commit_all : M unit :=
  fun s =>
    let g := git s in
    let n := fresh_commit g in
    let parents :=
      match commit_for_ref g Head with
      | Some c => c :: merged_in g
      | None => merged_in g
      end in
    let anc a b :=
      if Nat.eqb b n
      then Nat.eqb a n || existsb (fun p => ancestry g a p) parents
      else ancestry g a b in
    let g1 := with_ancestry anc g in
    let g2 :=
      match HEAD g with
      | OnBranch b => with_branches (insert b n) g1
      | Detached _ => with_HEAD (Detached n) g1
      end in
    (inr tt,
     State (with_tree [] [] (untracked_files g) (stash_stack g) [] g2)
           (trac s) (reg s) (UI s)).

(** [git.get_state()]: the backend states that make the repository
    unclean (merge, rebase, ...). *)
Definition get_state : M (list string) := get (fun s => unclean_states (git s)).

Definition has_uncommitted_changes : M bool :=
  get (fun s => match modified_files (git s) with [] => false | _ => true end).

Definition reset_to_clean_state : M unit :=
  set_git (fun g => with_tree [] [] (untracked_files g) (stash_stack g) [] g).

Definition clean_wrapper : M unit :=
  set_git (fun g => with_tree (unclean_states g) [] [] (stash_stack g)
                      (merged_in g) g).

Definition stash : M unit :=
  set_git (fun g => with_tree (unclean_states g) [] (untracked_files g)
                      (modified_files g :: stash_stack g) (merged_in g) g).

End Git.

(** *** The ticket server *)

Module Trac.

Definition _branch_for_ticket (ticket : Z) : M (option string) :=
  get (fun s => branch_field (trac s) !! ticket).

Definition dependencies (ticket : Z) : M (list Z) :=
  get (fun s => default [] (dependency_field (trac s) !! ticket)).

Definition exists_ticket (ticket : Z) : M bool :=
  get (fun s => bool_decide (ticket ∈ known_tickets (trac s))).

Definition set_branch (ticket : Z) (remote_branch : string) : M unit :=
  set_trac (fun t => TracServer (username t) (known_tickets t)
                       (<[ticket := remote_branch]> (branch_field t))
                       (dependency_field t)).

Definition set_dependencies (ticket : Z) (deps : list Z) : M unit :=
  set_trac (fun t => TracServer (username t) (known_tickets t)
                       (branch_field t)
                       (<[ticket := deps]> (dependency_field t))).

End Trac.

(** ** Naming and validation

    Messages are kept as in the source, without the double quotes around
    the [{0}] placeholders. *)

(** [exists] arguments: [True], [False] or the builtin [any]. *)
Inductive existence := ExTrue | ExFalse | ExAny.

(** [_ticket_from_ticket_name] (lines 3003-3005): an optional leading [#]
    is dropped, the rest goes through [int]; negative numbers are refused. *)
Definition _ticket_from_ticket_name (name : pyname) : exn + Z :=
  match name with
  | PNone => inl (TypeError "int() argument must be a string or a number")
  | PInt n =>
      if n <? 0 then inl (SageDevValueError "{0} is not a valid ticket name.")
      else inr n
  | PStr s =>
      let ticket :=
        match s with
        | String c rest => if Ascii.eqb c "#"%char then rest else s
        | EmptyString => s
        end in
      match PyInt.int ticket with
      | None => inl (SageDevValueError "{0} is not a valid ticket name.")
      | Some n =>
          if n <? 0
          then inl (SageDevValueError "{0} is not a valid ticket name.")
          else inr n
      end
  end.

(** Modelled from the spec: [_is_ticket_name] past its visible first test
    ([if name is None: return False], line 2991): section 4.2, a name is a
    ticket name when [ticket_from_name] accepts its syntax. *)
Definition _is_ticket_name (name : pyname) : bool :=
  match name with
  | PNone => false
  | _ => match _ticket_from_ticket_name name with
         | inr _ => true
         | inl _ => false
         end
  end.

(** [_is_ticket_name(name, exists=True)]: the ticket must also be known to
    the ticket server. *)
Definition _is_ticket_name_exists (name : pyname) : M bool :=
  match name with
  | PNone => ret false
  | _ => match _ticket_from_ticket_name name with
         | inr t => Trac.exists_ticket t
         | inl _ => ret false
         end
  end.

(** [_check_ticket_name] (lines 2996-2998). *)
Definition _check_ticket_name (name : pyname) (exists_ : bool) : M unit :=
  if exists_ then
    ok <- _is_ticket_name_exists name ;;
    if ok then ret tt
    else raise (SageDevValueError
      "Ticket name {0} is not valid or ticket does not exist on trac.")
  else
    if _is_ticket_name name then ret tt
    else raise (SageDevValueError "Invalid ticket name {0}.").

Definition lift {A} (r : exn + A) : M A := fun s => (r, s).

(** [_is_local_branch_name] (lines 3010-3014, preceded by the match against
    [GIT_BRANCH_REGEX] and followed by the existence test on
    [git.commit_for_branch]). *)
Definition is_local_branch_name (g : git_repo) (name : string)
    (exists_ : existence) : bool :=
  if negb (GIT_BRANCH_REGEX name) then false
  (* branches which could be tickets are calling for trouble - cowardly
     refuse to accept them *)
  else if _is_ticket_name (PStr name) then false
  else if bool_decide (name ∈ ["None"; "True"; "False"; "dependencies"])
  then false
  else
    match exists_ with
    | ExTrue => bool_decide (is_Some (Git.commit_for_branch g name))
    | ExFalse => negb (bool_decide (is_Some (Git.commit_for_branch g name)))
    | ExAny => true
    end.

Definition _is_local_branch_name (name : string) (exists_ : existence)
    : M bool :=
  get (fun s => is_local_branch_name (git s) name exists_).

(** [_is_trash_name] (line 3029). *)
Definition is_trash_name (g : git_repo) (name : string)
    (exists_ : existence) : bool :=
  if negb (starts_with (chars "trash/") (chars name)) then false
  else is_local_branch_name g name exists_.

(** [_is_remote_branch_name] (lines 3033-3036). *)
Definition _is_remote_branch_name (name : string) (exists_ : existence)
    : M bool :=
  if negb (GIT_BRANCH_REGEX name) then ret false
  else if _is_ticket_name (PStr name) then ret false
  else
    match exists_ with
    | ExAny => ret true
    | ExTrue => Git.ls_remote name
    | ExFalse => r <- Git.ls_remote name ;; ret (negb r)
    end.

(** [_check_local_branch_name] (lines 3044-3047); a name that is not a
    string is refused. *)
Definition _check_local_branch_name (name : pyname) (exists_ : existence)
    : M unit :=
  match name with
  | PStr n =>
      any_ <- _is_local_branch_name n ExAny ;;
      if negb any_ then raise (SageDevValueError "Invalid branch name {0}.")
      else
        match exists_ with
        | ExAny => ret tt
        | ExTrue =>
            ok <- _is_local_branch_name n ExTrue ;;
            if ok then ret tt
            else raise (SageDevValueError
                          "Branch {0} does not exist locally.")
        | ExFalse =>
            ok <- _is_local_branch_name n ExFalse ;;
            if ok then ret tt
            else raise (SageDevValueError
                          "Branch {0} already exists, use a different name.")
        end
  | _ => raise (ValueError "name must be a string")
  end.

(** [_check_remote_branch_name] (lines 3053-3055). *)
Definition _check_remote_branch_name (name : string) (exists_ : existence)
    : M unit :=
  any_ <- _is_remote_branch_name name ExAny ;;
  if negb any_
  then raise (SageDevValueError "Invalid name {0} for a remote branch.")
  else
    match exists_ with
    | ExAny => ret tt
    | ExTrue =>
        ok <- _is_remote_branch_name name ExTrue ;;
        if ok then ret tt
        else raise (SageDevValueError
                      "Branch {0} does not exist on the remote system.")
    | ExFalse =>
        ok <- _is_remote_branch_name name ExFalse ;;
        if ok then ret tt
        else raise (SageDevValueError
                      "Branch {0} already exists, use a different name.")
    end.

(** ** The registry helpers *)

Definition with_links (t2b : gmap Z string) (b2t : gmap string Z)
    (r : registry) : registry :=
  Registry t2b b2t (ticket_dependencies r) (branch_to_remote_branch r).

Definition with_dependencies (f : gmap Z (list Z) -> gmap Z (list Z))
    (r : registry) : registry :=
  Registry (ticket_to_branch r) (branch_to_ticket r)
    (f (ticket_dependencies r)) (branch_to_remote_branch r).

Definition with_remote_branches
    (f : gmap string string -> gmap string string) (r : registry)
    : registry :=
  Registry (ticket_to_branch r) (branch_to_ticket r)
    (ticket_dependencies r) (f (branch_to_remote_branch r)).

(** Modelled from the spec: the paired saving dictionaries
    [ticket_to_branch]/[branch_to_ticket] (sections 3 and 9): one mutation
    updates both sides, and a ticket or a branch that was bound elsewhere
    loses its former partner. *)
Definition link (ticket : Z) (b : string) (r : registry) : registry :=
  let t2b :=
    match branch_to_ticket r !! b with
    | Some t' => delete t' (ticket_to_branch r)
    | None => ticket_to_branch r
    end in
  let b2t :=
    match ticket_to_branch r !! ticket with
    | Some b' => delete b' (branch_to_ticket r)
    | None => branch_to_ticket r
    end in
  with_links (<[ticket := b]> t2b) (<[b := ticket]> b2t) r.

Definition unlink (ticket : Z) (r : registry) : registry :=
  match ticket_to_branch r !! ticket with
  | Some b =>
      with_links (delete ticket (ticket_to_branch r))
                 (delete b (branch_to_ticket r)) r
  | None => r
  end.

(** Modelled from the spec: [_set_local_branch_for_ticket] (section 3,
    BranchTicketLink): [None] clears the link, a branch name must exist
    locally and becomes the ticket's branch. *)
Definition _set_local_branch_for_ticket (ticket : Z)
    (b : option string) : M unit :=
  match b with
  | None => set_reg (unlink ticket)
  | Some b =>
      _check_local_branch_name (PStr b) ExTrue ;;;
      set_reg (link ticket b)
  end.

(** [_has_local_branch_for_ticket] (lines 3134-3137): a link to a branch
    that is gone is reported and removed. *)
Definition _has_local_branch_for_ticket (ticket : Z) : M bool :=
  t2b <- get (fun s => ticket_to_branch (reg s)) ;;
  match t2b !! ticket with
  | None => ret false
  | Some b =>
      ok <- _is_local_branch_name b ExTrue ;;
      if ok then ret true
      else
        Ui.warning "Ticket #{0} refers to the non-existant local branch {1}. If you have not manually interacted with git, then this is a bug in sagedev. Removing the association from ticket #{0} to branch {1}." ;;;
        set_reg (unlink ticket) ;;;
        ret false
  end.

(** [_has_ticket_for_local_branch] (lines 3127-3129). *)
Definition _has_ticket_for_local_branch (b : pyname) : M bool :=
  _check_local_branch_name b ExTrue ;;;
  match b with
  | PStr n => get (fun s => bool_decide (is_Some (branch_to_ticket (reg s) !! n)))
  | _ => ret false
  end.

(** [_ticket_for_local_branch] (lines 3096-3099). *)
Definition _ticket_for_local_branch (b : pyname) : M Z :=
  _check_local_branch_name b ExTrue ;;;
  has <- _has_ticket_for_local_branch b ;;
  if negb has
  then raise (SageDevValueError "branch must be associated to a ticket")
  else
    match b with
    | PStr n =>
        t <- get (fun s => branch_to_ticket (reg s) !! n) ;;
        match t with
        | Some t => ret t
        | None => raise (KeyError "branch_to_ticket")
        end
    | _ => raise (KeyError "branch_to_ticket")
    end.

(** Modelled from the spec: [_current_ticket] (section 3): the ticket bound
    to the current branch, [None] on a detached [HEAD] or on a branch
    without ticket. *)
Definition _current_ticket : M (option Z) :=
  fun s =>
    match HEAD (git s) with
    | Detached _ => (inr None, s)
    | OnBranch b =>
        match branch_to_ticket (reg s) !! b with
        | Some _ =>
            match _ticket_for_local_branch (PStr b) s with
            | (inr t, s') => (inr (Some t), s')
            | (inl e, s') => (inl e, s')
            end
        | None => (inr None, s)
        end
    end.

(** Modelled from the spec: [_dependencies_for_ticket] (section 4.5, direct
    lookup; section 4.1, an absent key is no error). *)
Definition _dependencies_for_ticket (ticket : Z) : M (list Z) :=
  get (fun s => default [] (ticket_dependencies (reg s) !! ticket)).

(** Modelled from the spec: [_set_dependencies_for_ticket] (section 8,
    round-trip property): the list is stored in the order given, [None]
    clears it. *)
Definition _set_dependencies_for_ticket (ticket : Z)
    (deps : option (list Z)) : M unit :=
  match deps with
  | None => set_reg (with_dependencies (delete ticket))
  | Some l => set_reg (with_dependencies (insert ticket l))
  end.

(** Modelled from the spec: [_set_remote_branch_for_branch] (section 3,
    RemoteBranchLink). *)
Definition _set_remote_branch_for_branch (b : string)
    (remote_branch : option string) : M unit :=
  match remote_branch with
  | None => set_reg (with_remote_branches (delete b))
  | Some r =>
      _check_local_branch_name (PStr b) ExTrue ;;;
      set_reg (with_remote_branches (insert b r))
  end.

(** [_remote_branch_for_branch] (lines 3244-3245): the recorded remote
    branch; the master branch tracks itself. *)
Definition _remote_branch_for_branch (b : string) : M (option string) :=
  _check_local_branch_name (PStr b) ExTrue ;;;
  r <- get (fun s => branch_to_remote_branch (reg s) !! b) ;;
  match r with
  | Some r => ret (Some r)
  | None =>
      if String.eqb b MASTER_BRANCH then ret (Some MASTER_BRANCH)
      else ret None
  end.

(** Appending underscores until the name is free, as in
    [_new_local_branch_for_trash] (lines 3194-3197); [fuel] bounds the
    number of turns of the [while True] loop. *)
Fixpoint free_name (valid : string -> bool) (fuel : nat) (prefix b : string)
    : option string :=
  match fuel with
  | O => None
  | S fuel' =>
      let candidate := prefix +:+ b in
      if valid candidate then Some candidate
      else free_name valid fuel' prefix (b +:+ "_")
  end.

(** With as many turns as there are local branches, plus one, the loop has
    seen more names than there are branches (see [free_name_enough]). *)
Definition enough_fuel (g : git_repo) : nat := S (size (local_branches g)).

(** [_new_local_branch_for_trash] (lines 3184-3197). *)
Definition _new_local_branch_for_trash (b : string) : M string :=
  fun s =>
    match free_name (fun n => is_trash_name (git s) n ExFalse)
            (enough_fuel (git s)) "trash/" b with
    | Some n => (inr n, s)
    | None => (inl NonTermination, s)
    end.

(** Modelled from the spec: [_new_local_branch_for_ticket] (section 4.4,
    step 3: a new branch name derived from the ticket id), built like its
    sibling for trash names. *)
Definition _new_local_branch_for_ticket (ticket : Z) : M string :=
  fun s =>
    match free_name (fun n => is_local_branch_name (git s) n ExFalse)
            (enough_fuel (git s)) "ticket/" (pretty ticket) with
    | Some n => (inr n, s)
    | None => (inl NonTermination, s)
    end.

(** [_local_branch_for_ticket] (lines 3168-3182). *)
Definition _local_branch_for_ticket (ticket : Z) (pull_if_not_found : bool)
    : M string :=
  let lookup : M string :=
    t2b <- get (fun s => ticket_to_branch (reg s)) ;;
    match t2b !! ticket with
    | Some b => ret b
    | None => raise (KeyError "No branch for ticket #{0} in your repository.")
    end in
  has <- _has_local_branch_for_ticket ticket ;;
  if has then lookup
  else if negb pull_if_not_found
  then raise (KeyError "No branch for ticket #{0} in your repository.")
  else
    _check_ticket_name (PInt ticket) true ;;;
    b <- _new_local_branch_for_ticket ticket ;;
    remote_branch <- Trac._branch_for_ticket ticket ;;
    match remote_branch with
    | None =>
        raise (SageDevValueError
                 "Branch field is not set for ticket #{0} on trac.")
    | Some remote_branch =>
        try_except (Git.fetch remote_branch)
          (fun e =>
             match e with
             | GitError _ =>
                 raise (SageDevValueError
                          "Branch %s does not exist on the remote server.")
             | _ => raise e
             end) ;;;
        Git.branch b FetchHead ;;;
        _set_local_branch_for_ticket ticket (Some b) ;;;
        has' <- _has_local_branch_for_ticket ticket ;;
        if has' then lookup
        else raise (KeyError "No branch for ticket #{0} in your repository.")
    end.

(** Modelled from the spec: [_remote_branch_for_ticket] (section 4.6, push:
    the recorded RemoteBranchLink, else a per-user default derived from the
    ticket). *)
Definition _remote_branch_for_ticket (ticket : Z) : M string :=
  user <- get (fun s => username (trac s)) ;;
  let default_ := "u/" +:+ user +:+ "/ticket/" +:+ pretty ticket in
  has <- _has_local_branch_for_ticket ticket ;;
  if negb has then ret default_
  else
    b <- _local_branch_for_ticket ticket false ;;
    r <- _remote_branch_for_branch b ;;
    match r with
    | Some r => ret r
    | None => ret default_
    end.

(** ** The working-tree guard *)

(** [reset_to_clean_state] (lines 1205-1249). *)
Definition reset_to_clean_state (error_unless_clean helpful : bool)
    : M unit :=
  states <- Git.get_state ;;
  match states with
  | [] => ret tt
  | _ :: _ =>
      Ui.show "Repository is in an unclean state ({0}). Resetting the state will discard any uncommited changes." ;;;
      sel <- Ui.select "Reset repository?" ["reset"; "cancel"] 1 ;;
      if String.eqb sel "cancel" then
        if negb error_unless_clean then ret tt
        else
          when helpful
            (Ui.info "(use {0} to save changes in a new commit)") ;;;
          raise (OperationCancelledError
                   "User requested not to clean the current state.")
      else if String.eqb sel "reset" then Git.reset_to_clean_state
      else raise AssertionError
  end.

(** [clean] (lines 1250-1303). *)
Definition clean (error_unless_clean : bool) : M unit :=
  try_except (reset_to_clean_state error_unless_clean true)
    (fun e =>
       match e with
       | OperationCancelledError _ =>
           Ui.error "Can not clean the working directory unless in a clean state." ;;;
           raise e
       | _ => raise e
       end) ;;;
  dirty <- Git.has_uncommitted_changes ;;
  if negb dirty then ret tt
  else
    Ui.show "The following files in your working directory contain uncommitted changes:" ;;;
    let cancel := if error_unless_clean then "cancel" else "keep" in
    sel <- Ui.select "Discard changes?" ["discard"; cancel; "stash"] 1 ;;
    if String.eqb sel "discard" then Git.clean_wrapper
    else if String.eqb sel cancel then
      if error_unless_clean
      then raise (OperationCancelledError
                    "User requested not to clean the working directory.")
      else ret tt
    else if String.eqb sel "stash" then
      Git.stash ;;;
      Ui.show "Your changes have been moved to the git stash stack. To re-apply your changes later use git stash apply."
    else raise AssertionError.

(** ** Checkout *)

Definition aborting_checkout (helpful : bool) (e : exn) : M unit :=
  match e with
  | OperationCancelledError _ =>
      when helpful
        (Ui.show "Aborting checkout of branch {0}." ;;;
         Ui.info "(use {0} to save changes in a new commit)") ;;;
      raise e
  | _ => raise e
  end.

(** [checkout_branch] (lines 523-706). *)
Definition checkout_branch (b : string) (helpful : bool) : M unit :=
  _check_local_branch_name (PStr b) ExTrue ;;;
  try_except (reset_to_clean_state true false) (aborting_checkout helpful) ;;;
  current_commit <- get (fun s => Git.commit_for_ref (git s) Head) ;;
  target_commit <- get (fun s => Git.commit_for_ref (git s) (Branch b)) ;;
  try_except
    (clean (negb (bool_decide (current_commit = target_commit))))
    (aborting_checkout helpful) ;;;
  (* this leaves locally modified files intact (we only allow this to
     happen if current_commit == target_commit *)
  Git.checkout b.

(** The body of the [try] of [checkout_ticket] (lines 471-507): the
    creation of the branch [b] for [ticket].  [base] is the base as
    resolved on lines 460-467. *)
Definition creating_branch (ticket : Z) (b : string)
    (base : pyname) (remote_branch : option string) : M unit :=
    (if bool_decide (base = PStr "") then
       match remote_branch with
       | None =>
           (* branch field is not set on ticket: create a new branch off
              master *)
           Git.branch b (Branch MASTER_BRANCH)
       | Some remote_branch =>
           (* pull the branch mentioned on trac *)
           ok <- _is_remote_branch_name remote_branch ExTrue ;;
           if negb ok then
             Ui.error "The branch field on ticket #{0} is set to the non-existent {1}. Please set the field on trac to a field value." ;;;
             Ui.info "(use {0} to edit the ticket description)" ;;;
             raise (OperationCancelledError "remote branch does not exist")
           else
             Git.fetch remote_branch ;;;
             Git.branch b FetchHead
       end
     else
       _check_local_branch_name base ExTrue ;;;
       match remote_branch with
       | Some _ =>
           Ui.show "About to create a new branch for #{0} based on {1}. However, the trac ticket for #{0} already refers to the branch {2}. The new branch will not contain any work that has already been done on {2}." ;;;
           ok <- Ui.confirm "Create fresh branch?" false ;;
           if negb ok then
             has <- _has_local_branch_for_ticket ticket ;;
             (if has then _ <- _local_branch_for_ticket ticket false ;; ret tt
              else ret tt) ;;;
             Ui.info "Use {1} to work on a local copy of the existing remote branch {0}." ;;;
             raise (OperationCancelledError "user requested")
           else ret tt
       | None => ret tt
       end ;;;
       match base with
       | PStr base => Git.branch b (Branch base)
       | _ => raise (TypeError "base")
       end).

(** The [try]/[except] of [checkout_ticket] (lines 470-512): when anything
    in the body raises, the branch is deleted if it exists, and the
    exception is raised again. *)
Definition create_branch_for_ticket (ticket : Z) (b : string)
    (base : pyname) (remote_branch : option string) : M unit :=
  try_except (creating_branch ticket b base remote_branch)
    (fun e =>
       ex <- _is_local_branch_name b ExTrue ;;
       when ex (Git.branch_delete b) ;;;
       raise e).

(** [checkout_ticket] (lines 172-521). *)
Definition checkout_ticket (ticket : pyname) (b : option string)
    (base : pyname) : M unit :=
  _check_ticket_name ticket true ;;;
  ticket <- lift (_ticket_from_ticket_name ticket) ;;
  (* if branch points to an existing branch make it the ticket's branch
     and check it out *)
  existing <-
    match b with
    | Some b => _is_local_branch_name b ExTrue
    | None => ret false
    end ;;
  match b, existing with
  | Some b, true =>
      if negb (bool_decide (base = PStr MASTER_BRANCH)) then
        raise (SageDevValueError
                 "base must not be specified if branch is an existing branch")
      else if String.eqb b MASTER_BRANCH then
        raise (SageDevValueError "branch must not be the master branch")
      else
        _set_local_branch_for_ticket ticket (Some b) ;;;
        checkout_branch b true
  | _, _ =>
      (* if there is a branch for ticket locally, check it out *)
      has <-
        match b with
        | None => _has_local_branch_for_ticket ticket
        | Some _ => ret false
        end ;;
      if has then
        b <- _local_branch_for_ticket ticket false ;;
        checkout_branch b true
      else
        b <-
          match b with
          | None => _new_local_branch_for_ticket ticket
          | Some b => ret b
          end ;;
        (* branch does not exist, so we have to create a new branch for
           ticket *)
        dependencies <- Trac.dependencies ticket ;;
        base <-
          match base with
          | PNone =>
              cur <- _current_ticket ;;
              match cur with
              | None =>
                  raise (SageDevValueError
                           "currently on no ticket, base must not be None")
              | Some t => ret (PInt t)
              end
          | _ => ret base
          end ;;
        resolved <-
          (if _is_ticket_name base then
             t <- lift (_ticket_from_ticket_name base) ;;
             (* we create a new branch for this ticket - ignore the
                dependencies which are on trac *)
             bb <- _local_branch_for_ticket t true ;;
             ret ([t], PStr bb)
           else ret (dependencies, base)) ;;
        let dependencies := fst resolved in
        let base := snd resolved in
        remote_branch <- Trac._branch_for_ticket ticket ;;
        create_branch_for_ticket ticket b base remote_branch ;;;
        _set_local_branch_for_ticket ticket (Some b) ;;;
        match dependencies with
        | [] => ret tt
        | _ :: _ => _set_dependencies_for_ticket ticket (Some dependencies)
        end ;;;
        r <- _remote_branch_for_ticket ticket ;;
        _set_remote_branch_for_branch b (Some r) ;;;
        checkout_branch b true
  end.

(** [checkout] (lines 94-171). *)
Definition checkout (ticket : pyname) (b : option string) (base : pyname)
    : M unit :=
  match ticket, b with
  | PNone, Some b =>
      if negb (bool_decide (base = PStr "")) then
        raise (SageDevValueError
                 "base must not be specified if no ticket is specified.")
      else checkout_branch b true
  | PNone, None =>
      raise (SageDevValueError
               "at least one of ticket or branch must be specified.")
  | _, _ => checkout_ticket ticket b base
  end ;;;
  ticket <- _current_ticket ;;
  _ <- Git.current_branch ;;
  match ticket with
  | Some t =>
      if negb (t =? 0)
      then Ui.show "On ticket #{0} with associated local branch {1}."
      else Ui.show "On local branch {0} without associated ticket."
  | None => Ui.show "On local branch {0} without associated ticket."
  end ;;;
  Ui.info "Use {0} to include another ticket/branch. Use {1} to save changes into a new commit.".

(** ** Abandon *)

(** Python truth value of a ticket number held in a variable: [None] and
    [0] are false. *)
Definition truthy (t : option Z) : bool :=
  match t with
  | Some t => negb (t =? 0)
  | None => false
  end.

(** [abandon] (lines 1735-1825). *)
Definition abandon (ticket_or_branch : pyname) (helpful : bool) : M unit :=
  r <-
    (if _is_ticket_name ticket_or_branch then
       t <- lift (_ticket_from_ticket_name ticket_or_branch) ;;
       has <- _has_local_branch_for_ticket t ;;
       if negb has then
         raise (SageDevValueError
                  "Cannot abandon #{0}: no local branch for this ticket.")
       else
         b <- _local_branch_for_ticket t false ;;
         ret (Some t, PStr b)
     else ret (None, ticket_or_branch)) ;;
  let ticket := fst r in
  let ticket_or_branch := snd r in
  has <- _has_ticket_for_local_branch ticket_or_branch ;;
  ticket <-
    (if has then t <- _ticket_for_local_branch ticket_or_branch ;; ret (Some t)
     else ret ticket) ;;
  match ticket_or_branch with
  | PStr b =>
      ok <- _is_local_branch_name b ExAny ;;
      if ok then
        _check_local_branch_name (PStr b) ExTrue ;;;
        if String.eqb b MASTER_BRANCH then
          Ui.error "Cannot delete the master branch." ;;;
          raise (OperationCancelledError "protecting the user")
        else
          try_except
            (cur <- Git.current_branch ;;
             if String.eqb cur b then
               Ui.error "Cannot delete {0}: is the current branch." ;;;
               Ui.info "(use {0} to switch to the master branch)" ;;;
               raise (OperationCancelledError "can not delete current branch")
             else ret tt)
            (fun e =>
               match e with
               | DetachedHeadError => ret tt
               | _ => raise e
               end) ;;;
          new_branch <- _new_local_branch_for_trash b ;;
          Git.branch_move b new_branch ;;;
          Ui.show "Moved your branch {0} to {1}."
      else
        raise (SageDevValueError
          "ticket_or_branch must be the name of a ticket or a local branch")
  | _ => raise (ValueError "name must be a string")
  end ;;;
  if truthy ticket then
    match ticket with
    | Some t =>
        _set_local_branch_for_ticket t None ;;;
        _set_dependencies_for_ticket t None ;;;
        when helpful
          (Ui.info "Use {0} to restart working on #{1} with a clean copy of the master branch.")
    | None => ret tt
    end
  else ret tt.

(** ** Merge *)

(** The interactive conflict resolution of [merge] (lines 2192-2213). *)
Definition resolve_conflicts : M unit :=
  try_except
    (Ui.show "Automatic merge failed, there are conflicting commits." ;;;
     Ui.show "Please edit the affected files to resolve the conflicts. When you are finished, your resolution will be commited." ;;;
     sel <- Ui.select "Finished?" ["ok"; "abort"] 1 ;;
     if String.eqb sel "ok" then
       Git.commit_all ;;;
       Ui.show "Created a commit from your conflict resolution."
     else if String.eqb sel "abort" then
       raise (OperationCancelledError "user requested")
     else raise AssertionError)
    (fun e =>
       Git.reset_to_clean_state ;;;
       Git.clean_wrapper ;;;
       raise e).

(** The end of [merge] (lines 2214-2222): the merged ticket is appended to
    the dependencies of the current ticket unless it is already there. *)
Definition merge_record_dependency (create_dependency : bool)
    (ticket current_ticket : option Z) : M unit :=
  if create_dependency then
    (* assert ticket and current_ticket *)
    match ticket, current_ticket with
    | Some ticket, Some current_ticket =>
        if (ticket =? 0) || (current_ticket =? 0) then raise AssertionError
        else
          dependencies <- _dependencies_for_ticket current_ticket ;;
          if bool_decide (ticket ∈ dependencies) then
            Ui.debug "Not recording dependency on #{0} because #{1} already depends on #{0}."
          else
            Ui.show "Added dependency on #{0} to #{1}." ;;;
            _set_dependencies_for_ticket current_ticket
              (Some (dependencies ++ [ticket])%list)
    | _, _ => raise AssertionError
    end
  else ret tt.

(** [merge] up to the merge itself (lines 2100-2213); [self_merge] stands
    for the calls that the ['dependencies'] case makes to [merge].  The
    result is [None] when the dependencies have been merged and [merge]
    returns, and otherwise the merged ticket, the current ticket and
    [create_dependency] as they stand on line 2214. *)
Definition merge_changes
    (self_merge : pyname -> option bool -> option bool -> M unit)
    (ticket_or_branch : pyname) (pull create_dependency : option bool)
    : M (option (option Z * option Z * bool)) :=
  try_except (reset_to_clean_state true true ;;; clean true)
    (fun e =>
       match e with
       | OperationCancelledError _ =>
           Ui.error "Cannot merge because working directory is not in a clean state." ;;;
           Ui.info "(use {0} to commit your changes)" ;;;
           raise (OperationCancelledError "working directory not clean")
       | _ => raise e
       end) ;;;
  current_branch <-
    try_except Git.current_branch
      (fun e =>
         match e with
         | DetachedHeadError =>
             Ui.error "Not on any branch." ;;;
             Ui.info "(use {0} to checkout a branch)" ;;;
             raise (OperationCancelledError "detached head")
         | _ => raise e
         end) ;;
  current_ticket <- _current_ticket ;;
  if bool_decide (ticket_or_branch = PStr "dependencies") then
    match current_ticket with
    | None =>
        raise (SageDevValueError
                 "dependencies can only be merged if currently on a ticket.")
    | Some current_ticket =>
        if bool_decide (pull = Some false) then
          raise (SageDevValueError
                   "pull must not be False when merging dependencies.")
        else if negb (bool_decide (create_dependency = None)) then
          raise (SageDevValueError
            "create_dependency must not be set when merging dependencies.")
        else
          deps <- _dependencies_for_ticket current_ticket ;;
          fold_right
            (fun dependency rest =>
               self_merge (PInt dependency) (Some true) None ;;; rest)
            (ret None) deps
    end
  else
    (* (ticket, branch, remote_branch, pull, create_dependency) *)
    r <-
      (if _is_ticket_name ticket_or_branch then
         ticket <- lift (_ticket_from_ticket_name ticket_or_branch) ;;
         if bool_decide (Some ticket = current_ticket) then
           raise (SageDevValueError "cannot merge a ticket into itself")
         else
           _check_ticket_name (PInt ticket) true ;;;
           let pull := default true pull in
           let create_dependency := default true create_dependency in
           has <- _has_local_branch_for_ticket ticket ;;
           b <- (if has then b <- _local_branch_for_ticket ticket false ;;
                             ret (Some b)
                 else ret None) ;;
           remote_branch <-
             (if pull then
                rb <- Trac._branch_for_ticket ticket ;;
                match rb with
                | None =>
                    Ui.error "Cannot merge remote branch for #{0} because no branch has been set on the trac ticket." ;;;
                    raise (OperationCancelledError
                             "remote branch not set on trac")
                | Some rb => ret (Some rb)
                end
              else ret None) ;;
           ret (Some ticket, b, remote_branch, pull, create_dependency)
       else
         match ticket_or_branch with
         | PStr name =>
             as_local <-
               (match pull with
                | Some false => ret true
                | None =>
                    ex <- _is_remote_branch_name name ExTrue ;;
                    ret (negb ex)
                | Some true => ret false
                end) ;;
             if as_local then
               (* ticket_or_branch should be interpreted as a local branch
                  name *)
               _check_local_branch_name (PStr name) ExTrue ;;;
               if bool_decide (create_dependency = Some true) then
                 has <- _has_ticket_for_local_branch (PStr name) ;;
                 if has then
                   ticket <- _ticket_for_local_branch (PStr name) ;;
                   ret (Some ticket, Some name, None, false, true)
                 else
                   raise (SageDevValueError
                     "create_dependency must not be True if ticket_or_branch is a local branch which is not associated to a ticket.")
               else ret (None, Some name, None, false, false)
             else
               (* ticket_or_branch should be interpreted as a remote branch
                  name *)
               _check_remote_branch_name name ExTrue ;;;
               if bool_decide (create_dependency = Some true) then
                 raise (SageDevValueError
                   "create_dependency must not be True if ticket_or_branch is a local branch.")
               else ret (None, None, Some name, true, false)
         | _ => raise (ValueError "name must be a string")
         end) ;;
    let '(ticket, b, remote_branch, pull, create_dependency) := r in
    local_merge_branch <-
      (if pull then
         match remote_branch with
         | None => raise AssertionError
         | Some remote_branch =>
             ex <- _is_remote_branch_name remote_branch ExTrue ;;
             if negb ex then
               Ui.error "Can not merge remote branch {0}. It does not exist." ;;;
               raise (OperationCancelledError "no such branch")
             else
               Ui.show "Merging the remote branch {0} into the local branch {1}." ;;;
               Git.fetch remote_branch ;;;
               ret FetchHead
         end
       else
         match b with
         | None => raise AssertionError
         | Some b =>
             Ui.show "Merging the local branch {0} into the local branch {1}." ;;;
             ret (Branch b)
         end) ;;
    try_except
      (Git.merge local_merge_branch ;;;
       Ui.show "Automatic merge successful." ;;;
       Ui.info "(use {0} to commit your merge)")
      (fun e =>
         match e with
         | GitError _ => resolve_conflicts
         | _ => raise e
         end) ;;;
    ret (Some (ticket, current_ticket, create_dependency)).

(** [merge] (lines 1911-2222). *)
Definition merge_with
    (self_merge : pyname -> option bool -> option bool -> M unit)
    (ticket_or_branch : pyname) (pull create_dependency : option bool)
    : M unit :=
  r <- merge_changes self_merge ticket_or_branch pull create_dependency ;;
  match r with
  | None => ret tt
  | Some (ticket, current_ticket, create_dependency) =>
      merge_record_dependency create_dependency ticket current_ticket
  end.

(** The calls made for the dependencies carry a ticket number, never the
    string ['dependencies']: they do not call [merge] again. *)
Definition merge (ticket_or_branch : pyname)
    (pull create_dependency : option bool) : M unit :=
  merge_with (merge_with (fun _ _ _ => raise NonTermination))
    ticket_or_branch pull create_dependency.

(** ** Push

    Of [push] (lines 896-1204) the available lines are the messages, the
    test for a push that changes nothing (1132-1137), the upload itself
    (1138-1155) and the reconciliation of the dependencies (1175-1204).
    The phases below keep these lines where they are and complete them as
    documented at each phase. *)

(** Modelled from the spec: the resolution of the ticket, of the local
    branch and of the destination (section 4.6, Push: explicit argument,
    else the recorded RemoteBranchLink, else a per-user default), around
    the messages of lines 1094-1121.  Returns the ticket, the local branch,
    the remote branch and [user_confirmation]. *)
Definition push_resolve (ticket : pyname) (remote_branch : option string)
    : M (option Z * string * string * bool) :=
  ticket <-
    (match ticket with
     | PNone => _current_ticket
     | _ => t <- lift (_ticket_from_ticket_name ticket) ;; ret (Some t)
     end) ;;
  match ticket with
  | Some t => _check_ticket_name (PInt t) true
  | None => ret tt
  end ;;;
  b <-
    try_except Git.current_branch
      (fun e =>
         match e with
         | DetachedHeadError =>
             Ui.error "Cannot push while in detached HEAD state." ;;;
             raise (OperationCancelledError
                      "cannot push while in detached HEAD state")
         | _ => raise e
         end) ;;
  remote_branch <-
    (match remote_branch with
     | Some r => ret r
     | None =>
         if truthy ticket then
           match ticket with
           | Some t => _remote_branch_for_ticket t
           | None => raise AssertionError
           end
         else
           r <- _remote_branch_for_branch b ;;
           match r with
           | Some r => ret r
           | None =>
               raise (SageDevValueError
                 "remote_branch must be specified since the current branch has no remote branch set.")
           end
     end) ;;
  _check_remote_branch_name remote_branch ExAny ;;;
  (* whether the user already confirmed that he really wants to push and
     set the branch field *)
  user_confirmation <-
    (match ticket with
     | None => ret false
     | Some t =>
         has <- _has_local_branch_for_ticket t ;;
         if has then
           lb <- _local_branch_for_ticket t false ;;
           if String.eqb lb b then ret false
           else
             Ui.show "About to push the branch {0} to {1} for ticket #{2}. However, your local branch for ticket #{2} seems to be {3}." ;;;
             ok <- Ui.confirm " Do you really want to proceed?" false ;;
             if ok then
               Ui.info "Use {2} to permanently set {1} as the branch associated to ticket #{0}." ;;;
               ret true
             else raise (OperationCancelledError "user requested")
         else
           hast <- _has_ticket_for_local_branch (PStr b) ;;
           if hast then
             t' <- _ticket_for_local_branch (PStr b) ;;
             if t' =? t then ret false
             else
               Ui.show "About to push the local branch {0} to remote branch {1} for ticket #{2}. However, that branch is already associated to ticket #{3}." ;;;
               ok <- Ui.confirm " Do you really want to proceed?" false ;;
               if ok then
                 Ui.info "Use {2} to permanently set the branch associated to ticket #{0} to {1}. To create a new branch from {1} for #{0}, use {3} and {4}." ;;;
                 ret true
               else raise (OperationCancelledError "user requested")
           else ret false
     end) ;;
  ret (ticket, b, remote_branch, user_confirmation).

(** [_upload_ssh_key] makes sure that the user has access to the
    repository; it touches none of the modelled state. *)
Definition _upload_ssh_key : M unit := ret tt.

(** The upload (lines 1123-1156).  The result is [false] when [push]
    returns at the test of lines 1132-1137 without pushing.

    Modelled from the spec: the tests around the messages of lines
    1124-1131 (section 4.6: a missing remote branch is created on
    confirmation; when the remote head is not an ancestor of the local head
    and [force] is unset the push is refused and [force] suggested). *)
Definition push_upload (b remote_branch : string) (force : bool) : M bool :=
  Ui.debug "Pushing your changes in {0} to {1}." ;;;
  try_except
    (remote_branch_exists <- _is_remote_branch_name remote_branch ExTrue ;;
     (if negb remote_branch_exists then
        Ui.show "The branch {0} does not exist on the remote server." ;;;
        ok <- Ui.confirm "Create new remote branch?" true ;;
        if negb ok then
          raise (OperationCancelledError
                   "User did not want to create remote branch.")
        else ret tt
      else Git.fetch remote_branch) ;;;
     (* check whether force is necessary *)
     (if remote_branch_exists then
        child <- Git.is_child_of (Branch b) FetchHead ;;
        if negb child && negb force then
          Ui.error "Not pushing your changes because they would discard some of the commits on the remote branch {0}." ;;;
          Ui.info "Use {0} if you really want to overwrite the remote branch." ;;;
          raise (OperationCancelledError "not a fast-forward")
        else ret tt
      else ret tt) ;;;
     (* check whether this is a nop *)
     local_commit <- get (fun s => Git.commit_for_branch (git s) b) ;;
     fetched <- get (fun s => Git.commit_for_ref (git s) FetchHead) ;;
     if remote_branch_exists && negb force
        && bool_decide (local_commit = fetched) then
       Ui.info "Remote branch {0} is idential to your local branch {1}" ;;;
       Ui.debug "(use {0} to commit changes before pushing)" ;;;
       ret false
     else
       try_except
         ((if negb force && remote_branch_exists then
             Ui.show "Local commits that are not on the remote branch {0}:" ;;;
             ok <- Ui.confirm "Push to remote branch?" true ;;
             if negb ok then raise (OperationCancelledError "user requested")
             else ret tt
           else ret tt) ;;;
          _upload_ssh_key ;;;
          Git.push b remote_branch force)
         (fun e => raise e) ;;;
       Ui.debug "Changes in {0} have been pushed to {1}." ;;;
       ret true)
    (fun e =>
       match e with
       | OperationCancelledError _ =>
           Ui.debug "Did not push any changes." ;;;
           raise e
       | _ => raise e
       end).

(** The update of the branch field of the ticket (lines 1157-1174).

    The test that guards the refusal of lines 1161-1170 is restored from
    the refusal itself: it is reported when the branch and the current
    value of the field "have diverged", and it tells the user that
    [push --force] overwrites the field; so the field is overwritten when
    [force] is set or when the fetched value of the field is an ancestor of
    the local branch. *)
Definition push_branch_field (ticket : Z) (b remote_branch : string)
    (force : bool) : M unit :=
  current_remote_branch <- Trac._branch_for_ticket ticket ;;
  if bool_decide (current_remote_branch = Some remote_branch) then
    Ui.debug "Not setting the branch field for ticket #{0} because it already points to your branch {1}."
  else
    Ui.debug "Setting the branch field of ticket #{0} to {1}." ;;;
    match current_remote_branch with
    | Some current_remote_branch =>
        Git.fetch current_remote_branch ;;;
        anc <- Git.is_ancestor_of FetchHead (Branch b) ;;
        (if force || anc then ret tt
         else
           Ui.error "Not setting the branch field for ticket #{0} to {1} because {1} and the current value of the branch field {2} have diverged." ;;;
           Ui.info "Use {0} to overwrite the branch field. Use {1} to merge the changes introduced by the remote {2} into your local branch." ;;;
           raise (OperationCancelledError "not a fast-forward")) ;;;
        Ui.show "The branch field of ticket #{0} needs to be updated from its current value {1} to {2}" ;;;
        ok <- Ui.confirm "Change the Branch: field?" true ;;
        if negb ok then raise (OperationCancelledError "user requested")
        else ret tt
    | None => ret tt
    end ;;;
    Trac.set_branch ticket remote_branch.

(** The reconciliation of the dependencies (lines 1175-1204). *)
Definition push_dependencies (ticket : option Z) (b : string) : M unit :=
  has <- (if truthy ticket then _has_ticket_for_local_branch (PStr b)
          else ret false) ;;
  match ticket, has with
  | Some ticket, true =>
      old_dependencies <- Trac.dependencies ticket ;;
      t <- _ticket_for_local_branch (PStr b) ;;
      new_dependencies <- _dependencies_for_ticket t ;;
      upload <-
        (if negb (bool_decide (old_dependencies = new_dependencies)) then
           match old_dependencies with
           | _ :: _ =>
               Ui.show "Trac ticket #{0} depends on {1} while your local branch depends on {2}. Updating dependencies is recommended but optional." ;;;
               sel <- Ui.select "Action for dependencies?"
                        ["upload"; "download"; "keep"] 0 ;;
               if String.eqb sel "keep" then ret false
               else if String.eqb sel "download" then
                 _set_dependencies_for_ticket ticket (Some old_dependencies) ;;;
                 Ui.debug "Setting dependencies for #{0} to {1}." ;;;
                 ret false
               else if String.eqb sel "upload" then ret true
               else raise (ValueError "NotImplementedError")
           | [] => ret true
           end
         else
           Ui.debug "Not uploading your dependencies for ticket #{0} because the dependencies on trac are already up-to-date." ;;;
           ret false) ;;
      if upload then
        Ui.show "Uploading your dependencies for ticket #{0}: {1} => {2}" ;;;
        (* Don't send an e-mail notification *)
        Trac.set_dependencies ticket new_dependencies
      else ret tt
  | _, _ => ret tt
  end.

(** [push] (lines 896-1204). *)
Definition push (ticket : pyname) (remote_branch : option string)
    (force : bool) : M unit :=
  r <- push_resolve ticket remote_branch ;;
  let '(ticket, b, remote_branch, user_confirmation) := r in
  pushed <- push_upload b remote_branch force ;;
  if negb pushed then ret tt
  else
    match ticket with
    | Some t => push_branch_field t b remote_branch force
    | None => ret tt
    end ;;;
    push_dependencies ticket b.

(** * Specification vocabulary *)

(** A frame: a relation that a computation maintains between the state it
    starts in and the state it ends in, whatever its outcome. *)
Definition stable (R : state -> state -> Prop) {A} (m : M A) : Prop :=
  forall s, R s (snd (m s)).

(** ** Sample states, used to run the model on concrete inputs *)

Module Sample.

(** A repository whose history is linear: commit [a] is an ancestor of
    commit [b] when [a <= b]. *)
Definition repo (branches : gmap string commit) (head : head_ref)
    (remote : gmap string commit) : git_repo :=
  GitRepo branches head None [] [] [] [] [] remote Nat.leb ∅ ∅ None false.

Definition server (field : gmap Z string) (deps : gmap Z (list Z))
    : trac_server :=
  TracServer "alice" {[ 1; 2; 3 ]} field deps.

Definition empty_registry : registry := Registry ∅ ∅ ∅ ∅.

Definition ui (ans : list string) : user_interface := UserInterface ans [].

(** On [master], with a branch for ticket 1. *)
Definition on_master : state :=
  State (repo {[ "master" := 0%nat; "ticket/1" := 1%nat ]}
              (OnBranch "master") ∅)
        (server ∅ ∅)
        (Registry {[ 1 := "ticket/1" ]} {[ "ticket/1" := 1 ]} ∅ ∅)
        (ui []).

(** On the branch of ticket 1; ticket 2 has a branch as well. *)
Definition on_ticket_1 : state :=
  State (repo {[ "master" := 0%nat; "ticket/1" := 1%nat;
                 "ticket/2" := 2%nat ]}
              (OnBranch "ticket/1") ∅)
        (server ∅ ∅)
        (Registry {[ 1 := "ticket/1"; 2 := "ticket/2" ]}
                  {[ "ticket/1" := 1; "ticket/2" := 2 ]} ∅ ∅)
        (ui []).



(** On the branch of ticket 1, at commit 1; the remote branch of alice is
    already at commit 2 and is the value of the branch field of ticket 1. *)
Definition behind_remote : state :=
  State (repo {[ "master" := 0%nat; "ticket/1" := 1%nat ]}
              (OnBranch "ticket/1")
              {[ "u/alice/ticket/1" := 2%nat ]})
        (server {[ 1 := "u/alice/ticket/1" ]} ∅)
        (Registry {[ 1 := "ticket/1" ]} {[ "ticket/1" := 1 ]} ∅
                  {[ "ticket/1" := "u/alice/ticket/1" ]})
        (ui []).

(** Two users: bob is on his branch of ticket 1, at commit 3; the branch
    field of the ticket points to the branch of alice, at commit 5, which
    is no ancestor of commit 3. *)
Definition field_moved_on : state :=
  State (repo {[ "master" := 0%nat; "ticket/1" := 3%nat ]}
              (OnBranch "ticket/1")
              {[ "u/alice/ticket/1" := 5%nat; "u/bob/ticket/1" := 1%nat ]})
        (TracServer "bob" {[ 1 ]} {[ 1 := "u/alice/ticket/1" ]} ∅)
        (Registry {[ 1 := "ticket/1" ]} {[ "ticket/1" := 1 ]} ∅
                  {[ "ticket/1" := "u/bob/ticket/1" ]})
        (ui []).

(** Ticket 2 has a branch on the server, ticket 3 as well; no local branch
    for either; the user is going to answer [no]. *)
Definition base_to_pull : state :=
  State (repo {[ "master" := 0%nat ]} (OnBranch "master")
              {[ "u/bob/ticket/2" := 2%nat; "u/bob/ticket/3" := 3%nat ]})
        (server {[ 2 := "u/bob/ticket/2"; 3 := "u/bob/ticket/3" ]} ∅)
        empty_registry (ui ["no"]).

End Sample.

(** [underscored b k] is [b] followed by [k] underscores: the name tried at
    the [k]-th turn of the loops that look for a free branch name. *)
Fixpoint underscored (b : string) (k : nat) : string :=
  match k with
  | O => b
  | S k' => underscored (b +:+ "_") k'
  end.

(** ** Frames *)

(** Nothing but the working tree, the fetched commit, the remote repository
    and the user interface changed. *)
Definition quiet (s s' : state) : Prop :=
  local_branches (git s') = local_branches (git s)
  /\ HEAD (git s') = HEAD (git s)
  /\ ancestry (git s') = ancestry (git s)
  /\ reg s' = reg s
  /\ trac s' = trac s.

(** What [merge] maintains before it records a dependency: a current
    branch [b] stays the current branch, stays a branch and stays bound to
    its ticket, and the dependencies are as they were. *)
Definition merge_frame (b : string) (s s' : state) : Prop :=
  (HEAD (git s) = OnBranch b -> HEAD (git s') = OnBranch b)
  /\ (is_local_branch_name (git s) b ExTrue = true ->
      is_local_branch_name (git s') b ExTrue = true
      /\ branch_to_ticket (reg s') !! b = branch_to_ticket (reg s) !! b)
  /\ ticket_dependencies (reg s') = ticket_dependencies (reg s).

(** The dependencies recorded locally for a ticket. *)
Definition dependencies_of (s : state) (t : Z) : list Z :=
  default [] (ticket_dependencies (reg s) !! t).

(** The branches, their commits, the registry and the ticket server are
    as they were. *)
Definition same_refs (s s' : state) : Prop :=
  local_branches (git s') = local_branches (git s)
  /\ reg s' = reg s
  /\ trac s' = trac s.

(** What the creation of the branch [b] maintains: [HEAD] and every other
    branch. *)
Definition other_branches (b : string) (s s' : state) : Prop :=
  HEAD (git s') = HEAD (git s)
  /\ forall b', b' <> b ->
       local_branches (git s') !! b' = local_branches (git s) !! b'.

(** * Further operations of [SageDev] *)

(** ** The state of the master branch *)

(** [_is_master_uptodate] (lines 2917-2988).  [action_if_not] is [None] or
    a string. *)
Definition _is_master_uptodate (action_if_not : option string) : M bool :=
  remote_master <- _remote_branch_for_branch MASTER_BRANCH ;;
  match remote_master with
  | Some remote_master =>
      Git.fetch remote_master ;;;
      child <- Git.is_child_of FetchHead (Branch MASTER_BRANCH) ;;
      if child then
        fetched <- get (fun s => Git.commit_for_ref (git s) FetchHead) ;;
        local_commit <-
          get (fun s => Git.commit_for_branch (git s) MASTER_BRANCH) ;;
        if negb (bool_decide (fetched = local_commit)) then
          match action_if_not with
          | None => ret tt
          | Some action =>
              if String.eqb action "error" then
                Ui.debug "To upgrade your {0} branch to the latest version, use {1}." ;;;
                raise (SageDevValueError
                  "Your version of sage, i.e., your {0} branch, is out of date.")
              else if String.eqb action "warning" then
                Ui.warning "Your version of sage, i.e., your {0} branch, is out of date. Your command might fail or produce unexpected results." ;;;
                Ui.debug "To upgrade your {0} branch to the latest version, use {1}."
              else raise (ValueError "")
          end ;;;
          ret false
        else ret true
      else ret true
  | None => ret true
  end.

(** ** Returning to a release *)

(** The ref a name given to [git checkout] stands for: the strings
    ['HEAD'] and ['FETCH_HEAD'], or a branch.  The backend of this
    development knows no tags. *)
Definition ref_of_name (name : string) : gitref :=
  if String.eqb name "HEAD" then Head
  else if String.eqb name "FETCH_HEAD" then FetchHead
  else Branch name.

(** [git checkout ref --detach]; as for [Git.checkout], a branch in
    [blocked] cannot be checked out when the commit changes. *)
Definition checkout_detach (ref : gitref) : M unit :=
  fun s =>
    let g := git s in
    match Git.commit_for_ref g ref with
    | Some c =>
        let refused :=
          match ref with
          | Branch b =>
              negb (bool_decide (Git.commit_for_ref g Head = Some c))
              && bool_decide (b ∈ blocked g)
          | _ => false
          end in
        if refused then (inl (GitError "checkout"), s)
        else (inr tt, State (Git.with_HEAD (Detached c) g)
                            (trac s) (reg s) (UI s))
    | None => (inl (GitError "checkout"), s)
    end.

(** [vanilla] (lines 2306-2347). *)
Definition vanilla (release : string) : M unit :=
  try_except (reset_to_clean_state true true ;;; clean true)
    (fun e =>
       match e with
       | OperationCancelledError _ =>
           Ui.error "Cannot checkout a release while your working directory is not clean." ;;;
           raise (OperationCancelledError "working directory not clean")
       | _ => raise e
       end) ;;;
  (* we do not do any checking on the argument here, trying to be liberal
     about what are valid inputs *)
  try_except (checkout_detach (ref_of_name release))
    (fun e =>
       match e with
       | GitError _ =>
           try_except (Git.fetch release)
             (fun e =>
                match e with
                | GitError _ =>
                    Ui.error "{0} does not exist locally or on the remote server." ;;;
                    raise (OperationCancelledError "no such tag/branch/...")
                | _ => raise e
                end) ;;;
           checkout_detach FetchHead
       | _ => raise e
       end).

(** ** Pruning merged tickets *)

(** [git.local_branches()]: the names of the local branches.  The backend
    lists them by date; the order is the order of the map here, and the
    properties below do not depend on it. *)
Definition git_local_branches : M (list string) :=
  get (fun s => (map_to_list (local_branches (git s))).*1).

(** The loop of [prune_tickets] (lines 1729-1734). *)
Fixpoint prune_loop (branches : list string) : M unit :=
  match branches with
  | [] => ret tt
  | b :: rest =>
      has <- _has_ticket_for_local_branch (PStr b) ;;
      (if has then
         ticket <- _ticket_for_local_branch (PStr b) ;;
         merged <- Git.is_ancestor_of (Branch b) (Branch MASTER_BRANCH) ;;
         if merged then
           Ui.show "Abandoning #{0}." ;;;
           abandon (PInt ticket) false
         else ret tt
       else ret tt) ;;;
      prune_loop rest
  end.

(** [prune_tickets] (lines 1676-1734). *)
Definition prune_tickets : M unit :=
  branches <- git_local_branches ;;
  prune_loop branches.

(** ** Gathering branches *)

(** The pairs [("local", name)] and [("remote", name)] of [gather]. *)
Inductive gathered :=
| GLocal (name : string)
| GRemote (name : string).

(** Python truth value of a string. *)
Definition nonempty (s : string) : bool :=
  match s with
  | EmptyString => false
  | String _ _ => true
  end.

(** One turn of the first loop of [gather] (lines 1879-1896): what is
    appended to [branches]. *)
Definition gather_resolve (ticket_or_branch : pyname) : M (list gathered) :=
  r <-
    (if _is_ticket_name ticket_or_branch then
       ticket <- lift (_ticket_from_ticket_name ticket_or_branch) ;;
       remote_branch <- Trac._branch_for_ticket ticket ;;
       match remote_branch with
       | None =>
           raise (SageDevValueError
                    "Ticket #{0} does not have a branch set yet.")
       | Some remote_branch => ret (None, Some remote_branch)
       end
     else
       match ticket_or_branch with
       | PStr name =>
           ex <- _is_local_branch_name name ExTrue ;;
           if ex then ret (Some name, None)
           else ret (None, Some name)
       | _ => raise (TypeError "expected string or buffer")
       end) ;;
  let '(local_branch, remote_branch) := r in
  l <-
    match local_branch with
    | Some local_branch =>
        if nonempty local_branch then
          _check_local_branch_name (PStr local_branch) ExTrue ;;;
          ret [GLocal local_branch]
        else ret []
    | None => ret []
    end ;;
  r <-
    match remote_branch with
    | Some remote_branch =>
        if nonempty remote_branch then
          _check_remote_branch_name remote_branch ExTrue ;;;
          ret [GRemote remote_branch]
        else ret []
    | None => ret []
    end ;;
  ret (l ++ r)%list.

Fixpoint gather_resolve_all (tickets_or_branches : list pyname)
    : M (list gathered) :=
  match tickets_or_branches with
  | [] => ret []
  | x :: rest =>
      here <- gather_resolve x ;;
      later <- gather_resolve_all rest ;;
      ret (here ++ later)%list
  end.

(** The second loop of [gather] (lines 1901-1904): every turn merges
    [branch], the new branch itself, pulling when the item is remote. *)
Fixpoint gather_merge_all (b : string) (branches : list gathered) : M unit :=
  match branches with
  | [] => ret tt
  | item :: rest =>
      Ui.debug "Merging {2} branch {0} into {1}." ;;;
      merge (PStr b)
        (Some (match item with GRemote _ => true | GLocal _ => false end))
        None ;;;
      gather_merge_all b rest
  end.

(** [gather] (lines 1826-1910).  The [except] clause ends with the debug
    message of line 1910: it does not raise again. *)
Definition gather (b : string) (tickets_or_branches : list pyname)
    : M unit :=
  try_except (reset_to_clean_state true true ;;; clean true)
    (fun e =>
       match e with
       | OperationCancelledError _ =>
           Ui.error "Cannot gather branches because working directory is not in a clean state." ;;;
           raise (OperationCancelledError "working directory not clean")
       | _ => raise e
       end) ;;;
  _check_local_branch_name (PStr b) ExFalse ;;;
  branches <- gather_resolve_all tickets_or_branches ;;
  Ui.debug "Creating a new branch {0}." ;;;
  Git.branch b (Branch MASTER_BRANCH) ;;;
  Git.checkout b ;;;
  try_except (gather_merge_all b branches)
    (fun _ =>
       Git.reset_to_clean_state ;;;
       Git.clean_wrapper ;;;
       vanilla MASTER_BRANCH ;;;
       Git.branch_delete b ;;;
       Ui.debug "Deleted branch {0}.").

(** ** Showing dependencies *)

(** [stack.pop()]: the last element of a Python list and the rest. *)
Definition pop (stack : list Z) : option (Z * list Z) :=
  match rev stack with
  | [] => None
  | t :: r => Some (t, rev r)
  end.

(** [for d in deps: if d not in stack and d not in ret: stack.append(d)] *)
Fixpoint push_new (deps stack ret_ : list Z) : list Z :=
  match deps with
  | [] => stack
  | d :: deps' =>
      if negb (bool_decide (d ∈ stack)) && negb (bool_decide (d ∈ ret_))
      then push_new deps' (stack ++ [d]) ret_
      else push_new deps' stack ret_
  end.

(** The [while stack:] loop of [show_dependencies] (lines 2792-2802);
    [fuel] bounds the number of turns. *)
Fixpoint dependencies_walk (fuel : nat) (stack ret_ : list Z)
    : M (list Z) :=
  match fuel with
  | O => raise NonTermination
  | S fuel' =>
      match pop stack with
      | None => ret ret_
      | Some (t, stack) =>
          if bool_decide (t ∈ ret_) then dependencies_walk fuel' stack ret_
          else
            let ret_ := (ret_ ++ [t])%list in
            has <- _has_local_branch_for_ticket t ;;
            if negb has then
              Ui.warning "no local branch for ticket #{0} present, some dependencies might be missing in the output." ;;;
              dependencies_walk fuel' stack ret_
            else
              deps <- _dependencies_for_ticket t ;;
              dependencies_walk fuel' (push_new deps stack ret_) ret_
      end
  end.

(** Every ticket the loop can meet: the first one and the tickets of the
    recorded dependency lists. *)
Definition walk_universe (r : registry) (ticket : Z) : list Z :=
  ticket :: concat (map_to_list (ticket_dependencies r)).*2.

(** With this many turns the loop has come to an end (see
    [dependencies_walk_enough]). *)
Definition walk_fuel (r : registry) (ticket : Z) : nat :=
  S (S (length (walk_universe r ticket))).

(** The list that [show_dependencies] displays (lines 2781-2804): [ret] as
    it stands on line 2805.  With [all], [ret] starts empty and the loop
    fills it; otherwise it is the list recorded for the ticket. *)
Definition dependencies_listing (ticket : pyname) (all : bool)
    : M (Z * list Z) :=
  ticket <-
    (match ticket with
     | PNone =>
         cur <- _current_ticket ;;
         match cur with
         | Some t => ret (PInt t)
         | None => ret PNone
         end
     | _ => ret ticket
     end) ;;
  match ticket with
  | PNone => raise (SageDevValueError "ticket must be specified")
  | _ =>
      _check_ticket_name ticket false ;;;
      ticket <- lift (_ticket_from_ticket_name ticket) ;;
      has <- _has_local_branch_for_ticket ticket ;;
      if negb has then
        raise (SageDevValueError
          "ticket must be a ticket with a local branch. Use {0} to checkout the ticket first.")
      else
        _ <- _local_branch_for_ticket ticket false ;;
        if all then
          fuel <- get (fun s => walk_fuel (reg s) ticket) ;;
          ret_ <- dependencies_walk fuel [ticket] [] ;;
          ret (ticket, tail ret_)
        else
          ret_ <- _dependencies_for_ticket ticket ;;
          ret (ticket, ret_)
  end.

(** [", ".join(["#{0}".format(d) for d in ret])] *)
Definition ticket_list (l : list Z) : string :=
  String.concat ", " (map (fun d => "#" +:+ pretty d) l).

(** [show_dependencies] (lines 2655-2807); here the message carries the
    ticket numbers. *)
Definition show_dependencies (ticket : pyname) (all : bool) : M unit :=
  r <- dependencies_listing ticket all ;;
  let '(ticket, ret_) := r in
  match ret_ with
  | _ :: _ =>
      Ui.show ("Ticket #" +:+ pretty ticket +:+ " depends on "
               +:+ ticket_list ret_ +:+ ".")
  | [] => Ui.show ("Ticket #" +:+ pretty ticket +:+ " has no dependencies.")
  end.

(** ** Vocabulary for the further operations *)

(** The ticket has a local branch: it is recorded and the branch exists. *)
Definition has_branch (s : state) (t : Z) : bool :=
  match ticket_to_branch (reg s) !! t with
  | Some b => is_local_branch_name (git s) b ExTrue
  | None => false
  end.

(** [y] is recorded as a dependency of [x], and [x] has a local branch. *)
Definition depends_directly (s : state) (x y : Z) : Prop :=
  has_branch s x = true /\ y ∈ dependencies_of s x.

(** The recorded dependencies and the tickets with a local branch are the
    same in both states. *)
Definition same_graph (s s' : state) : Prop :=
  ticket_dependencies (reg s') = ticket_dependencies (reg s)
  /\ forall x, has_branch s' x = has_branch s x.

(** [d] can be reached from [t] along recorded dependencies of tickets
    that have a local branch. *)
Definition reaches (s : state) (t d : Z) : Prop :=
  rtc (depends_directly s) t d.

(** Local branches have at most been renamed: the master branch is where
    it was, the commits of the local branches are the same, each as often
    as before, and the ticket server is as it was. *)
Definition renames_only (s s' : state) : Prop :=
  local_branches (git s') !! MASTER_BRANCH
  = local_branches (git s) !! MASTER_BRANCH
  /\ (map_to_list (local_branches (git s'))).*2
     ≡ₚ (map_to_list (local_branches (git s))).*2
  /\ trac s' = trac s.

(** Every branch but [b] is where it was, and the ticket server is not
    changed. *)
Definition keeps_others (b : string) (s s' : state) : Prop :=
  (forall b', b' <> b ->
     local_branches (git s') !! b' = local_branches (git s) !! b')
  /\ trac s' = trac s.

(** When [b] is the current branch, it stays the current branch and
    nothing but [b] changes. *)
Definition on_branch_only (b : string) (s s' : state) : Prop :=
  HEAD (git s) = OnBranch b ->
  HEAD (git s') = OnBranch b /\ keeps_others b s s'.

(** The remote branch that the master branch follows: the recorded one,
    and the remote master branch when none is recorded. *)
Definition remote_master (s : state) : string :=
  default MASTER_BRANCH (branch_to_remote_branch (reg s) !! MASTER_BRANCH).

(** The local branches, [HEAD] and the heads of the remote branches are
    as they were. *)
Definition same_heads (s s' : state) : Prop :=
  local_branches (git s') = local_branches (git s)
  /\ HEAD (git s') = HEAD (git s)
  /\ remote_heads (git s') = remote_heads (git s).

(** The local branches and [HEAD] are as they were. *)
Definition same_locals (s s' : state) : Prop :=
  local_branches (git s') = local_branches (git s)
  /\ HEAD (git s') = HEAD (git s).

(** * The generator of methods for PARI functions
    ([src/sage_setup/autogen/pari/generator.py]) *)

Module Pari.

Definition is_letter (c : ascii) : bool :=
  let n := nat_of_ascii c in
  ((65 <=? n) && (n <=? 90) || (97 <=? n) && (n <=? 122))%nat.

Definition is_word (c : ascii) : bool :=
  let n := nat_of_ascii c in
  (is_letter c || (48 <=? n) && (n <=? 57) || (n =? 95))%nat.

(** [function_re.match(function)] for
    [function_re = re.compile(r"^[A-Za-z][A-Za-z0-9_]*$")] (line 47): the
    class is run over greedily, and [$] matches at the end of the string
    or before a final newline. *)
Definition function_re (function : string) : bool :=
  match chars function with
  | c :: rest =>
      is_letter c
      && (forallb is_word rest
          || match Regex.before_final_newline rest with
             | Some t => forallb is_word t
             | None => false
             end)
  | [] => false
  end.

(** O(p^e) needs special parser support (line 48). *)
Definition function_blacklist : list string := ["O"].

(** [can_handle_function] (lines 63-98); [declared] is [self.declared],
    what [read_decl()] has returned, and [kwds] the keyword arguments. *)
Definition can_handle_function (declared : gset string)
    (function cname : string) (kwds : gmap string string) : bool :=
  if bool_decide (function ∈ function_blacklist) then
    (* Blacklist specific troublesome functions *)
    false
  else if negb (function_re function) then
    (* Not a legal function name, like "!_" *)
    false
  else if negb (bool_decide (cname ∈ declared)) then
    (* PARI function not in Sage's decl.pxi or declinl.pxi *)
    false
  else
    let cls := default "unknown" (kwds !! "class") in
    let sec := default "unknown" (kwds !! "section") in
    if negb (bool_decide (cls ∈ ["basic"; "highlevel"])) then
      (* Different class: probably something technical or gp2c-specific *)
      false
    else if String.eqb sec "programming/control" then
      (* Skip if, return, break, ... *)
      false
    else true.

(** A letter followed by letters, digits and underscores. *)
Definition is_identifier (l : list ascii) : Prop :=
  exists c rest,
    l = c :: rest /\ is_letter c = true /\ forallb is_word rest = true.

End Pari.

(** ** Further sample states *)

Module Scenario.

(** On [master], at commit 0; the remote master branch is at commit 4. *)
Definition stale_master : state :=
  State (Sample.repo {[ "master" := 0%nat ]} (OnBranch "master")
           {[ "master" := 4%nat ]})
        (Sample.server ∅ ∅) Sample.empty_registry (Sample.ui []).

End Scenario.

(** * Verification *)

Open Scope list_scope.

(** ** Reasoning about the monad *)

Lemma bind_ok {A B} (m : M A) (f : A -> M B) s a s1 :
  m s = (inr a, s1) -> bind m f s = f a s1.
Proof. intros H. unfold bind. now rewrite H. Qed.

Lemma bind_error {A B} (m : M A) (f : A -> M B) s e s1 :
  m s = (inl e, s1) -> bind m f s = (inl e, s1).
Proof. intros H. unfold bind. now rewrite H. Qed.

Lemma bind_inv_ok {A B} (m : M A) (f : A -> M B) s b s2 :
  bind m f s = (inr b, s2) ->
  exists a s1, m s = (inr a, s1) /\ f a s1 = (inr b, s2).
Proof.
  unfold bind. destruct (m s) as [[e|a] s1]; intros H; [discriminate|].
  eauto.
Qed.

Lemma bind_assoc {A B C} (m : M A) (f : A -> M B) (g : B -> M C) s :
  bind (bind m f) g s = bind m (fun x => bind (f x) g) s.
Proof. unfold bind. destruct (m s) as [[e|a] s1]; reflexivity. Qed.

Lemma try_except_ok {A} (m : M A) h s a s1 :
  m s = (inr a, s1) -> try_except m h s = (inr a, s1).
Proof. intros H. unfold try_except. now rewrite H. Qed.

Lemma try_except_error {A} (m : M A) h s e s1 :
  m s = (inl e, s1) -> try_except m h s = h e s1.
Proof. intros H. unfold try_except. now rewrite H. Qed.

Section Frames.

Context (R : state -> state -> Prop).
Context (R_refl : forall s, R s s).
Context (R_trans : forall s1 s2 s3, R s1 s2 -> R s2 s3 -> R s1 s3).

Lemma stable_ret {A} (a : A) : stable R (ret a).
Proof. intros s. apply R_refl. Qed.

Lemma stable_raise {A} e : stable R (@raise A e).
Proof. intros s. apply R_refl. Qed.

Lemma stable_get {A} (f : state -> A) : stable R (get f).
Proof. intros s. apply R_refl. Qed.

Lemma stable_lift {A} (r : exn + A) : stable R (lift r).
Proof. intros s. apply R_refl. Qed.

Lemma stable_bind {A B} (m : M A) (f : A -> M B) :
  stable R m -> (forall a, stable R (f a)) -> stable R (bind m f).
Proof.
  intros Hm Hf s. unfold bind. specialize (Hm s).
  destruct (m s) as [[e|a] s1]; simpl in *; [assumption|].
  eapply R_trans; [eassumption|apply Hf].
Qed.

Lemma stable_try_except {A} (body : M A) handler :
  stable R body -> (forall e, stable R (handler e)) ->
  stable R (try_except body handler).
Proof.
  intros Hm Hf s. unfold try_except. specialize (Hm s).
  destruct (body s) as [[e|a] s1]; simpl in *; [|assumption].
  eapply R_trans; [eassumption|apply Hf].
Qed.

Lemma stable_when b m : stable R m -> stable R (when b m).
Proof. intros H. destruct b; [assumption|apply stable_ret]. Qed.

End Frames.

Create HintDb frames.

(** [frame refl trans] proves that a computation maintains a reflexive and
    transitive relation, from the frames of its parts (hint database
    [frames]). *)
Ltac frame refl trans :=
  repeat first
    [ solve [eauto 2 with frames]
    | apply stable_ret; exact refl
    | apply stable_raise; exact refl
    | apply stable_get; exact refl
    | apply stable_lift; exact refl
    | apply stable_when; [exact refl|]
    | apply stable_bind; [exact trans| |intros]
    | apply stable_try_except; [exact trans| |intros]
    | match goal with
      | |- stable _ (match ?x with _ => _ end) => destruct x
      | |- stable _ (if ?b then _ else _) => destruct b
      end ].

(** ** Names *)

Lemma is_local_branch_name_any g b e :
  is_local_branch_name g b e = true -> is_local_branch_name g b ExAny = true.
Proof.
  unfold is_local_branch_name.
  destruct (negb (GIT_BRANCH_REGEX b)); [discriminate|].
  destruct (_is_ticket_name (PStr b)); [discriminate|].
  destruct (bool_decide _); [discriminate|]. reflexivity.
Qed.

Lemma is_local_branch_name_not_ticket g b e :
  is_local_branch_name g b e = true -> _is_ticket_name (PStr b) = false.
Proof.
  unfold is_local_branch_name.
  destruct (negb (GIT_BRANCH_REGEX b)); [discriminate|].
  destruct (_is_ticket_name (PStr b)); [discriminate|]. reflexivity.
Qed.


Lemma is_local_branch_name_exists g b :
  is_local_branch_name g b ExTrue = true ->
  is_Some (local_branches g !! b).
Proof.
  unfold is_local_branch_name.
  destruct (negb (GIT_BRANCH_REGEX b)); [discriminate|].
  destruct (_is_ticket_name (PStr b)); [discriminate|].
  destruct (bool_decide (b ∈ _)); [discriminate|].
  intros H. apply bool_decide_eq_true in H. exact H.
Qed.

Lemma is_local_branch_name_true g b :
  is_local_branch_name g b ExAny = true ->
  is_Some (local_branches g !! b) ->
  is_local_branch_name g b ExTrue = true.
Proof.
  unfold is_local_branch_name.
  destruct (negb (GIT_BRANCH_REGEX b)); [discriminate|].
  destruct (_is_ticket_name (PStr b)); [discriminate|].
  destruct (bool_decide (b ∈ _)); [discriminate|].
  intros _ H. apply bool_decide_eq_true. exact H.
Qed.


(** Existence only depends on the set of local branches. *)
Lemma is_local_branch_name_ext g g' b e :
  (is_Some (local_branches g !! b) <-> is_Some (local_branches g' !! b)) ->
  is_local_branch_name g b e = is_local_branch_name g' b e.
Proof.
  intros H. unfold is_local_branch_name, Git.commit_for_branch.
  destruct (negb (GIT_BRANCH_REGEX b)); [reflexivity|].
  destruct (_is_ticket_name (PStr b)); [reflexivity|].
  destruct (bool_decide (b ∈ _)); [reflexivity|].
  destruct e; [|f_equal|reflexivity]; apply bool_decide_ext; exact H.
Qed.

Lemma check_local_branch_name_ok s b :
  is_local_branch_name (git s) b ExTrue = true ->
  _check_local_branch_name (PStr b) ExTrue s = (inr tt, s).
Proof.
  intros H. unfold _check_local_branch_name, _is_local_branch_name, bind, get.
  rewrite (is_local_branch_name_any _ _ _ H). simpl. now rewrite H.
Qed.

Lemma check_local_branch_name_state n e s :
  snd (_check_local_branch_name n e s) = s.
Proof.
  unfold _check_local_branch_name, _is_local_branch_name, bind, get, raise, ret.
  destruct n; try reflexivity.
  destruct (is_local_branch_name (git s) s0 ExAny); simpl; [|reflexivity].
  destruct e; try reflexivity.
  - destruct (is_local_branch_name (git s) s0 ExTrue); reflexivity.
  - destruct (is_local_branch_name (git s) s0 ExFalse); reflexivity.
Qed.

Lemma master_is_a_branch_name g :
  is_local_branch_name g MASTER_BRANCH ExAny = true.
Proof. reflexivity. Qed.

(** C9: every string that is syntactically a ticket reference is refused
    by the local-branch-name check, whatever the repository and whatever
    the existence requirement. *)
Theorem ticket_name_is_never_local_branch_name
    (x : string) (e : existence) (s : state) :
  _is_ticket_name (PStr x) = true ->
  is_local_branch_name (git s) x e = false
  /\ _is_local_branch_name x e s = (inr false, s).
Proof.
  intros H.
  assert (Hf : is_local_branch_name (git s) x e = false).
  { unfold is_local_branch_name. rewrite H.
    destruct (negb (GIT_BRANCH_REGEX x)); reflexivity. }
  split; [exact Hf|].
  unfold _is_local_branch_name, get. now rewrite Hf.
Qed.

(** The string [12] is a ticket reference, hence no branch name. *)
Lemma ticket_name_is_never_local_branch_name_witness :
  _is_ticket_name (PStr "12") = true
  /\ is_local_branch_name (git Sample.on_master) "12" ExAny = false.
Proof.
  split; [reflexivity|].
  exact (proj1 (ticket_name_is_never_local_branch_name
                  "12" ExAny Sample.on_master eq_refl)).
Defined.

(** ** Abandoning the master branch *)

(** Symbolic execution: [run H] uses the known outcome [H] of the first
    computation of a sequence. *)
Ltac run H :=
  rewrite ?bind_assoc;
  first [ rewrite (bind_ok _ _ _ _ _ H)
        | rewrite (bind_error _ _ _ _ _ H) ];
  cbn [bind ret raise fst snd].

Lemma is_local_branch_name_run s b e :
  _is_local_branch_name b e s = (inr (is_local_branch_name (git s) b e), s).
Proof. reflexivity. Qed.

Lemma check_local_branch_name_missing s b :
  is_local_branch_name (git s) b ExAny = true ->
  local_branches (git s) !! b = None ->
  _check_local_branch_name (PStr b) ExTrue s
  = (inl (SageDevValueError "Branch {0} does not exist locally."), s).
Proof.
  intros Hany Hm.
  unfold _check_local_branch_name, _is_local_branch_name, bind, get.
  rewrite Hany. cbn.
  replace (is_local_branch_name (git s) b ExTrue) with false; [reflexivity|].
  symmetry. apply not_true_is_false. intros H.
  apply is_local_branch_name_exists in H. rewrite Hm in H.
  destruct H; discriminate.
Qed.

Lemma has_ticket_for_local_branch_run s b :
  is_local_branch_name (git s) b ExTrue = true ->
  _has_ticket_for_local_branch (PStr b) s
  = (inr (bool_decide (is_Some (branch_to_ticket (reg s) !! b))), s).
Proof.
  intros H. unfold _has_ticket_for_local_branch.
  run (check_local_branch_name_ok _ _ H). reflexivity.
Qed.

Lemma ticket_for_local_branch_run s b t :
  is_local_branch_name (git s) b ExTrue = true ->
  branch_to_ticket (reg s) !! b = Some t ->
  _ticket_for_local_branch (PStr b) s = (inr t, s).
Proof.
  intros H Ht. unfold _ticket_for_local_branch.
  run (check_local_branch_name_ok _ _ H).
  run (has_ticket_for_local_branch_run _ _ H).
  rewrite Ht. rewrite bool_decide_eq_true_2 by eauto. cbn.
  unfold get. cbn. rewrite Ht. reflexivity.
Qed.

(** C10: abandoning the master branch always fails and changes neither the
    repository, nor the registry, nor the ticket server; when the master
    branch exists it fails with "Cannot delete the master branch.",
    whether or not master is the current branch. *)
Theorem abandon_master_is_refused (helpful : bool) (s : state) :
  let '(r, s') := abandon (PStr MASTER_BRANCH) helpful s in
  (exists e, r = inl e)
  /\ git s' = git s /\ reg s' = reg s /\ trac s' = trac s
  /\ (is_Some (local_branches (git s) !! MASTER_BRANCH) ->
      r = inl (OperationCancelledError "protecting the user")
      /\ displayed (UI s')
         = "Cannot delete the master branch." :: displayed (UI s)).
Proof.
  unfold abandon.
  change (_is_ticket_name (PStr MASTER_BRANCH)) with false. cbv iota.
  cbn [bind ret fst snd].
  destruct (local_branches (git s) !! MASTER_BRANCH) as [c|] eqn:Hm.
  - assert (Hex : is_local_branch_name (git s) MASTER_BRANCH ExTrue = true).
    { apply is_local_branch_name_true; [reflexivity|]. rewrite Hm. eauto. }
    run (has_ticket_for_local_branch_run _ _ Hex).
    destruct (branch_to_ticket (reg s) !! MASTER_BRANCH) as [t|] eqn:Ht.
    + rewrite bool_decide_eq_true_2 by eauto.
      run (ticket_for_local_branch_run _ _ _ Hex Ht).
      run (is_local_branch_name_run s MASTER_BRANCH ExAny).
      rewrite master_is_a_branch_name.
      run (check_local_branch_name_ok _ _ Hex).
      cbn. eauto 10.
    + rewrite bool_decide_eq_false_2 by (intros [? ?]; discriminate).
      cbn [bind ret].
      run (is_local_branch_name_run s MASTER_BRANCH ExAny).
      rewrite master_is_a_branch_name.
      run (check_local_branch_name_ok _ _ Hex).
      cbn. eauto 10.
  - assert (Hh : _has_ticket_for_local_branch (PStr MASTER_BRANCH) s
                 = (inl (SageDevValueError
                           "Branch {0} does not exist locally."), s)).
    { unfold _has_ticket_for_local_branch.
      run (check_local_branch_name_missing s MASTER_BRANCH eq_refl Hm).
      reflexivity. }
    run Hh.
    repeat split; eauto;
      match goal with H : is_Some None |- _ => destruct H; discriminate end.
Qed.

(** The refusal on a repository where master is the current branch. *)
Lemma abandon_master_is_refused_witness :
  is_Some (local_branches (git Sample.on_master) !! MASTER_BRANCH)
  /\ fst (abandon (PStr MASTER_BRANCH) true Sample.on_master)
     = inl (OperationCancelledError "protecting the user").
Proof.
  assert (H : is_Some (local_branches (git Sample.on_master) !! MASTER_BRANCH)).
  { vm_compute. eauto. }
  split; [exact H|].
  pose proof (abandon_master_is_refused true Sample.on_master) as T.
  destruct (abandon (PStr MASTER_BRANCH) true Sample.on_master) as [r s'].
  destruct T as (_ & _ & _ & _ & T). exact (proj1 (T H)).
Defined.

(** ** Looking for a free name *)



Lemma chars_inj a b : chars a = chars b -> a = b.
Proof.
  intros H. unfold chars in H.
  rewrite <- (string_of_list_ascii_of_string a),
          <- (string_of_list_ascii_of_string b).
  now rewrite H.
Qed.


Lemma free_name_some valid fuel p b n :
  free_name valid fuel p b = Some n ->
  exists k, (k < fuel)%nat /\ n = p +:+ underscored b k /\ valid n = true.
Proof.
  revert b. induction fuel as [|fuel IH]; intros b; simpl; [discriminate|].
  destruct (valid (p +:+ b)) eqn:Hv.
  - intros [= <-]. exists O. repeat split; [lia|assumption].
  - intros H. destruct (IH _ H) as (k & Hk & -> & Hn).
    exists (S k). repeat split; [lia|assumption].
Qed.



(** ** Trash names are well-formed branch names *)














Lemma before_final_newline_inv s t :
  Regex.before_final_newline s = Some t -> s = t ++ [newline].
Proof.
  unfold Regex.before_final_newline.
  destruct (rev s) as [|c r] eqn:E; [discriminate|].
  destruct (Ascii.eqb c newline) eqn:Ec; [|discriminate].
  intros [= <-]. apply Ascii.eqb_eq in Ec. subst c.
  apply (f_equal (@rev _)) in E. rewrite rev_involutive in E.
  exact E.
Qed.

Lemma before_final_newline_snoc t :
  Regex.before_final_newline (t ++ [newline]) = Some t.
Proof.
  unfold Regex.before_final_newline. rewrite rev_app_distr. simpl.
  now rewrite rev_involutive.
Qed.





(** ** [_new_local_branch_for_trash] returns, and returns a free name *)







(** ** Abandoning a ticket branch *)


Section Abandon.

Context (b : string) (t : Z) (helpful : bool) (s : state).
Context (Hex : is_local_branch_name (git s) b ExTrue = true).
Context (Hbt : branch_to_ticket (reg s) !! b = Some t).
Context (Htb : ticket_to_branch (reg s) !! t = Some b).
Context (Ht : 0 < t).
Context (Hm : b <> MASTER_BRANCH).




End Abandon.



(** ** Frames of the collaborators and of the helpers *)

Lemma quiet_refl s : quiet s s.
Proof. repeat split. Qed.

Lemma quiet_trans s1 s2 s3 : quiet s1 s2 -> quiet s2 s3 -> quiet s1 s3.
Proof.
  unfold quiet. intros (?&?&?&?&?) (?&?&?&?&?).
  repeat split; congruence.
Qed.

Lemma stable_weaken (R1 R2 : state -> state -> Prop) {A} (m : M A) :
  (forall s s', R1 s s' -> R2 s s') -> stable R1 m -> stable R2 m.
Proof. intros H Hm s. apply H, Hm. Qed.

(** A collaborator call that changes one component of the state. *)
Ltac quiet_call :=
  intros s; cbv beta zeta delta
    [Ui.show Ui.error Ui.info Ui.warning Ui.debug Ui.select Ui.confirm
     Git.get_state Git.has_uncommitted_changes Git.reset_to_clean_state
     Git.clean_wrapper Git.stash Git.current_branch Git.fetch Git.merge
     Git.ls_remote Git.is_ancestor_of Git.is_child_of Git.push
     Trac._branch_for_ticket Trac.dependencies Trac.exists_ticket
     _is_local_branch_name _dependencies_for_ticket
     set_UI set_git get ret raise];
  repeat match goal with
         | |- context [match ?x with _ => _ end] => destruct x
         | |- context [if ?x then _ else _] => destruct x
         end;
  repeat split.

Lemma quiet_show msg : stable quiet (Ui.show msg).
Proof. quiet_call. Qed.
Lemma quiet_error msg : stable quiet (Ui.error msg).
Proof. quiet_call. Qed.
Lemma quiet_info msg : stable quiet (Ui.info msg).
Proof. quiet_call. Qed.
Lemma quiet_warning msg : stable quiet (Ui.warning msg).
Proof. quiet_call. Qed.
Lemma quiet_debug msg : stable quiet (Ui.debug msg).
Proof. quiet_call. Qed.
Lemma quiet_select p o d : stable quiet (Ui.select p o d).
Proof. quiet_call. Qed.
Lemma quiet_confirm p d : stable quiet (Ui.confirm p d).
Proof. quiet_call. Qed.
Lemma quiet_get_state : stable quiet Git.get_state.
Proof. quiet_call. Qed.
Lemma quiet_has_uncommitted_changes : stable quiet Git.has_uncommitted_changes.
Proof. quiet_call. Qed.
Lemma quiet_git_reset : stable quiet Git.reset_to_clean_state.
Proof. quiet_call. Qed.
Lemma quiet_clean_wrapper : stable quiet Git.clean_wrapper.
Proof. quiet_call. Qed.
Lemma quiet_stash : stable quiet Git.stash.
Proof. quiet_call. Qed.
Lemma quiet_current_branch : stable quiet Git.current_branch.
Proof. quiet_call. Qed.
Lemma quiet_fetch r : stable quiet (Git.fetch r).
Proof. quiet_call. Qed.
Lemma quiet_git_merge r : stable quiet (Git.merge r).
Proof. quiet_call. Qed.
Lemma quiet_ls_remote r : stable quiet (Git.ls_remote r).
Proof. quiet_call. Qed.
Lemma quiet_is_ancestor_of a b : stable quiet (Git.is_ancestor_of a b).
Proof. quiet_call. Qed.
Lemma quiet_is_child_of a b : stable quiet (Git.is_child_of a b).
Proof. quiet_call. Qed.
Lemma quiet_git_push b r f : stable quiet (Git.push b r f).
Proof. quiet_call. Qed.
Lemma quiet_branch_for_ticket t : stable quiet (Trac._branch_for_ticket t).
Proof. quiet_call. Qed.
Lemma quiet_trac_dependencies t : stable quiet (Trac.dependencies t).
Proof. quiet_call. Qed.
Lemma quiet_exists_ticket t : stable quiet (Trac.exists_ticket t).
Proof. quiet_call. Qed.
Lemma quiet_is_local_branch_name b e : stable quiet (_is_local_branch_name b e).
Proof. quiet_call. Qed.
Lemma quiet_dependencies_for_ticket t :
  stable quiet (_dependencies_for_ticket t).
Proof. quiet_call. Qed.

#[export] Hint Resolve quiet_show quiet_error quiet_info quiet_warning
  quiet_debug quiet_select quiet_confirm quiet_get_state
  quiet_has_uncommitted_changes quiet_git_reset quiet_clean_wrapper
  quiet_stash quiet_current_branch quiet_fetch quiet_git_merge
  quiet_ls_remote quiet_is_ancestor_of quiet_is_child_of quiet_git_push
  quiet_branch_for_ticket quiet_trac_dependencies quiet_exists_ticket
  quiet_is_local_branch_name quiet_dependencies_for_ticket : frames.

Ltac quiet_frame := frame quiet_refl quiet_trans.

Lemma quiet_check_local_branch_name n e :
  stable quiet (_check_local_branch_name n e).
Proof. unfold _check_local_branch_name. quiet_frame. Qed.
#[export] Hint Resolve quiet_check_local_branch_name : frames.

Lemma quiet_has_ticket_for_local_branch n :
  stable quiet (_has_ticket_for_local_branch n).
Proof. unfold _has_ticket_for_local_branch. quiet_frame. Qed.
#[export] Hint Resolve quiet_has_ticket_for_local_branch : frames.

Lemma quiet_ticket_for_local_branch n :
  stable quiet (_ticket_for_local_branch n).
Proof. unfold _ticket_for_local_branch. quiet_frame. Qed.
#[export] Hint Resolve quiet_ticket_for_local_branch : frames.

Lemma quiet_current_ticket : stable quiet _current_ticket.
Proof.
  intros s. unfold _current_ticket.
  destruct (HEAD (git s)); [|apply quiet_refl].
  destruct (branch_to_ticket (reg s) !! b); [|apply quiet_refl].
  pose proof (quiet_ticket_for_local_branch (PStr b) s) as H.
  destruct (_ticket_for_local_branch (PStr b) s) as [[e|t] s']; exact H.
Qed.
#[export] Hint Resolve quiet_current_ticket : frames.

Lemma quiet_is_ticket_name_exists n : stable quiet (_is_ticket_name_exists n).
Proof. unfold _is_ticket_name_exists. quiet_frame. Qed.
#[export] Hint Resolve quiet_is_ticket_name_exists : frames.

Lemma quiet_check_ticket_name n e : stable quiet (_check_ticket_name n e).
Proof. unfold _check_ticket_name. quiet_frame. Qed.
#[export] Hint Resolve quiet_check_ticket_name : frames.

Lemma quiet_is_remote_branch_name n e :
  stable quiet (_is_remote_branch_name n e).
Proof. unfold _is_remote_branch_name. quiet_frame. Qed.
#[export] Hint Resolve quiet_is_remote_branch_name : frames.

Lemma quiet_check_remote_branch_name n e :
  stable quiet (_check_remote_branch_name n e).
Proof. unfold _check_remote_branch_name. quiet_frame. Qed.
#[export] Hint Resolve quiet_check_remote_branch_name : frames.

Lemma quiet_reset_to_clean_state e h : stable quiet (reset_to_clean_state e h).
Proof. unfold reset_to_clean_state. quiet_frame. Qed.
#[export] Hint Resolve quiet_reset_to_clean_state : frames.

Lemma quiet_clean e : stable quiet (clean e).
Proof. unfold clean. quiet_frame. Qed.
#[export] Hint Resolve quiet_clean : frames.

(** ** Merge *)

Lemma merge_frame_refl b s : merge_frame b s s.
Proof. unfold merge_frame. auto. Qed.

Lemma merge_frame_trans b s1 s2 s3 :
  merge_frame b s1 s2 -> merge_frame b s2 s3 -> merge_frame b s1 s3.
Proof.
  unfold merge_frame. intros (H1 & H2 & H3) (K1 & K2 & K3).
  split; [auto|]. split; [|congruence].
  intros H. destruct (H2 H) as [H' E]. destruct (K2 H') as [K L].
  split; congruence.
Qed.

Lemma quiet_merge_frame b s s' : quiet s s' -> merge_frame b s s'.
Proof.
  unfold quiet, merge_frame. intros (Hb & Hh & _ & Hr & _).
  split; [congruence|]. split; [|now rewrite Hr].
  intros H. split; [|now rewrite Hr].
  rewrite <- H. apply is_local_branch_name_ext. now rewrite Hb.
Qed.

Lemma stable_quiet_merge_frame b {A} (m : M A) :
  stable quiet m -> stable (merge_frame b) m.
Proof. apply stable_weaken, quiet_merge_frame. Qed.
#[export] Hint Resolve stable_quiet_merge_frame : frames.

Ltac merge_framing b := frame (merge_frame_refl b) (merge_frame_trans b).

(** Forgetting the link of a ticket whose branch is gone does not touch
    the link of an existing branch. *)
Lemma merge_frame_has_local_branch_for_ticket b t :
  stable (merge_frame b) (_has_local_branch_for_ticket t).
Proof.
  intros s. unfold _has_local_branch_for_ticket, bind, get.
  destruct (ticket_to_branch (reg s) !! t) as [b0|] eqn:E;
    [|apply merge_frame_refl].
  unfold _is_local_branch_name, get.
  destruct (is_local_branch_name (git s) b0 ExTrue) eqn:E0;
    [apply merge_frame_refl|].
  cbn. unfold merge_frame. cbn.
  split; [auto|]. split.
  - intros H. split; [assumption|].
    unfold unlink. rewrite E. cbn.
    apply lookup_delete_ne. congruence.
  - unfold unlink. rewrite E. reflexivity.
Qed.
#[export] Hint Resolve merge_frame_has_local_branch_for_ticket : frames.

Lemma merge_frame_local_branch_for_ticket b t :
  stable (merge_frame b) (_local_branch_for_ticket t false).
Proof. unfold _local_branch_for_ticket. merge_framing b. Qed.
#[export] Hint Resolve merge_frame_local_branch_for_ticket : frames.

Lemma merge_frame_commit_all b : stable (merge_frame b) Git.commit_all.
Proof.
  intros s. unfold Git.commit_all, merge_frame. cbn.
  destruct (HEAD (git s)) as [h|d] eqn:E; cbn.
  - split; [congruence|]. split; [|reflexivity].
    intros H. split; [|reflexivity].
    rewrite <- H. apply is_local_branch_name_ext. cbn.
    destruct (decide (h = b)) as [->|Hne].
    + rewrite lookup_insert_eq.
      apply is_local_branch_name_exists in H. split; eauto.
    + now rewrite lookup_insert_ne.
  - split; [discriminate|]. split; [|reflexivity].
    intros H. split; [|reflexivity]. exact H.
Qed.
#[export] Hint Resolve merge_frame_commit_all : frames.

Lemma merge_frame_resolve_conflicts b :
  stable (merge_frame b) resolve_conflicts.
Proof. unfold resolve_conflicts. merge_framing b. Qed.
#[export] Hint Resolve merge_frame_resolve_conflicts : frames.

Lemma dependencies_is_no_ticket_name name :
  _is_ticket_name name = true -> name <> PStr "dependencies".
Proof. intros H ->. discriminate. Qed.

(** Up to the merge itself, nothing that [merge_frame] watches changes. *)
Lemma merge_frame_merge_changes b self name pull cd :
  name <> PStr "dependencies" ->
  stable (merge_frame b) (merge_changes self name pull cd).
Proof.
  intros Hn. unfold merge_changes.
  rewrite (bool_decide_eq_false_2 _ Hn).
  destruct (_is_ticket_name name); merge_framing b.
Qed.

Ltac inv_bind H :=
  let a := fresh "a" in
  let s1 := fresh "s" in
  let H1 := fresh "H" in
  apply bind_inv_ok in H; destruct H as (a & s1 & H1 & H).

Lemma try_except_inv_ok {A} (m : M A) h s a s' :
  try_except m h s = (inr a, s') ->
  m s = (inr a, s')
  \/ exists e s1, m s = (inl e, s1) /\ h e s1 = (inr a, s').
Proof.
  unfold try_except. destruct (m s) as [[e|x] s1]; eauto.
Qed.

Lemma current_ticket_run s b t :
  HEAD (git s) = OnBranch b ->
  is_local_branch_name (git s) b ExTrue = true ->
  branch_to_ticket (reg s) !! b = Some t ->
  _current_ticket s = (inr (Some t), s).
Proof.
  intros Hh Hb Ht. unfold _current_ticket. rewrite Hh, Ht.
  now rewrite (ticket_for_local_branch_run _ _ _ Hb Ht).
Qed.

Section MergeTicket.

Context (b : string) (T1 T2 : Z) (name : pyname).
Context (Hname : _is_ticket_name name = true).
Context (Hticket : _ticket_from_ticket_name name = inr T2).

(** When [merge] is given a ticket and gets as far as line 2214, the ticket
    is not the current one and [create_dependency] is set unless it was
    given as [False]. *)
Lemma merge_changes_ticket self pull cd s r s' :
  HEAD (git s) = OnBranch b ->
  is_local_branch_name (git s) b ExTrue = true ->
  branch_to_ticket (reg s) !! b = Some T1 ->
  merge_changes self name pull cd s = (inr r, s') ->
  r = Some (Some T2, Some T1, default true cd) /\ T2 <> T1.
Proof using Hname Hticket.
  intros Hh Hb Ht H. unfold merge_changes in H.
  rewrite (bool_decide_eq_false_2 _ (dependencies_is_no_ticket_name _ Hname))
    in H.
  rewrite Hname, Hticket in H.
  inv_bind H.
  assert (F1 : merge_frame b s s0).
  { assert (F : stable (merge_frame b)
                  (try_except (reset_to_clean_state true true ;;; clean true)
                     (fun e =>
                        match e with
                        | OperationCancelledError _ =>
                            Ui.error "Cannot merge because working directory is not in a clean state." ;;;
                            Ui.info "(use {0} to commit your changes)" ;;;
                            raise (OperationCancelledError
                                     "working directory not clean")
                        | _ => raise e
                        end))) by merge_framing b.
    specialize (F s). rewrite H0 in F. exact F. }
  destruct F1 as (F1 & F2 & _). specialize (F1 Hh).
  destruct (F2 Hb) as [Hb0 Ht0]. rewrite Ht in Ht0.
  inv_bind H.
  assert (s1 = s0 /\ a0 = b) as [-> ->].
  { apply try_except_inv_ok in H1. unfold Git.current_branch in H1.
    rewrite F1 in H1. destruct H1 as [H1|(e & sx & H1 & _)];
      [|discriminate].
    now inversion H1. }
  rewrite (bind_ok _ _ _ _ _ (current_ticket_run _ _ _ F1 Hb0 Ht0)) in H.
  inv_bind H. cbn [lift bind] in H2.
  unfold bind at 1 in H2. unfold lift in H2.
  destruct (bool_decide (Some T2 = Some T1)) eqn:E; [discriminate|].
  apply bool_decide_eq_false in E.
  repeat inv_bind H2. inversion H2; subst.
  repeat inv_bind H. inversion H; subst.
  split; [reflexivity|congruence].
Qed.

End MergeTicket.





(** C8 (failing input): on the branch of ticket 1, merging that very
    branch by its name with [create_dependency=True] succeeds and makes
    ticket 1 depend on itself; the test of lines 2133-2134 only guards the
    case where [merge] is given a ticket. *)
Theorem merge_own_branch_records_self_dependency :
  let '(r, s') :=
    merge (PStr "ticket/1") None (Some true) Sample.on_ticket_1 in
  r = inr tt
  /\ dependencies_of Sample.on_ticket_1 1 = []
  /\ dependencies_of s' 1 = [1].
Proof. vm_compute. repeat split. Qed.

(** ** Switching branches *)

(** Case analysis over every path of a computation on the working tree. *)
Ltac simpl_paths :=
  cbv beta zeta iota delta [checkout_branch clean reset_to_clean_state aborting_checkout
       _check_local_branch_name _is_local_branch_name
       Ui.show Ui.error Ui.info Ui.warning Ui.debug Ui.select Ui.confirm
       Git.get_state Git.has_uncommitted_changes Git.reset_to_clean_state
       Git.clean_wrapper Git.stash Git.checkout Git.with_tree Git.with_HEAD
       Git.commit_for_ref Git.resolve Git.commit_for_branch
       push_upload push_branch_field _is_remote_branch_name _upload_ssh_key
       Git.ls_remote Git.fetch Git.is_child_of Git.is_ancestor_of Git.push
       Git.with_FETCH_HEAD Git.with_remote
       Trac._branch_for_ticket Trac.set_branch set_trac
       username known_tickets branch_field dependency_field
       set_UI set_git get ret raise bind try_except when negb andb orb nth
       fst snd git trac reg UI answers displayed
       local_branches HEAD FETCH_HEAD unclean_states modified_files
       untracked_files stash_stack merged_in remote_heads ancestry blocked
       conflicting branch_fault offline].

Ltac paths :=
  simpl_paths;
  repeat (match goal with
          | |- context [match ?x with _ => _ end] =>
              lazymatch x with
              | context [match _ with _ => _ end] => fail
              | _ => destruct x eqn:?
              end
          end; simpl_paths).

Ltac close_path :=
  repeat match goal with
         | H : exists _, _ |- _ => destruct H
         | H : _ /\ _ |- _ => destruct H
         | H : inl _ = inr _ |- _ => discriminate H
         | H : inr _ = inl _ |- _ => discriminate H
         | H : bool_decide _ = true |- _ => apply bool_decide_eq_true in H
         | H : bool_decide _ = false |- _ => apply bool_decide_eq_false in H
         | H : _ || _ = true |- _ => apply orb_true_iff in H
         | H : _ || _ = false |- _ => apply orb_false_iff in H
         | H : String.eqb _ _ = true |- _ => apply String.eqb_eq in H
         | H : String.eqb _ _ = false |- _ => apply String.eqb_neq in H
         end;
  cbn [fst snd] in *; subst;
  try congruence; try tauto; eauto.

(** Every path of [checkout_branch]. *)
Lemma checkout_branch_paths (b : string) (helpful : bool) (s : state) :
  let '(r, s') := checkout_branch b helpful s in
  let same_commit :=
    exists c, Git.commit_for_ref (git s) Head = Some c
              /\ Git.commit_for_ref (git s) (Branch b) = Some c in
  (r = inr tt ->
     HEAD (git s') = OnBranch b
     /\ unclean_states (git s') = []
     /\ (modified_files (git s') = []
         \/ (same_commit
             /\ modified_files (git s') = modified_files (git s))))
  /\ ((exists e, r = inl e) -> HEAD (git s') = HEAD (git s))
  /\ (is_local_branch_name (git s) b ExTrue = true ->
      unclean_states (git s) <> [] ->
      fst (Ui.select_from ["reset"; "cancel"] "cancel" (answers (UI s)))
      = "cancel" ->
      exists msg, r = inl (OperationCancelledError msg))
  /\ (is_local_branch_name (git s) b ExTrue = true ->
      unclean_states (git s) = [] ->
      modified_files (git s) <> [] ->
      Git.commit_for_ref (git s) Head
      <> Git.commit_for_ref (git s) (Branch b) ->
      fst (Ui.select_from ["discard"; "cancel"; "stash"] "cancel"
             (answers (UI s)))
      = "cancel" ->
      exists msg, r = inl (OperationCancelledError msg))
  /\ (is_local_branch_name (git s) b ExTrue = true ->
      unclean_states (git s) = [] ->
      same_commit ->
      fst (Ui.select_from ["discard"; "keep"; "stash"] "keep"
             (answers (UI s)))
      = "keep" ->
      r = inr tt /\ modified_files (git s') = modified_files (git s)).
Proof.
  destruct s as [[] t r [ans disp]].
  unfold checkout_branch, clean, reset_to_clean_state, aborting_checkout.
  paths.
  all: cbn [fst snd git UI answers HEAD unclean_states modified_files].
  all: repeat split; intros; close_path.
  all: exfalso;
    match goal with
    | Ha : is_local_branch_name ?g ?x ExAny = false,
      Ht : is_local_branch_name ?g ?x ExTrue = true |- _ =>
        rewrite (is_local_branch_name_any _ _ _ Ht) in Ha; discriminate Ha
    end.
Qed.



(** ** Checking out a ticket that has a branch *)

Lemma same_refs_refl s : same_refs s s.
Proof. repeat split. Qed.

Lemma same_refs_trans s1 s2 s3 :
  same_refs s1 s2 -> same_refs s2 s3 -> same_refs s1 s3.
Proof.
  unfold same_refs. intros (?&?&?) (?&?&?). repeat split; congruence.
Qed.

Lemma quiet_same_refs s s' : quiet s s' -> same_refs s s'.
Proof. unfold quiet, same_refs. tauto. Qed.

Lemma stable_quiet_same_refs {A} (m : M A) :
  stable quiet m -> stable same_refs m.
Proof. apply stable_weaken, quiet_same_refs. Qed.
#[export] Hint Resolve stable_quiet_same_refs : frames.

Lemma same_refs_git_checkout b : stable same_refs (Git.checkout b).
Proof.
  intros s. unfold Git.checkout.
  destruct (local_branches (git s) !! b); [|apply same_refs_refl].
  destruct (_ || _); repeat split.
Qed.
#[export] Hint Resolve same_refs_git_checkout : frames.

Lemma same_refs_checkout_branch b h : stable same_refs (checkout_branch b h).
Proof.
  unfold checkout_branch, aborting_checkout.
  frame same_refs_refl same_refs_trans.
Qed.

Lemma select_from_cases opts d ans x l :
  Ui.select_from opts d ans = (x, l) -> x = d \/ x ∈ opts.
Proof.
  induction ans as [|a ans IH]; simpl.
  - intros [= <- _]. now left.
  - destruct (bool_decide (a ∈ opts)) eqn:E; [|exact IH].
    intros [= <- _]. right. now apply bool_decide_eq_true in E.
Qed.

Lemma checkout_branch_again b h s :
  HEAD (git s) = OnBranch b ->
  unclean_states (git s) = [] ->
  is_local_branch_name (git s) b ExTrue = true ->
  fst (checkout_branch b h s) = inr tt.
Proof.
  intros Hh Hu Hb.
  pose proof (is_local_branch_name_any _ _ _ Hb) as Ha.
  destruct (is_local_branch_name_exists _ _ Hb) as [c Hc].
  destruct s as [[] t r [ans disp]]. cbn in Hh, Hu, Hc. subst.
  cbn [git] in Ha, Hb.
  unfold checkout_branch, clean, reset_to_clean_state, aborting_checkout.
  simpl_paths. rewrite Ha, Hb. simpl_paths. rewrite Hc. simpl_paths.
  rewrite bool_decide_eq_true_2 by reflexivity. simpl_paths.
  paths; try reflexivity; close_path.
  exfalso.
  match goal with
  | H : Ui.select_from _ _ _ = _ |- _ =>
      destruct (select_from_cases _ _ _ _ _ H) as [->|Hin]; [congruence|]
  end.
  repeat (apply elem_of_cons in Hin; destruct Hin as [->|Hin];
          [congruence|]).
  now apply elem_of_nil in Hin.
Qed.

Lemma has_local_branch_for_ticket_run s t b :
  ticket_to_branch (reg s) !! t = Some b ->
  is_local_branch_name (git s) b ExTrue = true ->
  _has_local_branch_for_ticket t s = (inr true, s).
Proof.
  intros Ht Hb. unfold _has_local_branch_for_ticket, bind, get.
  rewrite Ht. unfold _is_local_branch_name, get. now rewrite Hb.
Qed.

Lemma local_branch_for_ticket_run s t b p :
  ticket_to_branch (reg s) !! t = Some b ->
  is_local_branch_name (git s) b ExTrue = true ->
  _local_branch_for_ticket t p s = (inr b, s).
Proof.
  intros Ht Hb. unfold _local_branch_for_ticket.
  run (has_local_branch_for_ticket_run _ _ _ Ht Hb).
  unfold get. cbn. now rewrite Ht.
Qed.

Lemma check_ticket_name_run s t :
  0 <= t ->
  _check_ticket_name (PInt t) true s
  = (if bool_decide (t ∈ known_tickets (trac s)) then inr tt
     else inl (SageDevValueError
       "Ticket name {0} is not valid or ticket does not exist on trac."),
     s).
Proof.
  intros Ht. unfold _check_ticket_name, _is_ticket_name_exists.
  unfold _ticket_from_ticket_name.
  replace (t <? 0) with false by (symmetry; apply Z.ltb_ge; lia).
  unfold bind, Trac.exists_ticket, get.
  now destruct (bool_decide (t ∈ known_tickets (trac s))).
Qed.

Section CheckoutBound.

Context (t : Z) (b : string) (s : state).
Context (Ht : 0 <= t).
Context (Hlink : ticket_to_branch (reg s) !! t = Some b).
Context (Hb : is_local_branch_name (git s) b ExTrue = true).

(** For a ticket with a branch, [checkout_ticket] is the check of the
    ticket followed by [checkout_branch]. *)
Lemma checkout_ticket_bound base :
  checkout_ticket (PInt t) None base s
  = (if bool_decide (t ∈ known_tickets (trac s))
     then checkout_branch b true s
     else (inl (SageDevValueError
             "Ticket name {0} is not valid or ticket does not exist on trac."),
           s)).
Proof using Ht Hlink Hb.
  unfold checkout_ticket.
  unfold bind at 1. rewrite (check_ticket_name_run s t Ht).
  destruct (bool_decide (t ∈ known_tickets (trac s))); [|reflexivity].
  unfold _ticket_from_ticket_name.
  replace (t <? 0) with false by (symmetry; apply Z.ltb_ge; lia).
  cbn [bind ret lift].
  run (has_local_branch_for_ticket_run _ _ _ Hlink Hb).
  run (local_branch_for_ticket_run s t b false Hlink Hb).
  reflexivity.
Qed.

Lemma checkout_bound :
  let '(r, s') := checkout (PInt t) None (PStr "") s in
  same_refs s s'
  /\ (r = inr tt ->
      HEAD (git s') = OnBranch b /\ unclean_states (git s') = []
      /\ t ∈ known_tickets (trac s))
  /\ (HEAD (git s) = OnBranch b -> unclean_states (git s) = [] ->
      t ∈ known_tickets (trac s) -> r = inr tt).
Proof using Ht Hlink Hb.
  unfold checkout. cbv iota.
  unfold bind at 1. rewrite checkout_ticket_bound.
  destruct (bool_decide (t ∈ known_tickets (trac s))) eqn:Ek.
  2:{ apply bool_decide_eq_false in Ek.
      split; [apply same_refs_refl|]. split; [discriminate|tauto]. }
  apply bool_decide_eq_true in Ek.
  pose proof (same_refs_checkout_branch b true s) as F.
  pose proof (checkout_branch_paths b true s) as P.
  pose proof (checkout_branch_again b true s) as A.
  destruct (checkout_branch b true s) as [[e|[]] s1].
  { split; [exact F|]. split; [discriminate|].
    intros Hh Hu _. specialize (A Hh Hu Hb). discriminate. }
  destruct P as (P & _). destruct (P eq_refl) as (Ph & Pu & _).
  cbn [snd] in F.
  assert (Hb1 : is_local_branch_name (git s1) b ExTrue = true).
  { rewrite <- Hb. apply is_local_branch_name_ext.
    destruct F as (-> & _). reflexivity. }
  assert (Ht1 : exists o,
    _current_ticket s1 = (inr o, s1)).
  { unfold _current_ticket. rewrite Ph.
    destruct (branch_to_ticket (reg s1) !! b) as [t'|] eqn:E; [|eauto].
    rewrite (ticket_for_local_branch_run _ _ _ Hb1 E). eauto. }
  destruct Ht1 as [o Ho].
  run Ho.
  assert (Hcur : Git.current_branch s1 = (inr b, s1)).
  { unfold Git.current_branch. now rewrite Ph. }
  run Hcur.
  assert (Hshow : forall m1 m2 : M unit,
    (exists msg, m1 = Ui.show msg) -> (exists msg, m2 = Ui.info msg) ->
    let '(r, s') := (m1 ;;; m2) s1 in
    r = inr tt /\ git s' = git s1 /\ reg s' = reg s1 /\ trac s' = trac s1).
  { intros m1 m2 [? ->] [? ->]. cbn. auto. }
  match goal with
  | |- context [bind ?m1 (fun _ => ?m2) s1] =>
      specialize (Hshow m1 m2); destruct (bind m1 (fun _ => m2) s1)
        as [r s2]
  end.
  destruct Hshow as (-> & Hg & Hr & Htr).
  { destruct o as [t'|]; [destruct (negb (t' =? 0))|]; eauto. }
  { eauto. }
  split.
  { destruct F as (F1 & F2 & F3). unfold same_refs.
    rewrite Hg, Hr, Htr. auto. }
  split; [|auto]. intros _. rewrite Hg. auto.
Qed.

End CheckoutBound.

(** C4: for a ticket [t] bound to an existing local branch [b],
    [checkout(ticket=t)] never changes the registry or the branches; when
    it succeeds [b] is checked out, and calling it again succeeds, leaves
    [b] checked out and leaves the registry (both directions of the link)
    unchanged. *)
Theorem checkout_ticket_idempotent (t : Z) (b : string) (s : state) :
  0 <= t ->
  ticket_to_branch (reg s) !! t = Some b ->
  is_local_branch_name (git s) b ExTrue = true ->
  let '(r1, s1) := checkout (PInt t) None (PStr "") s in
  reg s1 = reg s
  /\ (r1 = inr tt ->
      HEAD (git s1) = OnBranch b
      /\ let '(r2, s2) := checkout (PInt t) None (PStr "") s1 in
         r2 = inr tt
         /\ HEAD (git s2) = OnBranch b
         /\ reg s2 = reg s1
         /\ local_branches (git s2) = local_branches (git s1)).
Proof.
  intros Ht Hlink Hb.
  pose proof (checkout_bound t b s Ht Hlink Hb) as C1.
  destruct (checkout (PInt t) None (PStr "") s) as [r1 s1].
  destruct C1 as ((Fb & Fr & Ft) & C1 & _).
  split; [exact Fr|]. intros Hr. destruct (C1 Hr) as (Hh & Hu & Hk).
  split; [exact Hh|].
  assert (Hlink1 : ticket_to_branch (reg s1) !! t = Some b)
    by (rewrite Fr; exact Hlink).
  assert (Hb1 : is_local_branch_name (git s1) b ExTrue = true).
  { rewrite <- Hb. apply is_local_branch_name_ext. now rewrite Fb. }
  pose proof (checkout_bound t b s1 Ht Hlink1 Hb1) as C2.
  destruct (checkout (PInt t) None (PStr "") s1) as [r2 s2].
  destruct C2 as ((Gb & Gr & Gt) & C2 & C3).
  assert (Hr2 : r2 = inr tt).
  { apply C3; [assumption..|]. now rewrite Ft. }
  split; [exact Hr2|]. destruct (C2 Hr2) as (Hh2 & _).
  auto.
Qed.

(** Ticket 1 is checked out twice from the master branch. *)
Lemma checkout_ticket_idempotent_witness :
  reg (snd (checkout (PInt 1) None (PStr "") Sample.on_master))
  = reg Sample.on_master.
Proof.
  pose proof (checkout_ticket_idempotent 1 "ticket/1" Sample.on_master
                ltac:(lia) ltac:(vm_compute; reflexivity)
                ltac:(vm_compute; reflexivity)) as T.
  destruct (checkout (PInt 1) None (PStr "") Sample.on_master) as [r s'].
  exact (proj1 T).
Defined.

(** ** Rolling back the creation of a branch *)

Lemma other_branches_refl b s : other_branches b s s.
Proof. split; auto. Qed.

Lemma other_branches_trans b s1 s2 s3 :
  other_branches b s1 s2 -> other_branches b s2 s3 -> other_branches b s1 s3.
Proof.
  intros [H1 H2] [K1 K2]. split; [congruence|].
  intros b' Hb'. rewrite K2, H2; auto.
Qed.

Lemma quiet_other_branches b s s' : quiet s s' -> other_branches b s s'.
Proof.
  unfold quiet. intros (Hb & Hh & _). split; [exact Hh|].
  intros b' _. now rewrite Hb.
Qed.

Lemma stable_quiet_other_branches b {A} (m : M A) :
  stable quiet m -> stable (other_branches b) m.
Proof. apply stable_weaken, quiet_other_branches. Qed.
#[export] Hint Resolve stable_quiet_other_branches : frames.

Lemma other_branches_git_branch b start :
  stable (other_branches b) (Git.branch b start).
Proof.
  intros s. unfold Git.branch.
  destruct (branch_fault (git s)) as [[]|];
    destruct (Git.commit_for_ref (git s) start);
    destruct (local_branches (git s) !! b) eqn:E; cbn;
    try apply other_branches_refl.
  all: split; [reflexivity|]; intros b' Hb'; cbn;
    try reflexivity; now rewrite lookup_insert_ne.
Qed.
#[export] Hint Resolve other_branches_git_branch : frames.

Lemma other_branches_has_local_branch_for_ticket b t :
  stable (other_branches b) (_has_local_branch_for_ticket t).
Proof.
  intros s. unfold _has_local_branch_for_ticket, bind, get.
  destruct (ticket_to_branch (reg s) !! t) as [b0|];
    [|apply other_branches_refl].
  unfold _is_local_branch_name, get.
  destruct (is_local_branch_name (git s) b0 ExTrue);
    [apply other_branches_refl|].
  cbn. split; auto.
Qed.
#[export] Hint Resolve other_branches_has_local_branch_for_ticket : frames.

Lemma other_branches_local_branch_for_ticket b t :
  stable (other_branches b) (_local_branch_for_ticket t false).
Proof.
  unfold _local_branch_for_ticket.
  frame (other_branches_refl b) (other_branches_trans b).
Qed.
#[export] Hint Resolve other_branches_local_branch_for_ticket : frames.





(** ** Push *)

Lemma is_remote_branch_name_run s rb c :
  GIT_BRANCH_REGEX rb = true ->
  _is_ticket_name (PStr rb) = false ->
  offline (git s) = false ->
  remote_heads (git s) !! rb = Some c ->
  _is_remote_branch_name rb ExTrue s = (inr true, s).
Proof.
  intros Hr Ht Ho Hc. unfold _is_remote_branch_name.
  rewrite Hr, Ht. cbn [negb]. unfold Git.ls_remote. rewrite Ho, Hc.
  rewrite bool_decide_eq_true_2 by eauto. reflexivity.
Qed.

Lemma fetch_run s rb c :
  offline (git s) = false ->
  remote_heads (git s) !! rb = Some c ->
  Git.fetch rb s
  = (inr tt, State (Git.with_FETCH_HEAD (Some c) (git s))
                   (trac s) (reg s) (UI s)).
Proof. intros Ho Hc. unfold Git.fetch. now rewrite Ho, Hc. Qed.

Ltac close_lookup :=
  repeat match goal with
         | H : ?x = Some _, H' : ?x = None |- _ => rewrite H in H'; discriminate H'
         | H : ?x = Some _, H' : ?x = Some _ |- _ =>
             rewrite H in H'; injection H' as H'; subst
         | H : Some _ = Some _ |- _ => injection H as H; subst
         | H : Some _ = None |- _ => discriminate H
         | H : None = Some _ |- _ => discriminate H
         | H : true = false |- _ => discriminate H
         | H : false = true |- _ => discriminate H
         end.

Section Upload.

Context (b remote_branch : string) (cl cr : commit) (s : state).
Context (Hregex : GIT_BRANCH_REGEX remote_branch = true).
Context (Hnoticket : _is_ticket_name (PStr remote_branch) = false).
Context (Honline : offline (git s) = false).
Context (Hremote : remote_heads (git s) !! remote_branch = Some cr).
Context (Hlocal : local_branches (git s) !! b = Some cl).

(** With [force] unset and equal commits, nothing is pushed. *)
Lemma push_upload_identical :
  cl = cr ->
  ancestry (git s) cr cr = true ->
  push_upload b remote_branch false s
  = (inr false,
     State (Git.with_FETCH_HEAD (Some cr) (git s)) (trac s) (reg s)
       (UserInterface (answers (UI s))
          ("Remote branch {0} is idential to your local branch {1}"
             :: displayed (UI s)))).
Proof using Hregex Hnoticket Honline Hremote Hlocal.
  intros -> Hrefl. destruct s as [[] t r [ans disp]].
  cbn in Honline, Hremote, Hlocal, Hrefl. subst.
  unfold push_upload. simpl_paths. rewrite Hregex, Hnoticket. simpl_paths.
  rewrite Hremote. simpl_paths.
  rewrite bool_decide_eq_true_2 by eauto.
  repeat (progress (rewrite ?Hremote, ?Hlocal); simpl_paths).
  rewrite Hrefl. simpl_paths.
  repeat (progress (rewrite ?Hremote, ?Hlocal); simpl_paths).
  rewrite bool_decide_eq_true_2 by reflexivity. reflexivity.
Qed.

(** With [force] unset and a local head that the remote head is not an
    ancestor of, the push is refused. *)
Lemma push_upload_refused :
  ancestry (git s) cr cl = false ->
  push_upload b remote_branch false s
  = (inl (OperationCancelledError "not a fast-forward"),
     State (Git.with_FETCH_HEAD (Some cr) (git s)) (trac s) (reg s)
       (UserInterface (answers (UI s))
          ("Use {0} if you really want to overwrite the remote branch."
           :: "Not pushing your changes because they would discard some of the commits on the remote branch {0}."
           :: displayed (UI s)))).
Proof using Hregex Hnoticket Honline Hremote Hlocal.
  intros Hanc. destruct s as [[] t r [ans disp]].
  cbn in Honline, Hremote, Hlocal, Hanc. subst.
  unfold push_upload. simpl_paths. rewrite Hregex, Hnoticket. simpl_paths.
  rewrite Hremote. simpl_paths.
  rewrite bool_decide_eq_true_2 by eauto.
  repeat (progress (rewrite ?Hremote, ?Hlocal, ?Hanc); simpl_paths).
  reflexivity.
Qed.

End Upload.

(** C2 (as amended): let the destination remote branch exist and [force]
    be unset, and let the local head either be the remote head or be a
    commit that the remote head is no ancestor of (in particular one that
    is strictly behind the remote head).  Then [push] uploads nothing and
    leaves the ticket server alone.  On equal heads it returns after
    reporting that the remote branch is identical to the local branch; in
    the other case it is refused as "not a fast-forward". *)
Theorem push_without_new_commits
    (ticket : pyname) (remote : option string) (s s0 : state)
    (t : option Z) (b rb : string) (uc : bool) (cl cr : commit) :
  push_resolve ticket remote s = (inr (t, b, rb, uc), s0) ->
  GIT_BRANCH_REGEX rb = true ->
  _is_ticket_name (PStr rb) = false ->
  offline (git s0) = false ->
  remote_heads (git s0) !! rb = Some cr ->
  local_branches (git s0) !! b = Some cl ->
  cl = cr \/ ancestry (git s0) cr cl = false ->
  exists r s',
    push ticket remote false s = (r, s')
    /\ remote_heads (git s') = remote_heads (git s0)
    /\ trac s' = trac s0
    /\ (ancestry (git s0) cr cl = true ->
        r = inr tt
        /\ displayed (UI s')
           = "Remote branch {0} is idential to your local branch {1}"
               :: displayed (UI s0))
    /\ (ancestry (git s0) cr cl = false ->
        r = inl (OperationCancelledError "not a fast-forward")
        /\ displayed (UI s')
           = "Use {0} if you really want to overwrite the remote branch."
             :: "Not pushing your changes because they would discard some of the commits on the remote branch {0}."
             :: displayed (UI s0)).
Proof.
  intros Hres Hregex Hnt Hon Hrem Hloc Hcase.
  unfold push. run Hres.
  destruct (ancestry (git s0) cr cl) eqn:Hanc.
  - destruct Hcase as [->|Hcase]; [|discriminate Hcase].
    run (push_upload_identical b rb cr cr s0 Hregex Hnt Hon Hrem Hloc
           eq_refl Hanc).
    cbn. do 2 eexists. split; [reflexivity|].
    destruct s0 as [[] ? ? []]. cbn.
    split; [reflexivity|]. split; [reflexivity|].
    split; [auto|discriminate].
  - run (push_upload_refused b rb cl cr s0 Hregex Hnt Hon Hrem Hloc Hanc).
    do 2 eexists. split; [reflexivity|].
    destruct s0 as [[] ? ? []]. cbn.
    split; [reflexivity|]. split; [reflexivity|].
    split; [discriminate|auto].
Qed.

Lemma push_without_new_commits_witness :
  exists s',
    push PNone None false Sample.behind_remote
    = (inl (OperationCancelledError "not a fast-forward"), s')
    /\ remote_heads (git s') !! "u/alice/ticket/1" = Some 2%nat.
Proof.
  destruct (push_without_new_commits PNone None Sample.behind_remote
              (snd (push_resolve PNone None Sample.behind_remote))
              (Some 1) "ticket/1" "u/alice/ticket/1" false 1%nat 2%nat
              ltac:(vm_compute; reflexivity) ltac:(vm_compute; reflexivity)
              ltac:(vm_compute; reflexivity) ltac:(vm_compute; reflexivity)
              ltac:(vm_compute; reflexivity) ltac:(vm_compute; reflexivity)
              ltac:(right; vm_compute; reflexivity))
    as (r & s' & H & Hheads & _ & _ & Hbehind).
  destruct (Hbehind ltac:(vm_compute; reflexivity)) as [-> _].
  exists s'. split; [exact H|]. rewrite Hheads. vm_compute. reflexivity.
Defined.

(** C2 (counterexample): the local branch of ticket 1 is at commit 1, a
    strict ancestor of commit 2, the head of the remote branch.  Without
    [force] the push is refused as "not a fast-forward" and the only
    messages are those of the refusal: nothing says that there is nothing
    to push.  With [force] the push is performed: the remote branch is
    moved back to commit 1. *)
Lemma push_behind_remote_is_refused_or_forced :
  let s := Sample.behind_remote in
  let '(r, s') := push PNone None false s in
  let '(rf, sf) := push PNone None true s in
  local_branches (git s) !! "ticket/1" = Some 1%nat
  /\ remote_heads (git s) !! "u/alice/ticket/1" = Some 2%nat
  /\ ancestry (git s) 1%nat 2%nat = true
  /\ ancestry (git s) 2%nat 1%nat = false
  /\ r = inl (OperationCancelledError "not a fast-forward")
  /\ displayed (UI s')
     = [ "Use {0} if you really want to overwrite the remote branch.";
         "Not pushing your changes because they would discard some of the commits on the remote branch {0}." ]
  /\ rf = inr tt
  /\ remote_heads (git sf) !! "u/alice/ticket/1" = Some 1%nat.
Proof. vm_compute. repeat split. Qed.

Section BranchField.

Context (ticket : Z) (b remote_branch v_old : string).
Context (c_old cl : commit) (s : state).
Context (Hfield : branch_field (trac s) !! ticket = Some v_old).
Context (Honline : offline (git s) = false).
Context (Hold : remote_heads (git s) !! v_old = Some c_old).
Context (Hlocal : local_branches (git s) !! b = Some cl).

(** The refusal of lines 1161-1170. *)
Lemma push_branch_field_refused :
  v_old <> remote_branch ->
  ancestry (git s) c_old cl = false ->
  push_branch_field ticket b remote_branch false s
  = (inl (OperationCancelledError "not a fast-forward"),
     State (Git.with_FETCH_HEAD (Some c_old) (git s)) (trac s) (reg s)
       (UserInterface (answers (UI s))
          ("Use {0} to overwrite the branch field. Use {1} to merge the changes introduced by the remote {2} into your local branch."
           :: "Not setting the branch field for ticket #{0} to {1} because {1} and the current value of the branch field {2} have diverged."
           :: displayed (UI s)))).
Proof using Hfield Honline Hold Hlocal.
  intros Hne Hanc. destruct s as [[] [] r [ans disp]].
  cbn in Hfield, Honline, Hold, Hlocal, Hanc. subst.
  unfold push_branch_field, Trac._branch_for_ticket. simpl_paths.
  rewrite Hfield. simpl_paths.
  rewrite bool_decide_eq_false_2 by congruence.
  repeat (progress (rewrite ?Hold, ?Hlocal, ?Hanc); simpl_paths).
  reflexivity.
Qed.

End BranchField.

(** C1 (as amended): let [push] be called with [force] unset for a local
    branch bound to a ticket whose branch field holds [v_old], a remote
    branch other than the destination, and let the upload succeed.  If the
    head of [v_old] is no ancestor of the local head, the update of the
    branch field is refused: [push] fails as "not a fast-forward" after
    reporting that the two branches have diverged, and the ticket server is
    as the upload left it, so the branch field still holds [v_old]. *)
Theorem diverged_branch_field_is_kept
    (ticket : pyname) (remote : option string) (s s0 s1 : state)
    (t : Z) (b rb v_old : string) (uc : bool) (c_old cl : commit) :
  push_resolve ticket remote s = (inr (Some t, b, rb, uc), s0) ->
  push_upload b rb false s0 = (inr true, s1) ->
  branch_field (trac s1) !! t = Some v_old ->
  v_old <> rb ->
  offline (git s1) = false ->
  remote_heads (git s1) !! v_old = Some c_old ->
  local_branches (git s1) !! b = Some cl ->
  ancestry (git s1) c_old cl = false ->
  exists s',
    push ticket remote false s
    = (inl (OperationCancelledError "not a fast-forward"), s')
    /\ trac s' = trac s1
    /\ branch_field (trac s') !! t = Some v_old
    /\ displayed (UI s')
       = "Use {0} to overwrite the branch field. Use {1} to merge the changes introduced by the remote {2} into your local branch."
         :: "Not setting the branch field for ticket #{0} to {1} because {1} and the current value of the branch field {2} have diverged."
         :: displayed (UI s1).
Proof.
  intros Hres Hup Hfield Hne Hon Hold Hloc Hanc.
  unfold push. run Hres. run Hup. cbn [negb].
  run (push_branch_field_refused t b rb v_old c_old cl s1
         Hfield Hon Hold Hloc Hne Hanc).
  eexists. split; [reflexivity|].
  destruct s1 as [[] ? ? []]. cbn in *. auto.
Qed.

Lemma diverged_branch_field_is_kept_witness :
  exists s',
    push PNone None false Sample.field_moved_on
    = (inl (OperationCancelledError "not a fast-forward"), s')
    /\ branch_field (trac s') !! 1 = Some "u/alice/ticket/1".
Proof.
  destruct (diverged_branch_field_is_kept PNone None Sample.field_moved_on
              (snd (push_resolve PNone None Sample.field_moved_on))
              (snd (push_upload "ticket/1" "u/bob/ticket/1" false
                      (snd (push_resolve PNone None Sample.field_moved_on))))
              1 "ticket/1" "u/bob/ticket/1" "u/alice/ticket/1" false
              5%nat 3%nat
              ltac:(vm_compute; reflexivity) ltac:(vm_compute; reflexivity)
              ltac:(vm_compute; reflexivity) ltac:(discriminate)
              ltac:(vm_compute; reflexivity) ltac:(vm_compute; reflexivity)
              ltac:(vm_compute; reflexivity) ltac:(vm_compute; reflexivity))
    as (s' & H & _ & Hfield & _).
  exists s'. split; assumption.
Defined.

(** C1 (counterexample): the branch field of ticket 1 holds the branch of
    alice, at commit 5; bob pushes his branch, at commit 3, which is no
    descendant of commit 5, with [force] set.  The push succeeds and the
    branch field is overwritten with the branch of bob. *)
Lemma forced_push_overwrites_diverged_branch_field :
  let s := Sample.field_moved_on in
  let '(r, s') := push PNone None true s in
  branch_field (trac s) !! 1 = Some "u/alice/ticket/1"
  /\ remote_heads (git s) !! "u/alice/ticket/1" = Some 5%nat
  /\ local_branches (git s) !! "ticket/1" = Some 3%nat
  /\ ancestry (git s) 5%nat 3%nat = false
  /\ r = inr tt
  /\ remote_heads (git s') !! "u/bob/ticket/1" = Some 3%nat
  /\ branch_field (trac s') !! 1 = Some "u/bob/ticket/1".
Proof. vm_compute. repeat split. Qed.

(** ** The state of the master branch *)

(** The steps of the collaborators, of the monad and of the guards, for
    computations that are analysed path by path. *)
Ltac steps :=
  cbv beta zeta iota delta
    [_is_master_uptodate _remote_branch_for_branch vanilla checkout_detach
     clean reset_to_clean_state
     _check_local_branch_name _is_local_branch_name
     Ui.show Ui.error Ui.info Ui.warning Ui.debug Ui.select Ui.confirm
     Git.get_state Git.has_uncommitted_changes Git.reset_to_clean_state
     Git.clean_wrapper Git.stash Git.checkout Git.with_tree Git.with_HEAD
     Git.commit_for_ref Git.resolve Git.commit_for_branch
     Git.ls_remote Git.fetch Git.is_child_of Git.is_ancestor_of Git.push
     Git.with_FETCH_HEAD Git.with_remote Git.current_branch
     Trac._branch_for_ticket Trac.set_branch set_trac
     username known_tickets branch_field dependency_field
     set_UI set_git set_reg get ret raise bind try_except when lift
     negb andb orb nth fst snd git trac reg UI answers displayed
     local_branches HEAD FETCH_HEAD unclean_states modified_files
     untracked_files stash_stack merged_in remote_heads ancestry blocked
     conflicting branch_fault offline
     ticket_to_branch branch_to_ticket ticket_dependencies
     branch_to_remote_branch].

Ltac all_paths :=
  steps;
  repeat (match goal with
          | |- context [match ?x with _ => _ end] =>
              lazymatch x with
              | context [match _ with _ => _ end] => fail
              | _ => destruct x eqn:?
              end
          end; steps).

Lemma remote_branch_for_branch_run s b :
  is_local_branch_name (git s) b ExTrue = true ->
  _remote_branch_for_branch b s
  = (inr (match branch_to_remote_branch (reg s) !! b with
          | Some r => Some r
          | None => if String.eqb b MASTER_BRANCH then Some MASTER_BRANCH
                    else None
          end), s).
Proof.
  intros H. unfold _remote_branch_for_branch.
  run (check_local_branch_name_ok _ _ H).
  unfold get, bind.
  destruct (branch_to_remote_branch (reg s) !! b); [reflexivity|].
  destruct (String.eqb b MASTER_BRANCH); reflexivity.
Qed.

(** X1: [_is_master_uptodate] answers [False] only when the head of the remote
    master branch is another commit than the local head of master and a
    descendant of it, and only when [action_if_not] is [None] or
    ['warning']. *)
Theorem master_reported_out_of_date (a : option string) (s s' : state) :
  _is_master_uptodate a s = (inr false, s') ->
  exists cr cm,
    remote_heads (git s) !! remote_master s = Some cr
    /\ local_branches (git s) !! MASTER_BRANCH = Some cm
    /\ ancestry (git s) cm cr = true
    /\ cr <> cm
    /\ (a = None \/ a = Some "warning").
Proof.
  unfold remote_master. destruct s as [[] tr [] ui].
  all_paths; intros [= <-]; close_path.
  all: match goal with
       | H1 : ?m !! MASTER_BRANCH = Some ?c0, H2 : Some ?c <> ?m !! MASTER_BRANCH
         |- _ => exists c, c0; rewrite H1 in H2; cbn [default];
                 repeat split; auto; congruence
       end.
Qed.

(** X2: With [master] checked out of a repository that is online, the answer
    of [_is_master_uptodate] is decided by the two heads.  When the remote
    head is the local head, or no descendant of it, the answer is [True]
    whatever [action_if_not] is, even a value that is no action.  When the
    remote head is another commit and a descendant, ['error'] raises
    [SageDevValueError], a value that is no action raises [ValueError], and
    otherwise the answer is [False]. *)
Theorem is_master_uptodate_by_heads
    (a : option string) (s : state) (cr cm : commit) :
  offline (git s) = false ->
  remote_heads (git s) !! remote_master s = Some cr ->
  local_branches (git s) !! MASTER_BRANCH = Some cm ->
  let r := fst (_is_master_uptodate a s) in
  let behind := ancestry (git s) cm cr && negb (bool_decide (cr = cm)) in
  (behind = false -> r = inr true)
  /\ (behind = true ->
      r = match a with
          | None => inr false
          | Some action =>
              if String.eqb action "error" then
                inl (SageDevValueError
                  "Your version of sage, i.e., your {0} branch, is out of date.")
              else if String.eqb action "warning" then inr false
              else inl (ValueError "")
          end).
Proof.
  intros Hon Hr Hm.
  assert (Hex : is_local_branch_name (git s) MASTER_BRANCH ExTrue = true).
  { apply is_local_branch_name_true; [reflexivity|]. rewrite Hm. eauto. }
  assert (Hrb : _remote_branch_for_branch MASTER_BRANCH s
                = (inr (Some (remote_master s)), s)).
  { rewrite (remote_branch_for_branch_run _ _ Hex). unfold remote_master.
    destruct (branch_to_remote_branch (reg s) !! MASTER_BRANCH); reflexivity. }
  unfold _is_master_uptodate. run Hrb. clear Hrb.
  generalize dependent (remote_master s). intros rm Hr.
  destruct s as [[lb hd fh us mf uf ss mi rh anc bl cf bf off] tr rg ui].
  cbn in Hon, Hr, Hm. subst.
  steps. repeat (progress (rewrite ?Hr, ?Hm); steps).
  destruct (anc cm cr) eqn:Ha; steps;
    [|split; [reflexivity|discriminate]].
  repeat (progress (rewrite ?Hr, ?Hm); steps).
  destruct (decide (cr = cm)) as [Heq|Heq].
  - rewrite !bool_decide_eq_true_2 by congruence. steps.
    split; [reflexivity|discriminate].
  - rewrite !bool_decide_eq_false_2 by congruence. steps.
    split; [discriminate|intros _].
    destruct a as [action|]; [|reflexivity].
    destruct (String.eqb action "error"); [reflexivity|].
    destruct (String.eqb action "warning"); reflexivity.
Qed.

(** X3: [_is_master_uptodate] fetches and reports: the local branches, [HEAD],
    the registry and the ticket server are never changed. *)
Theorem is_master_uptodate_is_quiet (a : option string) (s : state) :
  quiet s (snd (_is_master_uptodate a s)).
Proof.
  revert s. change (stable quiet (_is_master_uptodate a)).
  assert (Q : forall b, stable quiet (_remote_branch_for_branch b)).
  { intros b. unfold _remote_branch_for_branch. quiet_frame. }
  unfold _is_master_uptodate. quiet_frame.
Qed.


Lemma master_reported_out_of_date_witness :
  exists cr cm,
    remote_heads (git Scenario.stale_master) !! "master" = Some cr
    /\ local_branches (git Scenario.stale_master) !! "master" = Some cm
    /\ cr <> cm.
Proof.
  destruct (master_reported_out_of_date (Some "warning")
              Scenario.stale_master
              (snd (_is_master_uptodate (Some "warning")
                      Scenario.stale_master))
              ltac:(vm_compute; reflexivity))
    as (cr & cm & H1 & H2 & _ & H3 & _).
  exists cr, cm. auto.
Defined.

Lemma is_master_uptodate_by_heads_witness :
  fst (_is_master_uptodate (Some "upgrade") Scenario.stale_master)
  = inl (ValueError "").
Proof.
  exact (proj2 (is_master_uptodate_by_heads (Some "upgrade")
                  Scenario.stale_master 4%nat 0%nat
                  ltac:(vm_compute; reflexivity)
                  ltac:(vm_compute; reflexivity)
                  ltac:(vm_compute; reflexivity))
           ltac:(vm_compute; reflexivity)).
Defined.

(** ** Returning to a release *)

(** X4: Every path of [vanilla]: the branches, the registry and the ticket
    server are never changed.  When [vanilla] returns, the repository is in
    no merge state, no tracked file is modified, and [HEAD] is detached at
    the commit that the name stands for locally or, failing that, at the
    head of the remote branch of that name.  When [vanilla] raises, [HEAD]
    is where it was. *)
Theorem vanilla_detaches_head (release : string) (s : state) :
  let '(r, s') := vanilla release s in
  same_refs s s'
  /\ (r = inr tt ->
      unclean_states (git s') = []
      /\ modified_files (git s') = []
      /\ exists c,
           HEAD (git s') = Detached c
           /\ (Git.commit_for_ref (git s) (ref_of_name release) = Some c
               \/ remote_heads (git s) !! release = Some c))
  /\ ((exists e, r = inl e) -> HEAD (git s') = HEAD (git s)).
Proof.
  destruct s as [[lb hd fh us mf uf ss mi rh anc bl cf bf off] tr rg ui].
  unfold same_refs.
  all_paths.
  all: split; [repeat split|split; [intros Hr|intros [e He]]];
    try discriminate; try reflexivity.
  all: try (split; [reflexivity|split; [reflexivity|]]).
  all: try (eexists; split; [reflexivity|]; auto; fail).
Qed.

(** X5: On a clean working tree, a release that is neither known locally nor a
    branch of the remote repository (or cannot be fetched because the
    repository is offline) makes [vanilla] fail with
    [OperationCancelledError], after one error message and without any
    other change. *)
Theorem vanilla_unknown_release (release : string) (s : state) :
  unclean_states (git s) = [] ->
  modified_files (git s) = [] ->
  Git.commit_for_ref (git s) (ref_of_name release) = None ->
  offline (git s) = true \/ remote_heads (git s) !! release = None ->
  vanilla release s
  = (inl (OperationCancelledError "no such tag/branch/..."),
     State (git s) (trac s) (reg s)
       (UserInterface (answers (UI s))
          ("{0} does not exist locally or on the remote server."
             :: displayed (UI s)))).
Proof.
  destruct s as [[lb hd fh us mf uf ss mi rh anc bl cf bf off] tr rg
                 [ans disp]].
  cbn [git unclean_states modified_files offline remote_heads UI answers
       displayed trac reg].
  intros -> -> Hloc Hrem. steps.
  unfold Git.commit_for_ref, Git.resolve in Hloc. cbn in Hloc.
  rewrite Hloc. steps.
  destruct Hrem as [->|Hrem]; steps; [reflexivity|].
  destruct off; steps; [reflexivity|]. rewrite Hrem. reflexivity.
Qed.

Lemma vanilla_unknown_release_witness :
  fst (vanilla "sage-6.2" Sample.on_master)
  = inl (OperationCancelledError "no such tag/branch/...").
Proof.
  rewrite (vanilla_unknown_release "sage-6.2" Sample.on_master
             ltac:(reflexivity) ltac:(reflexivity)
             ltac:(vm_compute; reflexivity)
             ltac:(right; vm_compute; reflexivity)).
  reflexivity.
Defined.


(** ** Showing dependencies *)

Lemma pop_snoc st t : pop (st ++ [t]) = Some (t, st).
Proof. unfold pop. rewrite rev_app_distr. simpl. now rewrite rev_involutive. Qed.

Lemma pop_Some stack t st : pop stack = Some (t, st) -> stack = st ++ [t].
Proof.
  unfold pop. destruct (rev stack) as [|x r] eqn:E; [discriminate|].
  intros [= <- <-]. rewrite <- (rev_involutive stack), E. reflexivity.
Qed.

Lemma pop_None stack : pop stack = None -> stack = [].
Proof.
  unfold pop. destruct (rev stack) as [|x r] eqn:E; [|discriminate].
  intros _. rewrite <- (rev_involutive stack), E. reflexivity.
Qed.

(** What the [for] loop appends to the stack: the dependencies that are
    neither on the stack nor listed, once each. *)
Lemma push_new_spec deps : forall stack acc,
  exists new,
    push_new deps stack acc = stack ++ new
    /\ NoDup new
    /\ forall d, d ∈ new <-> ((d ∈ deps) /\ (d ∉ stack) /\ (d ∉ acc)).
Proof.
  induction deps as [|d deps IH]; intros stack acc; simpl.
  - exists []. rewrite app_nil_r. split; [reflexivity|].
    split; [constructor|]. intros d. rewrite !elem_of_nil. tauto.
  - destruct (bool_decide (d ∈ stack)) eqn:E1; simpl.
    + apply bool_decide_eq_true in E1.
      destruct (IH stack acc) as (new & -> & Hnd & Hin).
      exists new. split; [reflexivity|]. split; [assumption|].
      intros d'. rewrite Hin, elem_of_cons. split; [tauto|].
      intros ([->|?] & ? & ?); tauto.
    + apply bool_decide_eq_false in E1.
      destruct (bool_decide (d ∈ acc)) eqn:E2; simpl.
      * apply bool_decide_eq_true in E2.
        destruct (IH stack acc) as (new & -> & Hnd & Hin).
        exists new. split; [reflexivity|]. split; [assumption|].
        intros d'. rewrite Hin, elem_of_cons. split; [tauto|].
        intros ([->|?] & ? & ?); tauto.
      * apply bool_decide_eq_false in E2.
        destruct (IH (stack ++ [d]) acc) as (new & -> & Hnd & Hin).
        exists (d :: new). rewrite <- app_assoc. split; [reflexivity|].
        split.
        { constructor; [|assumption]. rewrite Hin, elem_of_app.
          rewrite list_elem_of_singleton. tauto. }
        intros d'. rewrite elem_of_cons, Hin, elem_of_cons, elem_of_app.
        rewrite list_elem_of_singleton.
        destruct (decide (d' = d)) as [->|Hne]; [tauto|]. tauto.
Qed.

(** [_has_local_branch_for_ticket] answers [has_branch]; when it removes a
    stale link, the dependencies and the other tickets are not affected. *)
Lemma has_local_branch_for_ticket_graph s t :
  exists s',
    _has_local_branch_for_ticket t s = (inr (has_branch s t), s')
    /\ git s' = git s
    /\ same_graph s s'.
Proof.
  unfold _has_local_branch_for_ticket, has_branch, same_graph.
  unfold bind at 1. unfold get at 1.
  destruct (ticket_to_branch (reg s) !! t) as [b|] eqn:E.
  - unfold bind at 1. rewrite is_local_branch_name_run.
    destruct (is_local_branch_name (git s) b ExTrue) eqn:Eb.
    + exists s. repeat split.
    + eexists. split; [reflexivity|]. destruct s as [g tr [] ui].
      cbn in *. split; [reflexivity|].
      unfold unlink. cbn. rewrite E. cbn.
      split; [reflexivity|]. intros x. unfold has_branch, with_links. cbn.
      destruct (decide (x = t)) as [->|Hne].
      * rewrite lookup_delete_eq, E. now rewrite Eb.
      * now rewrite lookup_delete_ne by congruence.
  - exists s. repeat split.
Qed.

Lemma same_graph_refl s : same_graph s s.
Proof. split; reflexivity. Qed.

Lemma same_graph_trans s1 s2 s3 :
  same_graph s1 s2 -> same_graph s2 s3 -> same_graph s1 s3.
Proof.
  intros [H1 H2] [H3 H4]. split; [congruence|].
  intros x. now rewrite H4, H2.
Qed.

Lemma same_graph_dependencies s s' x :
  same_graph s s' -> dependencies_of s' x = dependencies_of s x.
Proof. intros [H _]. unfold dependencies_of. now rewrite H. Qed.

Lemma walk_universe_elem s t x d :
  d ∈ dependencies_of s x -> d ∈ walk_universe (reg s) t.
Proof.
  unfold dependencies_of, walk_universe. intros H.
  destruct (ticket_dependencies (reg s) !! x) as [deps|] eqn:E;
    [|now apply elem_of_nil in H].
  cbn in H. apply elem_of_cons. right.
  apply list_elem_of_In, in_concat. exists deps. split.
  - apply list_elem_of_In, list_elem_of_fmap. exists (x, deps).
    split; [reflexivity|]. now apply elem_of_map_to_list.
  - now apply list_elem_of_In.
Qed.

Lemma same_graph_warning s0 s msg :
  same_graph s0 s -> same_graph s0 (snd (Ui.warning msg s)).
Proof. intros H. exact H. Qed.

Section Walk.

Context (s0 : state) (t0 : Z) (U : list Z).
Context (HU : forall x d, d ∈ dependencies_of s0 x -> d ∈ U).

(** The loop, from any turn on: it comes to an end when it has been given
    one turn more than there are tickets left to list. *)
Lemma dependencies_walk_spec : forall fuel stack acc s,
  same_graph s0 s ->
  NoDup (stack ++ acc) ->
  (forall x, x ∈ stack ++ acc -> x ∈ U) ->
  (length U < fuel + length acc)%nat ->
  (forall x, x ∈ stack ++ acc -> reaches s0 t0 x) ->
  (forall x, x ∈ acc -> has_branch s0 x = true ->
     forall d, d ∈ dependencies_of s0 x -> d ∈ stack ++ acc) ->
  exists l s',
    dependencies_walk fuel stack acc s = (inr l, s')
    /\ same_graph s0 s'
    /\ NoDup l
    /\ (exists k, l = acc ++ k)
    /\ (forall t st, pop stack = Some (t, st) -> exists k, l = acc ++ t :: k)
    /\ (forall x, x ∈ l -> reaches s0 t0 x)
    /\ (forall x, x ∈ l -> has_branch s0 x = true ->
          forall d, d ∈ dependencies_of s0 x -> d ∈ l).
Proof using HU.
  unfold reaches.
  induction fuel as [|fuel IH]; intros stack acc s Hg Hnd Hsub Hlen Hreach Hclosed.
  { exfalso. apply NoDup_app in Hnd as (_ & _ & Hnd).
    assert (length acc <= length U)%nat; [|lia].
    apply submseteq_length, NoDup_submseteq; [assumption|].
    intros x Hx. apply Hsub, elem_of_app. now right. }
  simpl. destruct (pop stack) as [[t st]|] eqn:Ep.
  2:{ apply pop_None in Ep. subst stack. simpl in *.
      exists acc, s. split; [reflexivity|]. split; [assumption|].
      split; [assumption|]. split; [exists []; now rewrite app_nil_r|].
      split; [intros ? ? [=]|]. split; assumption. }
  apply pop_Some in Ep. subst stack.
  assert (Hst : NoDup st /\ (forall x, x ∈ st -> x <> t /\ (x ∉ acc))
                /\ (t ∉ acc) /\ NoDup acc).
  { apply NoDup_app in Hnd as (H1 & H2 & H3).
    apply NoDup_app in H1 as (H4 & H5 & _).
    repeat split; try assumption.
    - intros ->. apply (H5 t H); now apply list_elem_of_singleton.
    - apply H2, elem_of_app. now left.
    - apply H2, elem_of_app. right. now apply list_elem_of_singleton. }
  destruct Hst as (Hnst & Hst & Htacc & Hnacc).
  rewrite bool_decide_eq_false_2 by assumption.
  destruct (has_local_branch_for_ticket_graph s t) as (s1 & Hrun & _ & Hg1).
  run Hrun.
  assert (Hg01 : same_graph s0 s1) by (eapply same_graph_trans; eassumption).
  assert (Hhas : has_branch s t = has_branch s0 t) by apply Hg.
  rewrite Hhas.
  assert (Htreach : rtc (depends_directly s0) t0 t).
  { apply Hreach. rewrite !elem_of_app, list_elem_of_singleton. tauto. }
  assert (Hlen' : (length U < fuel + length (acc ++ [t]))%nat).
  { rewrite length_app. simpl. lia. }
  assert (Hprefix : forall l,
            (exists k, l = (acc ++ [t]) ++ k) ->
            (exists k, l = acc ++ k)
            /\ (forall t' st', Some (t, st) = Some (t', st') ->
                  exists k, l = acc ++ t' :: k)).
  { intros l [k ->]. rewrite <- app_assoc. simpl. split; [eauto|].
    intros t' st' [= <- <-]. eauto. }
  destruct (has_branch s0 t) eqn:Ehas; cbn [negb].
  - (* the dependencies of [t] go on the stack *)
    unfold _dependencies_for_ticket, get. cbn [bind].
    change (default [] (ticket_dependencies (reg s1) !! t))
      with (dependencies_of s1 t).
    rewrite (same_graph_dependencies _ _ _ Hg01).
    destruct (push_new_spec (dependencies_of s0 t) st (acc ++ [t]))
      as (new & -> & Hnew & Hin).
    destruct (IH (st ++ new) (acc ++ [t]) s1) as (l & s' & Hw & R);
      try assumption.
    + rewrite <- app_assoc. apply NoDup_app. split; [assumption|]. split.
      * intros x Hx. rewrite !elem_of_app, list_elem_of_singleton.
        destruct (Hst x Hx) as [? ?]. rewrite Hin. tauto.
      * apply NoDup_app. split; [assumption|]. split.
        -- intros x Hx. apply Hin in Hx. tauto.
        -- apply NoDup_app. split; [assumption|]. split.
           ++ intros x Hx Hx'. apply list_elem_of_singleton in Hx'.
              now subst.
           ++ apply NoDup_singleton.
    + intros x. rewrite !elem_of_app, list_elem_of_singleton.
      intros [[Hx|Hx]|[Hx| ->]].
      * apply Hsub. rewrite !elem_of_app. tauto.
      * apply Hin in Hx as [Hx _]. eapply HU; eassumption.
      * apply Hsub. rewrite !elem_of_app. tauto.
      * apply Hsub. rewrite !elem_of_app, list_elem_of_singleton. tauto.
    + intros x. rewrite !elem_of_app, list_elem_of_singleton.
      intros [[Hx|Hx]|[Hx| ->]].
      * apply Hreach. rewrite !elem_of_app. tauto.
      * apply Hin in Hx as [Hx _]. eapply rtc_r; [exact Htreach|].
        split; assumption.
      * apply Hreach. rewrite !elem_of_app. tauto.
      * exact Htreach.
    + intros x. rewrite elem_of_app, list_elem_of_singleton.
      intros [Hx| ->] Hb d Hd.
      * specialize (Hclosed x Hx Hb d Hd).
        rewrite !elem_of_app, list_elem_of_singleton in *. tauto.
      * rewrite !elem_of_app, list_elem_of_singleton.
        destruct (decide (d ∈ st)); [tauto|].
        destruct (decide (d ∈ acc ++ [t])) as [Hd'|Hd'].
        -- rewrite elem_of_app, list_elem_of_singleton in Hd'. tauto.
        -- left. right. apply Hin. tauto.
    + destruct R as (Hg' & Hnd' & Hk & _ & Hr & Hc).
      destruct (Hprefix l Hk) as [P1 P2].
      exists l, s'. split; [exact Hw|]. split; [exact Hg'|].
      split; [exact Hnd'|]. split; [exact P1|]. split; [exact P2|].
      split; assumption.
  - (* no local branch for [t]: a warning *)
    unfold Ui.warning, Ui.show, set_UI. cbn [bind].
    match goal with
    | |- context [dependencies_walk fuel st (acc ++ [t]) ?s2] =>
        destruct (IH st (acc ++ [t]) s2) as (l & s' & Hw & R)
    end; try assumption.
    + apply NoDup_app. split; [assumption|]. split.
      * intros x Hx. rewrite elem_of_app, list_elem_of_singleton.
        destruct (Hst x Hx). tauto.
      * apply NoDup_app. split; [assumption|]. split.
        -- intros x Hx Hx'. apply list_elem_of_singleton in Hx'. now subst.
        -- apply NoDup_singleton.
    + intros x Hx. apply Hsub.
      rewrite !elem_of_app, list_elem_of_singleton in *. tauto.
    + intros x Hx. apply Hreach.
      rewrite !elem_of_app, list_elem_of_singleton in *. tauto.
    + intros x. rewrite elem_of_app, list_elem_of_singleton.
      intros [Hx| ->] Hb d Hd; [|congruence].
      specialize (Hclosed x Hx Hb d Hd).
      rewrite !elem_of_app, list_elem_of_singleton in *. tauto.
    + destruct R as (Hg' & Hnd' & Hk & _ & Hr & Hc).
      destruct (Hprefix l Hk) as [P1 P2].
      exists l, s'. split; [exact Hw|]. split; [exact Hg'|].
      split; [exact Hnd'|]. split; [exact P1|]. split; [exact P2|].
      split; assumption.
Qed.

End Walk.

Lemma has_branch_true s t :
  has_branch s t = true ->
  exists b, ticket_to_branch (reg s) !! t = Some b
            /\ is_local_branch_name (git s) b ExTrue = true.
Proof.
  unfold has_branch. destruct (ticket_to_branch (reg s) !! t) as [b|];
    [eauto|discriminate].
Qed.

(** [dependencies_walk] from the first turn on. *)
Lemma dependencies_walk_enough (s : state) (t : Z) :
  exists k s',
    dependencies_walk (walk_fuel (reg s) t) [t] [] s = (inr (t :: k), s')
    /\ NoDup k
    /\ forall d, d ∈ k <-> (d <> t /\ reaches s t d).
Proof.
  destruct (dependencies_walk_spec s t (walk_universe (reg s) t)
              (fun x d => walk_universe_elem s t x d)
              (walk_fuel (reg s) t) [t] [] s)
    as (l & s' & Hw & _ & Hnd & _ & Hk & Hsound & Hclosed).
  - apply same_graph_refl.
  - simpl. apply NoDup_singleton.
  - intros x Hx. simpl in Hx. apply list_elem_of_singleton in Hx. subst.
    apply elem_of_cons. now left.
  - unfold walk_fuel. simpl. lia.
  - intros x Hx. simpl in Hx. apply list_elem_of_singleton in Hx. subst.
    apply rtc_refl.
  - intros x Hx. now apply elem_of_nil in Hx.
  - destruct (Hk t [] eq_refl) as [k ->]. simpl in *.
    exists k, s'. split; [exact Hw|].
    apply NoDup_cons in Hnd as [Ht Hnd]. split; [exact Hnd|].
    intros d. split.
    + intros Hd. split; [intros ->; contradiction|].
      apply Hsound. apply elem_of_cons. now right.
    + intros [Hne Hr].
      assert (Hin : d ∈ t :: k).
      { clear Hne. unfold reaches in Hr. revert d Hr. apply rtc_ind_r.
        - apply elem_of_cons. now left.
        - intros x y _ [Hb Hdep] IH. eapply Hclosed; eauto. }
      apply elem_of_cons in Hin as [?|?]; [contradiction|assumption].
Qed.

(** X6: [show_dependencies] with [all=True], for a ticket that has a local
    branch: the loop comes to an end, and what is displayed is, once each,
    every other ticket that can be reached from the ticket along the
    recorded dependencies of tickets that have a local branch; the ticket
    itself is never listed, even when the dependencies are cyclic. *)
Theorem show_dependencies_lists_reachable_tickets
    (name : pyname) (t : Z) (s : state) :
  _ticket_from_ticket_name name = inr t ->
  has_branch s t = true ->
  exists l s',
    dependencies_listing name true s = (inr (t, l), s')
    /\ NoDup l
    /\ forall d, d ∈ l <-> (d <> t /\ reaches s t d).
Proof.
  intros Hname Hhas.
  destruct (has_branch_true _ _ Hhas) as (b & Hlink & Hb).
  destruct (dependencies_walk_enough s t) as (k & s' & Hw & Hnd & Hk).
  exists k, s'. split; [|split; assumption].
  unfold dependencies_listing.
  assert (Hticket : _is_ticket_name name = true).
  { unfold _is_ticket_name. rewrite Hname. destruct name; try reflexivity.
    discriminate Hname. }
  assert (Hc : _check_ticket_name name false s = (inr tt, s)).
  { unfold _check_ticket_name. now rewrite Hticket. }
  assert (Hl : lift (_ticket_from_ticket_name name) s = (inr t, s)).
  { unfold lift. now rewrite Hname. }
  destruct name as [|n|n]; [discriminate Hname| |].
  all: match goal with
       | |- bind (ret ?x) _ _ = _ =>
           run (eq_refl : ret x s = (inr x, s))
       end;
    run Hc; run Hl;
    run (has_local_branch_for_ticket_run _ _ _ Hlink Hb); cbn [negb];
    run (local_branch_for_ticket_run _ _ _ false Hlink Hb);
    unfold get at 1; cbn [bind];
    run Hw; reflexivity.
Qed.

Lemma show_dependencies_lists_reachable_tickets_witness :
  exists l s',
    dependencies_listing (PStr "#1") true Sample.on_ticket_1
    = (inr (1, l), s')
    /\ NoDup l.
Proof.
  destruct (show_dependencies_lists_reachable_tickets (PStr "#1") 1
              Sample.on_ticket_1 ltac:(reflexivity)
              ltac:(vm_compute; reflexivity))
    as (l & s' & H & Hnd & _).
  exists l, s'. split; assumption.
Defined.

(** X7: [show_dependencies] refuses a ticket that has no local branch, whether
    the dependencies are asked for recursively or not. *)
Theorem show_dependencies_needs_local_branch
    (name : pyname) (t : Z) (all : bool) (s : state) :
  _ticket_from_ticket_name name = inr t ->
  has_branch s t = false ->
  fst (show_dependencies name all s)
  = inl (SageDevValueError
      "ticket must be a ticket with a local branch. Use {0} to checkout the ticket first.").
Proof.
  intros Hname Hhas.
  assert (Hticket : _is_ticket_name name = true).
  { unfold _is_ticket_name. rewrite Hname. destruct name; try reflexivity.
    discriminate Hname. }
  assert (Hc : _check_ticket_name name false s = (inr tt, s)).
  { unfold _check_ticket_name. now rewrite Hticket. }
  assert (Hl : lift (_ticket_from_ticket_name name) s = (inr t, s)).
  { unfold lift. now rewrite Hname. }
  destruct (has_local_branch_for_ticket_graph s t) as (s1 & Hrun & _).
  rewrite Hhas in Hrun.
  unfold show_dependencies, dependencies_listing.
  destruct name as [|n|n]; [discriminate Hname| |].
  all: rewrite ?bind_assoc;
    match goal with
    | |- context [bind (ret ?x) _ _] =>
        run (eq_refl : ret x s = (inr x, s))
    end;
    run Hc; run Hl; run Hrun; reflexivity.
Qed.

Lemma show_dependencies_needs_local_branch_witness :
  fst (show_dependencies (PInt 3) true Sample.on_ticket_1)
  = inl (SageDevValueError
      "ticket must be a ticket with a local branch. Use {0} to checkout the ticket first.").
Proof.
  exact (show_dependencies_needs_local_branch (PInt 3) 3 true
           Sample.on_ticket_1 ltac:(reflexivity)
           ltac:(vm_compute; reflexivity)).
Defined.

(** ** Abandoning and pruning *)

Lemma renames_only_refl s : renames_only s s.
Proof. split; [|split]; reflexivity. Qed.

Lemma renames_only_trans s1 s2 s3 :
  renames_only s1 s2 -> renames_only s2 s3 -> renames_only s1 s3.
Proof.
  intros (H1 & H2 & H3) (H4 & H5 & H6). split; [congruence|].
  split; [|congruence]. etransitivity; eassumption.
Qed.

Lemma quiet_renames_only s s' : quiet s s' -> renames_only s s'.
Proof.
  intros (H1 & _ & _ & _ & H2). unfold renames_only. rewrite H1.
  split; [|split]; [reflexivity|reflexivity|exact H2].
Qed.

Lemma stable_quiet_renames_only {A} (m : M A) :
  stable quiet m -> stable renames_only m.
Proof. apply stable_weaken, quiet_renames_only. Qed.
#[export] Hint Resolve stable_quiet_renames_only : frames.

Lemma renames_only_set_reg f : stable renames_only (set_reg f).
Proof. intros s. split; [|split]; reflexivity. Qed.
#[export] Hint Resolve renames_only_set_reg : frames.

Lemma renames_only_has_local_branch_for_ticket t :
  stable renames_only (_has_local_branch_for_ticket t).
Proof.
  unfold _has_local_branch_for_ticket.
  frame renames_only_refl renames_only_trans.
Qed.
#[export] Hint Resolve renames_only_has_local_branch_for_ticket : frames.

Lemma renames_only_local_branch_for_ticket t :
  stable renames_only (_local_branch_for_ticket t false).
Proof.
  unfold _local_branch_for_ticket. cbn [negb].
  frame renames_only_refl renames_only_trans.
Qed.
#[export] Hint Resolve renames_only_local_branch_for_ticket : frames.

Lemma renames_only_set_local_branch_for_ticket t :
  stable renames_only (_set_local_branch_for_ticket t None).
Proof. unfold _set_local_branch_for_ticket. auto with frames. Qed.

Lemma renames_only_set_dependencies_for_ticket t d :
  stable renames_only (_set_dependencies_for_ticket t d).
Proof.
  unfold _set_dependencies_for_ticket. destruct d; auto with frames.
Qed.
#[export] Hint Resolve renames_only_set_local_branch_for_ticket
  renames_only_set_dependencies_for_ticket : frames.

Lemma new_local_branch_for_trash_name b s n s' :
  _new_local_branch_for_trash b s = (inr n, s') ->
  s' = s /\ starts_with (chars "trash/") (chars n) = true.
Proof.
  unfold _new_local_branch_for_trash.
  destruct (free_name _ _ _ _) as [n'|] eqn:E; [|discriminate].
  intros [= <- <-]. split; [reflexivity|].
  apply free_name_some in E as (k & _ & _ & Hv).
  unfold is_trash_name in Hv.
  destruct (starts_with (chars "trash/") (chars n')); [reflexivity|].
  discriminate Hv.
Qed.

(** The renaming of a branch that is not the master branch. *)
Lemma renames_only_branch_move b n :
  b <> MASTER_BRANCH -> n <> MASTER_BRANCH ->
  stable renames_only (Git.branch_move b n).
Proof.
  intros Hb Hn s. unfold Git.branch_move.
  destruct (local_branches (git s) !! b) as [c|] eqn:Eb;
    [|apply renames_only_refl].
  destruct (local_branches (git s) !! n) eqn:En; [apply renames_only_refl|].
  assert (R : forall g', local_branches g'
                         = <[n := c]> (delete b (local_branches (git s))) ->
                         renames_only s (State g' (trac s) (reg s) (UI s))).
  { intros g' Hg. unfold renames_only. cbn. rewrite Hg.
    split; [|split; [|reflexivity]].
    - rewrite lookup_insert_ne by congruence.
      now rewrite lookup_delete_ne by congruence.
    - rewrite map_to_list_insert
        by (rewrite lookup_delete_ne by congruence; exact En).
      rewrite <- (map_to_list_delete _ _ _ Eb). reflexivity. }
  destruct (bool_decide (HEAD (git s) = OnBranch b)); cbn; apply R;
    destruct (git s); reflexivity.
Qed.

Lemma renames_only_trash_move b :
  String.eqb b MASTER_BRANCH = false ->
  stable renames_only
    (new_branch <- _new_local_branch_for_trash b ;;
     Git.branch_move b new_branch ;;;
     Ui.show "Moved your branch {0} to {1}.").
Proof.
  intros Hb s. apply String.eqb_neq in Hb. unfold bind at 1.
  destruct (_new_local_branch_for_trash b s) as [[e|n] s1] eqn:E.
  - unfold _new_local_branch_for_trash in E.
    destruct (free_name _ _ _ _); inversion E; subst. apply renames_only_refl.
  - apply new_local_branch_for_trash_name in E as [-> Hn].
    assert (Hn' : n <> MASTER_BRANCH) by (intros ->; discriminate Hn).
    revert s. change (stable renames_only
      (Git.branch_move b n ;;; Ui.show "Moved your branch {0} to {1}.")).
    apply stable_bind; [exact renames_only_trans| |intros; auto with frames].
    now apply renames_only_branch_move.
Qed.
#[export] Hint Resolve renames_only_trash_move : frames.

(** [frame] with the tests remembered. *)
Ltac frame_eq refl trans :=
  repeat first
    [ solve [eauto 3 with frames]
    | apply stable_ret; exact refl
    | apply stable_raise; exact refl
    | apply stable_get; exact refl
    | apply stable_lift; exact refl
    | apply stable_when; [exact refl|]
    | apply stable_bind; [exact trans| |intros]
    | apply stable_try_except; [exact trans| |intros]
    | match goal with
      | |- stable _ (match ?x with _ => _ end) => destruct x eqn:?
      | |- stable _ (if ?b then _ else _) => destruct b eqn:?
      end ].

Lemma renames_only_abandon x h : stable renames_only (abandon x h).
Proof.
  unfold abandon. frame_eq renames_only_refl renames_only_trans.
Qed.

Lemma renames_only_prune_loop l : stable renames_only (prune_loop l).
Proof.
  induction l as [|b l IH]; simpl;
    frame_eq renames_only_refl renames_only_trans.
Qed.

(** X8: Whatever [abandon] is given and whatever comes of it, local branches
    are at most renamed: the master branch stays where it is, no commit of
    a local branch is lost, and the ticket server is not changed. *)
Theorem abandon_only_renames (x : pyname) (helpful : bool) (s : state) :
  renames_only s (snd (abandon x helpful s)).
Proof. apply renames_only_abandon. Qed.

(** X9: [prune_tickets], in whatever order the backend lists the branches
    and whether it ends normally or not, at most renames local branches:
    the master branch stays where it is, no commit of a local branch is
    lost, and the ticket server is not changed. *)
Theorem prune_tickets_only_renames (s : state) :
  renames_only s (snd (prune_tickets s)).
Proof.
  unfold prune_tickets, git_local_branches, bind, get.
  apply renames_only_prune_loop.
Qed.

Lemma prune_loop_nothing_merged l : forall s,
  (forall b, b ∈ l ->
     exists c,
       local_branches (git s) !! b = Some c
       /\ is_local_branch_name (git s) b ExAny = true
       /\ forall t, branch_to_ticket (reg s) !! b = Some t ->
            exists cm, local_branches (git s) !! MASTER_BRANCH = Some cm
                       /\ ancestry (git s) c cm = false) ->
  prune_loop l s = (inr tt, s).
Proof.
  induction l as [|b l IH]; intros s H; [reflexivity|]. cbn [prune_loop].
  destruct (H b) as (c & Hc & Hany & Hm); [apply elem_of_cons; now left|].
  assert (Hex : is_local_branch_name (git s) b ExTrue = true).
  { apply is_local_branch_name_true; [assumption|]. rewrite Hc. eauto. }
  run (has_ticket_for_local_branch_run _ _ Hex).
  destruct (branch_to_ticket (reg s) !! b) as [t|] eqn:Et.
  - rewrite bool_decide_eq_true_2 by eauto.
    run (ticket_for_local_branch_run _ _ _ Hex Et).
    destruct (Hm t eq_refl) as (cm & Hcm & Hanc).
    assert (Ha : Git.is_ancestor_of (Branch b) (Branch MASTER_BRANCH) s
                 = (inr false, s)).
    { unfold Git.is_ancestor_of, Git.commit_for_ref, Git.resolve.
      now rewrite Hc, Hcm, Hanc. }
    run Ha. apply IH. intros b' Hb'. apply H, elem_of_cons. now right.
  - rewrite bool_decide_eq_false_2 by (intros [? ?]; discriminate).
    cbn [bind ret]. apply IH. intros b' Hb'. apply H, elem_of_cons. now right.
Qed.

(** X10: When every local branch has a well-formed name and no branch bound to
    a ticket is merged into the master branch, [prune_tickets] returns and
    changes nothing at all. *)
Theorem prune_tickets_nothing_merged (s : state) :
  (forall b c, local_branches (git s) !! b = Some c ->
     is_local_branch_name (git s) b ExAny = true) ->
  (forall b c t,
     local_branches (git s) !! b = Some c ->
     branch_to_ticket (reg s) !! b = Some t ->
     exists cm, local_branches (git s) !! MASTER_BRANCH = Some cm
                /\ ancestry (git s) c cm = false) ->
  prune_tickets s = (inr tt, s).
Proof.
  intros Hnames Hmerged. unfold prune_tickets, git_local_branches.
  unfold bind at 1. unfold get. apply prune_loop_nothing_merged.
  intros b Hb. apply list_elem_of_fmap in Hb as ([b' c] & -> & Hb).
  apply elem_of_map_to_list in Hb. cbn. exists c.
  split; [assumption|]. split; [eapply Hnames; eassumption|].
  intros t Ht. eapply Hmerged; eassumption.
Qed.

Lemma prune_tickets_nothing_merged_witness :
  prune_tickets Sample.on_master = (inr tt, Sample.on_master).
Proof.
  assert (B : forall b c,
            local_branches (git Sample.on_master) !! b = Some c ->
            (b = "master" /\ c = 0%nat) \/ (b = "ticket/1" /\ c = 1%nat)).
  { intros b c H.
    change (local_branches (git Sample.on_master))
      with (<["master" := 0%nat]> ({["ticket/1" := 1%nat]} : gmap string commit))
      in H.
    apply lookup_insert_Some in H as [[<- <-]|[_ H]]; [now left|].
    apply lookup_singleton_Some in H as [<- <-]. now right. }
  apply prune_tickets_nothing_merged.
  - intros b c H. destruct (B b c H) as [[-> _]|[-> _]]; reflexivity.
  - intros b c t H Ht. exists 0%nat. split; [reflexivity|].
    destruct (B b c H) as [[-> ->]|[-> ->]]; [|reflexivity].
    vm_compute in Ht. discriminate Ht.
Defined.

(** ** More on [abandon] *)

(** X11: For a ticket and a branch that are bound to each other, abandoning the
    ticket is abandoning the branch: the two calls have the same outcome
    and leave the same state. *)
Theorem abandon_ticket_is_abandon_branch
    (name : pyname) (t : Z) (b : string) (helpful : bool) (s : state) :
  _ticket_from_ticket_name name = inr t ->
  ticket_to_branch (reg s) !! t = Some b ->
  branch_to_ticket (reg s) !! b = Some t ->
  is_local_branch_name (git s) b ExTrue = true ->
  abandon name helpful s = abandon (PStr b) helpful s.
Proof.
  intros Hname Htb Hbt Hex.
  assert (Hticket : _is_ticket_name name = true).
  { unfold _is_ticket_name. rewrite Hname. destruct name; try reflexivity.
    discriminate Hname. }
  assert (Hl : lift (_ticket_from_ticket_name name) s = (inr t, s)).
  { unfold lift. now rewrite Hname. }
  transitivity
    (bind (ret (Some t, PStr b)) (fun r =>
       let ticket := fst r in
       let ticket_or_branch := snd r in
       bind (ret ticket) (fun ticket =>
       bind
         (match ticket_or_branch with
          | PStr b =>
              ok <- _is_local_branch_name b ExAny ;;
              if ok then
                _check_local_branch_name (PStr b) ExTrue ;;;
                if String.eqb b MASTER_BRANCH then
                  Ui.error "Cannot delete the master branch." ;;;
                  raise (OperationCancelledError "protecting the user")
                else
                  try_except
                    (cur <- Git.current_branch ;;
                     if String.eqb cur b then
                       Ui.error "Cannot delete {0}: is the current branch." ;;;
                       Ui.info "(use {0} to switch to the master branch)" ;;;
                       raise (OperationCancelledError
                                "can not delete current branch")
                     else ret tt)
                    (fun e =>
                       match e with
                       | DetachedHeadError => ret tt
                       | _ => raise e
                       end) ;;;
                  new_branch <- _new_local_branch_for_trash b ;;
                  Git.branch_move b new_branch ;;;
                  Ui.show "Moved your branch {0} to {1}."
              else
                raise (SageDevValueError
                  "ticket_or_branch must be the name of a ticket or a local branch")
          | _ => raise (ValueError "name must be a string")
          end)
         (fun _ =>
            if truthy ticket then
              match ticket with
              | Some t =>
                  _set_local_branch_for_ticket t None ;;;
                  _set_dependencies_for_ticket t None ;;;
                  when helpful
                    (Ui.info "Use {0} to restart working on #{1} with a clean copy of the master branch.")
              | None => ret tt
              end
            else ret tt))) s).
  - unfold abandon. rewrite Hticket.
    run Hl. run (has_local_branch_for_ticket_run _ _ _ Htb Hex). cbn [negb].
    run (local_branch_for_ticket_run _ _ _ false Htb Hex).
    run (has_ticket_for_local_branch_run _ _ Hex).
    rewrite bool_decide_eq_true_2 by (rewrite Hbt; eauto).
    run (ticket_for_local_branch_run _ _ _ Hex Hbt).
    reflexivity.
  - unfold abandon.
    rewrite (is_local_branch_name_not_ticket _ _ _ Hex).
    cbn [bind ret fst snd].
    run (has_ticket_for_local_branch_run _ _ Hex).
    rewrite bool_decide_eq_true_2 by (rewrite Hbt; eauto).
    run (ticket_for_local_branch_run _ _ _ Hex Hbt).
    reflexivity.
Qed.

Lemma abandon_ticket_is_abandon_branch_witness :
  abandon (PStr "#1") true Sample.on_master
  = abandon (PStr "ticket/1") true Sample.on_master.
Proof.
  exact (abandon_ticket_is_abandon_branch (PStr "#1") 1 "ticket/1" true
           Sample.on_master ltac:(reflexivity)
           ltac:(vm_compute; reflexivity) ltac:(vm_compute; reflexivity)
           ltac:(vm_compute; reflexivity)).
Defined.

(** X12: A ticket that has no local branch cannot be abandoned: the call fails
    with [SageDevValueError] before the repository is touched. *)
Theorem abandon_ticket_without_branch
    (name : pyname) (t : Z) (helpful : bool) (s : state) :
  _ticket_from_ticket_name name = inr t ->
  has_branch s t = false ->
  let '(r, s') := abandon name helpful s in
  r = inl (SageDevValueError
             "Cannot abandon #{0}: no local branch for this ticket.")
  /\ git s' = git s
  /\ trac s' = trac s.
Proof.
  intros Hname Hhas.
  assert (Hticket : _is_ticket_name name = true).
  { unfold _is_ticket_name. rewrite Hname. destruct name; try reflexivity.
    discriminate Hname. }
  assert (Hl : lift (_ticket_from_ticket_name name) s = (inr t, s)).
  { unfold lift. now rewrite Hname. }
  destruct (has_local_branch_for_ticket_graph s t) as (s1 & Hrun & Hg & _).
  rewrite Hhas in Hrun.
  assert (Htrac : trac s1 = trac s).
  { pose proof (renames_only_has_local_branch_for_ticket t s) as R.
    rewrite Hrun in R. apply R. }
  unfold abandon. rewrite Hticket.
  run Hl. run Hrun. cbn. split; [reflexivity|]. split; assumption.
Qed.

Lemma abandon_ticket_without_branch_witness :
  fst (abandon (PInt 3) true Sample.on_master)
  = inl (SageDevValueError
           "Cannot abandon #{0}: no local branch for this ticket.").
Proof.
  pose proof (abandon_ticket_without_branch (PInt 3) 3 true Sample.on_master
                ltac:(reflexivity) ltac:(vm_compute; reflexivity)) as T.
  destruct (abandon (PInt 3) true Sample.on_master) as [r s'].
  exact (proj1 T).
Defined.



(** ** What [merge] leaves alone *)

Lemma keeps_others_refl b s : keeps_others b s s.
Proof. split; auto. Qed.

Lemma keeps_others_trans b s1 s2 s3 :
  keeps_others b s1 s2 -> keeps_others b s2 s3 -> keeps_others b s1 s3.
Proof.
  intros [H1 H2] [H3 H4]. split; [|congruence].
  intros b' Hb. now rewrite H3, H1.
Qed.

Lemma on_branch_only_refl b s : on_branch_only b s s.
Proof. intros H. split; [assumption|apply keeps_others_refl]. Qed.

Lemma on_branch_only_trans b s1 s2 s3 :
  on_branch_only b s1 s2 -> on_branch_only b s2 s3 -> on_branch_only b s1 s3.
Proof.
  intros H1 H2 H. destruct (H1 H) as [H' K]. destruct (H2 H') as [H'' K'].
  split; [assumption|]. eapply keeps_others_trans; eassumption.
Qed.

Lemma quiet_on_branch_only b s s' : quiet s s' -> on_branch_only b s s'.
Proof.
  intros (Hb & Hh & _ & _ & Ht) H. split; [congruence|].
  split; [|assumption]. intros b' _. now rewrite Hb.
Qed.

Lemma stable_quiet_on_branch_only b {A} (m : M A) :
  stable quiet m -> stable (on_branch_only b) m.
Proof. apply stable_weaken, quiet_on_branch_only. Qed.
#[export] Hint Resolve stable_quiet_on_branch_only : frames.

Ltac branch_framing b :=
  frame (on_branch_only_refl b) (on_branch_only_trans b).

Lemma on_branch_only_set_reg b f : stable (on_branch_only b) (set_reg f).
Proof. intros s H. split; [assumption|]. split; auto. Qed.
#[export] Hint Resolve on_branch_only_set_reg : frames.

Lemma on_branch_only_has_local_branch_for_ticket b t :
  stable (on_branch_only b) (_has_local_branch_for_ticket t).
Proof. unfold _has_local_branch_for_ticket. branch_framing b. Qed.
#[export] Hint Resolve on_branch_only_has_local_branch_for_ticket : frames.

Lemma on_branch_only_local_branch_for_ticket b t :
  stable (on_branch_only b) (_local_branch_for_ticket t false).
Proof. unfold _local_branch_for_ticket. cbn [negb]. branch_framing b. Qed.
#[export] Hint Resolve on_branch_only_local_branch_for_ticket : frames.

Lemma on_branch_only_set_dependencies_for_ticket b t d :
  stable (on_branch_only b) (_set_dependencies_for_ticket t d).
Proof.
  unfold _set_dependencies_for_ticket. destruct d; auto with frames.
Qed.
#[export] Hint Resolve on_branch_only_set_dependencies_for_ticket : frames.

(** A commit moves the current branch and no other. *)
Lemma on_branch_only_commit_all b : stable (on_branch_only b) Git.commit_all.
Proof.
  intros s H.
  destruct s as [[lb hd fh us mf uf ss mi rh anc bl cf bf off] tr rg ui].
  cbn in H. subst hd. unfold Git.commit_all, keeps_others. cbn.
  split; [reflexivity|]. split; [|reflexivity].
  intros b' Hb. now rewrite lookup_insert_ne by congruence.
Qed.
#[export] Hint Resolve on_branch_only_commit_all : frames.

Lemma on_branch_only_resolve_conflicts b :
  stable (on_branch_only b) resolve_conflicts.
Proof. unfold resolve_conflicts. branch_framing b. Qed.
#[export] Hint Resolve on_branch_only_resolve_conflicts : frames.

Lemma on_branch_only_merge_record_dependency b cd t ct :
  stable (on_branch_only b) (merge_record_dependency cd t ct).
Proof. unfold merge_record_dependency. branch_framing b. Qed.
#[export] Hint Resolve on_branch_only_merge_record_dependency : frames.

Section MergeFrame.

Context (b : string).
Context (self_merge : pyname -> option bool -> option bool -> M unit).
Context (Hself : forall x p c, stable (on_branch_only b) (self_merge x p c)).

Lemma on_branch_only_merge_dependencies deps :
  stable (on_branch_only b)
    (fold_right
       (fun dependency rest =>
          self_merge (PInt dependency) (Some true) None ;;; rest)
       (ret (@None (option Z * option Z * bool))) deps).
Proof using Hself.
  induction deps as [|d deps IH]; simpl; branch_framing b.
Qed.

Lemma on_branch_only_merge_changes x p c :
  stable (on_branch_only b) (merge_changes self_merge x p c).
Proof using Hself.
  pose proof on_branch_only_merge_dependencies as D.
  unfold merge_changes. branch_framing b.
Qed.

Lemma on_branch_only_merge_with x p c :
  stable (on_branch_only b) (merge_with self_merge x p c).
Proof using Hself.
  pose proof on_branch_only_merge_changes as D.
  unfold merge_with. branch_framing b.
Qed.

End MergeFrame.

Lemma on_branch_only_merge b x p c : stable (on_branch_only b) (merge x p c).
Proof.
  unfold merge. apply on_branch_only_merge_with.
  intros x' p' c'. apply on_branch_only_merge_with.
  intros x'' p'' c''. apply stable_raise. apply on_branch_only_refl.
Qed.

(** X14: Whatever is merged and whatever comes of it, [merge] leaves the
    current branch checked out, leaves every other local branch where it
    was, and does not change the ticket server. *)
Theorem merge_only_moves_current_branch
    (b : string) (x : pyname) (pull create_dependency : option bool)
    (s : state) :
  HEAD (git s) = OnBranch b ->
  let s' := snd (merge x pull create_dependency s) in
  HEAD (git s') = OnBranch b
  /\ (forall b', b' <> b ->
        local_branches (git s') !! b' = local_branches (git s) !! b')
  /\ trac s' = trac s.
Proof.
  intros H. destruct (on_branch_only_merge b x pull create_dependency s H)
    as [H1 [H2 H3]]. auto.
Qed.

Lemma merge_only_moves_current_branch_witness :
  local_branches
    (git (snd (merge (PInt 2) (Some false) None Sample.on_ticket_1)))
  !! "ticket/2" = Some 2%nat.
Proof.
  exact (proj1 (proj2 (merge_only_moves_current_branch "ticket/1" (PInt 2)
                         (Some false) None Sample.on_ticket_1 eq_refl))
           "ticket/2" ltac:(discriminate)).
Defined.

(** ** Merging a ticket into itself *)

(** On a clean working tree the guard asks nothing. *)
Lemma clean_tree_run s :
  unclean_states (git s) = [] ->
  modified_files (git s) = [] ->
  (reset_to_clean_state true true ;;; clean true) s = (inr tt, s).
Proof.
  intros H1 H2.
  destruct s as [[lb hd fh us mf uf ss mi rh anc bl cf bf off] tr rg ui].
  cbn in H1, H2. subst. reflexivity.
Qed.


(** X15: On the branch of a ticket, [merge] of that same ticket, given by
    number or by name, never succeeds and never changes a dependency list;
    on a clean working tree it fails at once with [SageDevValueError] and
    changes nothing. *)
Theorem merge_refuses_own_ticket
    (name : pyname) (t : Z) (b : string)
    (pull create_dependency : option bool) (s : state) :
  HEAD (git s) = OnBranch b ->
  is_local_branch_name (git s) b ExTrue = true ->
  branch_to_ticket (reg s) !! b = Some t ->
  _ticket_from_ticket_name name = inr t ->
  let '(r, s') := merge name pull create_dependency s in
  (exists e, r = inl e)
  /\ ticket_dependencies (reg s') = ticket_dependencies (reg s)
  /\ (unclean_states (git s) = [] -> modified_files (git s) = [] ->
      r = inl (SageDevValueError "cannot merge a ticket into itself")
      /\ s' = s).
Proof.
  intros Hh Hb Ht Hname.
  assert (Hticket : _is_ticket_name name = true).
  { unfold _is_ticket_name. rewrite Hname. destruct name; try reflexivity.
    discriminate Hname. }
  pose proof (dependencies_is_no_ticket_name _ Hticket) as Hnd.
  unfold merge. unfold merge_with at 1.
  match goal with
  | |- context [merge_changes ?self _ _ _] => set (inner := self)
  end.
  pose proof (merge_frame_merge_changes b inner name pull create_dependency
                Hnd s) as F.
  assert (Hclean : unclean_states (git s) = [] -> modified_files (git s) = [] ->
            merge_changes inner name pull create_dependency s
            = (inl (SageDevValueError "cannot merge a ticket into itself"), s)).
  { intros H1 H2. unfold merge_changes.
    unfold bind at 1. rewrite (try_except_ok _ _ _ _ _ (clean_tree_run s H1 H2)).
    unfold bind at 1. unfold try_except, Git.current_branch. rewrite Hh.
    run (current_ticket_run _ _ _ Hh Hb Ht).
    rewrite (bool_decide_eq_false_2 _ Hnd), Hticket.
    unfold bind at 1. unfold bind at 1. unfold lift. rewrite Hname.
    rewrite bool_decide_eq_true_2 by reflexivity. reflexivity. }
  unfold bind.
  destruct (merge_changes inner name pull create_dependency s)
    as [[e|r] s1] eqn:E.
  - cbn [snd] in F. destruct F as (_ & _ & F).
    split; [eauto|]. split; [exact F|].
    intros H1 H2. specialize (Hclean H1 H2). inversion Hclean; subst. auto.
  - exfalso.
    destruct (merge_changes_ticket b t t name Hticket Hname _ _ _ _ _ _
                Hh Hb Ht E) as [_ Hne].
    now apply Hne.
Qed.

Lemma merge_refuses_own_ticket_witness :
  merge (PStr "#1") None None Sample.on_ticket_1
  = (inl (SageDevValueError "cannot merge a ticket into itself"),
     Sample.on_ticket_1).
Proof.
  pose proof (merge_refuses_own_ticket (PStr "#1") 1 "ticket/1" None None
                Sample.on_ticket_1 eq_refl ltac:(vm_compute; reflexivity)
                ltac:(vm_compute; reflexivity) ltac:(reflexivity)) as T.
  destruct (merge (PStr "#1") None None Sample.on_ticket_1) as [r s'].
  destruct T as (_ & _ & T). destruct (T eq_refl eq_refl) as [-> ->].
  reflexivity.
Defined.

(** ** Gathering branches *)

Lemma quiet_keeps_others b s s' : quiet s s' -> keeps_others b s s'.
Proof.
  intros (Hb & _ & _ & _ & Ht). split; [|assumption].
  intros b' _. now rewrite Hb.
Qed.

Lemma stable_quiet_keeps_others b {A} (m : M A) :
  stable quiet m -> stable (keeps_others b) m.
Proof. apply stable_weaken, quiet_keeps_others. Qed.
#[export] Hint Resolve stable_quiet_keeps_others : frames.

Ltac others_framing b :=
  frame (keeps_others_refl b) (keeps_others_trans b).

Lemma keeps_others_git_branch b r : stable (keeps_others b) (Git.branch b r).
Proof.
  intros s. unfold Git.branch, keeps_others.
  destruct (branch_fault (git s)) as [[]|];
    destruct (Git.commit_for_ref (git s) r);
    destruct (local_branches (git s) !! b); cbn; split; try reflexivity.
  all: intros b' Hb; now rewrite lookup_insert_ne by congruence.
Qed.
#[export] Hint Resolve keeps_others_git_branch : frames.

Lemma keeps_others_branch_delete b : stable (keeps_others b) (Git.branch_delete b).
Proof.
  intros s. unfold Git.branch_delete, keeps_others.
  destruct (local_branches (git s) !! b); [|split; reflexivity].
  destruct (bool_decide _); cbn; split; try reflexivity.
  intros b' Hb; now rewrite lookup_delete_ne by congruence.
Qed.
#[export] Hint Resolve keeps_others_branch_delete : frames.

Lemma same_refs_checkout_detach r : stable same_refs (checkout_detach r).
Proof.
  intros s. unfold checkout_detach.
  destruct (Git.commit_for_ref (git s) r); [|apply same_refs_refl].
  destruct (match r with Branch _ => _ | _ => _ end);
    [apply same_refs_refl|]. repeat split.
Qed.
#[export] Hint Resolve same_refs_checkout_detach : frames.

Lemma same_refs_vanilla release : stable same_refs (vanilla release).
Proof. unfold vanilla. frame same_refs_refl same_refs_trans. Qed.

Lemma keeps_others_vanilla b release :
  stable (keeps_others b) (vanilla release).
Proof.
  apply (stable_weaken same_refs); [|apply same_refs_vanilla].
  intros s s' (H1 & _ & H2). split; [|assumption].
  intros b' _. now rewrite H1.
Qed.
#[export] Hint Resolve keeps_others_vanilla : frames.

Lemma quiet_gather_resolve x : stable quiet (gather_resolve x).
Proof. unfold gather_resolve. quiet_frame. Qed.
#[export] Hint Resolve quiet_gather_resolve : frames.

Lemma quiet_gather_resolve_all l : stable quiet (gather_resolve_all l).
Proof. induction l as [|x l IH]; simpl; quiet_frame. Qed.
#[export] Hint Resolve quiet_gather_resolve_all : frames.

Lemma on_branch_only_gather_merge_all b l :
  stable (on_branch_only b) (gather_merge_all b l).
Proof.
  induction l as [|x l IH]; simpl; [apply stable_ret, on_branch_only_refl|].
  apply stable_bind; [apply on_branch_only_trans|auto with frames|intros _].
  apply stable_bind; [apply on_branch_only_trans| |intros _; exact IH].
  apply on_branch_only_merge.
Qed.

(** The branch is checked out, the merges run on it, and a failure is
    undone. *)
Lemma keeps_others_gather_merges b l :
  stable (keeps_others b)
    (Git.checkout b ;;;
     try_except (gather_merge_all b l)
       (fun _ =>
          Git.reset_to_clean_state ;;;
          Git.clean_wrapper ;;;
          vanilla MASTER_BRANCH ;;;
          Git.branch_delete b ;;;
          Ui.debug "Deleted branch {0}.")).
Proof.
  intros s. unfold bind at 1.
  destruct (Git.checkout b s) as [[e|[]] s1] eqn:E.
  - unfold Git.checkout in E.
    destruct (local_branches (git s) !! b);
      [|inversion E; subst; apply keeps_others_refl].
    destruct (_ || _); inversion E; subst; apply keeps_others_refl.
  - assert (H1 : HEAD (git s1) = OnBranch b /\ keeps_others b s s1).
    { unfold Git.checkout in E.
      destruct (local_branches (git s) !! b); [|discriminate].
      destruct (_ || _); inversion E; subst. cbn.
      split; [reflexivity|]. split; reflexivity. }
    destruct H1 as [Hh K]. eapply keeps_others_trans; [exact K|].
    clear E K. unfold try_except.
    pose proof (on_branch_only_gather_merge_all b l s1 Hh) as [_ K].
    destruct (gather_merge_all b l s1) as [[e|[]] s2]; [|exact K].
    eapply keeps_others_trans; [exact K|].
    cbn [snd]. clear. revert s2.
    change (stable (keeps_others b)
      (Git.reset_to_clean_state ;;; Git.clean_wrapper ;;;
       vanilla MASTER_BRANCH ;;; Git.branch_delete b ;;;
       Ui.debug "Deleted branch {0}.")).
    others_framing b.
Qed.
#[export] Hint Resolve keeps_others_gather_merges : frames.

(** X16: Whatever it is given and whatever comes of it, [gather] changes no
    local branch but the one it creates, and does not change the ticket
    server. *)
Theorem gather_keeps_other_branches
    (b : string) (tickets_or_branches : list pyname) (s : state) :
  keeps_others b s (snd (gather b tickets_or_branches s)).
Proof.
  revert s. change (stable (keeps_others b) (gather b tickets_or_branches)).
  unfold gather. others_framing b.
Qed.

Lemma is_local_branch_name_false_true g b :
  is_local_branch_name g b ExTrue = true ->
  is_local_branch_name g b ExFalse = false.
Proof.
  unfold is_local_branch_name.
  destruct (negb (GIT_BRANCH_REGEX b)); [reflexivity|].
  destruct (_is_ticket_name (PStr b)); [reflexivity|].
  destruct (bool_decide (b ∈ _)); [reflexivity|].
  intros ->. reflexivity.
Qed.

(** X17: On a clean working tree, [gather] refuses the name of an existing
    branch before it does anything: the state is not changed. *)
Theorem gather_refuses_existing_branch
    (b : string) (tickets_or_branches : list pyname) (s : state) :
  unclean_states (git s) = [] ->
  modified_files (git s) = [] ->
  is_local_branch_name (git s) b ExTrue = true ->
  gather b tickets_or_branches s
  = (inl (SageDevValueError
            "Branch {0} already exists, use a different name."), s).
Proof.
  intros H1 H2 Hb. unfold gather.
  assert (Hc : forall h, try_except
                 (reset_to_clean_state true true ;;; clean true) h s
               = (inr tt, s)).
  { intros h. apply try_except_ok. now apply clean_tree_run. }
  unfold bind at 1. rewrite Hc. clear Hc.
  assert (Hn : _check_local_branch_name (PStr b) ExFalse s
               = (inl (SageDevValueError
                   "Branch {0} already exists, use a different name."), s)).
  { unfold _check_local_branch_name, _is_local_branch_name, bind, get.
    rewrite (is_local_branch_name_any _ _ _ Hb). cbn.
    now rewrite (is_local_branch_name_false_true _ _ Hb). }
  run Hn. reflexivity.
Qed.

Lemma gather_refuses_existing_branch_witness :
  gather "ticket/1" [PInt 2] Sample.on_master
  = (inl (SageDevValueError
            "Branch {0} already exists, use a different name."),
     Sample.on_master).
Proof.
  exact (gather_refuses_existing_branch "ticket/1" [PInt 2] Sample.on_master
           ltac:(reflexivity) ltac:(reflexivity)
           ltac:(vm_compute; reflexivity)).
Defined.



(** ** The working-tree guard *)

(** X19: Every path of [clean]: the branches, [HEAD], the registry and the
    ticket server are not changed.  When [clean] returns and was asked to
    insist on a clean tree, the repository is in no merge state and no
    tracked file is modified; the stash stack is as it was, or the tracked
    changes have been put on top of it.  When the tree was clean already,
    [clean] returns and changes nothing. *)
Theorem clean_leaves_a_clean_tree (error_unless_clean : bool) (s : state) :
  let '(r, s') := clean error_unless_clean s in
  quiet s s'
  /\ (r = inr tt -> error_unless_clean = true ->
      unclean_states (git s') = [] /\ modified_files (git s') = [])
  /\ (r = inr tt ->
      stash_stack (git s') = stash_stack (git s)
      \/ stash_stack (git s')
         = modified_files (git s) :: stash_stack (git s))
  /\ (unclean_states (git s) = [] -> modified_files (git s) = [] ->
      r = inr tt /\ s' = s).
Proof.
  destruct s as [[lb hd fh us mf uf ss mi rh anc bl cf bf off] tr rg
                 [ans disp]].
  unfold quiet. all_paths.
  all: repeat match goal with
              | |- _ /\ _ => split
              | |- _ -> _ => intro
              end; subst; try discriminate; try reflexivity; auto.
Qed.

(** X20: Every path of [reset_to_clean_state]: when it returns and was asked to
    insist, the repository is in no merge state; when it raises, the
    repository is exactly as it was; and in a repository that is in no
    merge state it returns without asking and changes nothing. *)
Theorem reset_to_clean_state_guard
    (error_unless_clean helpful : bool) (s : state) :
  let '(r, s') := reset_to_clean_state error_unless_clean helpful s in
  (r = inr tt -> error_unless_clean = true -> unclean_states (git s') = [])
  /\ ((exists e, r = inl e) -> git s' = git s)
  /\ (unclean_states (git s) = [] -> r = inr tt /\ s' = s).
Proof.
  destruct s as [[lb hd fh us mf uf ss mi rh anc bl cf bf off] tr rg
                 [ans disp]].
  all_paths.
  all: repeat match goal with
              | |- _ /\ _ => split
              | |- _ -> _ => intro
              | H : exists _, _ |- _ => destruct H
              end; subst; try discriminate; try reflexivity; auto.
Qed.

(** ** What [push] leaves alone, and what it achieves *)

Lemma same_heads_refl s : same_heads s s.
Proof. repeat split. Qed.

Lemma same_heads_trans s1 s2 s3 :
  same_heads s1 s2 -> same_heads s2 s3 -> same_heads s1 s3.
Proof. intros (?&?&?) (?&?&?). repeat split; congruence. Qed.

Lemma same_locals_refl s : same_locals s s.
Proof. repeat split. Qed.

Lemma same_locals_trans s1 s2 s3 :
  same_locals s1 s2 -> same_locals s2 s3 -> same_locals s1 s3.
Proof. intros (?&?) (?&?). repeat split; congruence. Qed.

Lemma same_heads_locals s s' : same_heads s s' -> same_locals s s'.
Proof. intros (?&?&?). split; assumption. Qed.

Lemma stable_same_heads_locals {A} (m : M A) :
  stable same_heads m -> stable same_locals m.
Proof. apply stable_weaken, same_heads_locals. Qed.
#[export] Hint Resolve stable_same_heads_locals : frames.

(** A helper that only reads the repository, or only writes the registry,
    the ticket server or the user interface. *)
Ltac heads_call :=
  intros s;
  destruct s as [[lb hd fh us mf uf ss mi rh anc bl cf bf off] tr rg ui];
  cbv beta zeta iota delta
    [Ui.show Ui.error Ui.info Ui.warning Ui.debug Ui.select Ui.confirm
     Git.current_branch Git.fetch Git.ls_remote Git.is_ancestor_of
     Git.is_child_of Git.commit_for_ref Git.resolve Git.commit_for_branch
     Git.with_FETCH_HEAD
     Trac._branch_for_ticket Trac.dependencies Trac.exists_ticket
     Trac.set_branch Trac.set_dependencies
     _is_local_branch_name _check_local_branch_name
     _is_remote_branch_name _check_remote_branch_name
     _is_ticket_name_exists _check_ticket_name
     _has_ticket_for_local_branch _ticket_for_local_branch _current_ticket
     _has_local_branch_for_ticket _dependencies_for_ticket
     _set_dependencies_for_ticket _remote_branch_for_branch
     _upload_ssh_key
     set_UI set_git set_reg set_trac get ret raise bind try_except lift when
     negb andb orb fst snd git trac reg UI
     local_branches HEAD FETCH_HEAD remote_heads offline];
  repeat match goal with
         | |- context [match ?x with _ => _ end] =>
             lazymatch x with
             | context [match _ with _ => _ end] => fail
             | _ => destruct x
             end
         end;
  repeat split.

Lemma same_heads_show msg : stable same_heads (Ui.show msg).
Proof. heads_call. Qed.
Lemma same_heads_error msg : stable same_heads (Ui.error msg).
Proof. heads_call. Qed.
Lemma same_heads_info msg : stable same_heads (Ui.info msg).
Proof. heads_call. Qed.
Lemma same_heads_warning msg : stable same_heads (Ui.warning msg).
Proof. heads_call. Qed.
Lemma same_heads_debug msg : stable same_heads (Ui.debug msg).
Proof. heads_call. Qed.
Lemma same_heads_select p o d : stable same_heads (Ui.select p o d).
Proof. heads_call. Qed.
Lemma same_heads_confirm p d : stable same_heads (Ui.confirm p d).
Proof. heads_call. Qed.
Lemma same_heads_current_branch : stable same_heads Git.current_branch.
Proof. heads_call. Qed.
Lemma same_heads_fetch r : stable same_heads (Git.fetch r).
Proof. heads_call. Qed.
Lemma same_heads_is_ancestor_of a b : stable same_heads (Git.is_ancestor_of a b).
Proof. heads_call. Qed.
Lemma same_heads_is_child_of a b : stable same_heads (Git.is_child_of a b).
Proof. heads_call. Qed.
Lemma same_heads_branch_for_ticket t :
  stable same_heads (Trac._branch_for_ticket t).
Proof. heads_call. Qed.
Lemma same_heads_trac_dependencies t : stable same_heads (Trac.dependencies t).
Proof. heads_call. Qed.
Lemma same_heads_set_branch t r : stable same_heads (Trac.set_branch t r).
Proof. heads_call. Qed.
Lemma same_heads_set_trac_dependencies t d :
  stable same_heads (Trac.set_dependencies t d).
Proof. heads_call. Qed.
Lemma same_heads_is_local_branch_name b e :
  stable same_heads (_is_local_branch_name b e).
Proof. heads_call. Qed.
Lemma same_heads_check_local_branch_name n e :
  stable same_heads (_check_local_branch_name n e).
Proof. heads_call. Qed.
Lemma same_heads_is_remote_branch_name n e :
  stable same_heads (_is_remote_branch_name n e).
Proof. heads_call. Qed.
Lemma same_heads_check_remote_branch_name n e :
  stable same_heads (_check_remote_branch_name n e).
Proof. heads_call. Qed.
Lemma same_heads_check_ticket_name n e :
  stable same_heads (_check_ticket_name n e).
Proof. heads_call. Qed.
Lemma same_heads_has_ticket_for_local_branch n :
  stable same_heads (_has_ticket_for_local_branch n).
Proof. heads_call. Qed.
Lemma same_heads_ticket_for_local_branch n :
  stable same_heads (_ticket_for_local_branch n).
Proof. heads_call. Qed.
Lemma same_heads_current_ticket : stable same_heads _current_ticket.
Proof. heads_call. Qed.
Lemma same_heads_has_local_branch_for_ticket t :
  stable same_heads (_has_local_branch_for_ticket t).
Proof. heads_call. Qed.
Lemma same_heads_dependencies_for_ticket t :
  stable same_heads (_dependencies_for_ticket t).
Proof. heads_call. Qed.
Lemma same_heads_set_dependencies_for_ticket t d :
  stable same_heads (_set_dependencies_for_ticket t d).
Proof. heads_call. Qed.
Lemma same_heads_remote_branch_for_branch b :
  stable same_heads (_remote_branch_for_branch b).
Proof. heads_call. Qed.
Lemma same_heads_upload_ssh_key : stable same_heads _upload_ssh_key.
Proof. heads_call. Qed.

#[export] Hint Resolve same_heads_show same_heads_error same_heads_info
  same_heads_warning same_heads_debug same_heads_select same_heads_confirm
  same_heads_current_branch same_heads_fetch same_heads_is_ancestor_of
  same_heads_is_child_of same_heads_branch_for_ticket
  same_heads_trac_dependencies same_heads_set_branch
  same_heads_set_trac_dependencies same_heads_is_local_branch_name
  same_heads_check_local_branch_name same_heads_is_remote_branch_name
  same_heads_check_remote_branch_name same_heads_check_ticket_name
  same_heads_has_ticket_for_local_branch same_heads_ticket_for_local_branch
  same_heads_current_ticket same_heads_has_local_branch_for_ticket
  same_heads_dependencies_for_ticket same_heads_set_dependencies_for_ticket
  same_heads_remote_branch_for_branch same_heads_upload_ssh_key : frames.

Ltac heads_framing := frame same_heads_refl same_heads_trans.
Ltac locals_framing := frame same_locals_refl same_locals_trans.

Lemma same_heads_local_branch_for_ticket t :
  stable same_heads (_local_branch_for_ticket t false).
Proof. unfold _local_branch_for_ticket. cbn [negb]. heads_framing. Qed.
#[export] Hint Resolve same_heads_local_branch_for_ticket : frames.

Lemma same_heads_remote_branch_for_ticket t :
  stable same_heads (_remote_branch_for_ticket t).
Proof. unfold _remote_branch_for_ticket. heads_framing. Qed.
#[export] Hint Resolve same_heads_remote_branch_for_ticket : frames.

Lemma same_heads_push_resolve t r : stable same_heads (push_resolve t r).
Proof. unfold push_resolve. heads_framing. Qed.

Lemma same_heads_push_branch_field t b r f :
  stable same_heads (push_branch_field t b r f).
Proof. unfold push_branch_field. heads_framing. Qed.

Lemma same_heads_push_dependencies t b :
  stable same_heads (push_dependencies t b).
Proof. unfold push_dependencies. heads_framing. Qed.
#[export] Hint Resolve same_heads_push_resolve same_heads_push_branch_field
  same_heads_push_dependencies : frames.

Lemma same_locals_git_push b r f : stable same_locals (Git.push b r f).
Proof.
  intros s. unfold Git.push. destruct (offline (git s)); [repeat split|].
  destruct (local_branches (git s) !! b); [|repeat split].
  destruct (_ || _); repeat split.
Qed.
#[export] Hint Resolve same_locals_git_push : frames.

Lemma same_locals_push_upload b r f : stable same_locals (push_upload b r f).
Proof. unfold push_upload. locals_framing. Qed.
#[export] Hint Resolve same_locals_push_upload : frames.

Lemma same_locals_push t r f : stable same_locals (push t r f).
Proof. unfold push. locals_framing. Qed.

(** When the upload phase returns, the remote branch is at the commit of
    the local branch, whether something was pushed or not. *)
Lemma push_upload_post b rb f s :
  match push_upload b rb f s with
  | (inr _, s') =>
      exists c, remote_heads (git s') !! rb = Some c
                /\ local_branches (git s') !! b = Some c
  | (inl _, _) => True
  end.
Proof.
  destruct s as [[lb hd fh us mf uf ss mi rh anc bl cf bf off] tr rg
                 [ans disp]].
  unfold push_upload. paths.
  all: try exact I.
  all: close_path.
  all: eexists; split; [apply lookup_insert_eq|assumption].
Qed.

(** X21: [push] never moves a local branch and never changes [HEAD], whatever
    it is given and whatever comes of it. *)
Theorem push_keeps_local_branches
    (ticket : pyname) (remote : option string) (force : bool) (s : state) :
  let s' := snd (push ticket remote force s) in
  local_branches (git s') = local_branches (git s)
  /\ HEAD (git s') = HEAD (git s).
Proof. exact (same_locals_push ticket remote force s). Qed.

(** X22: When [push] returns, the remote branch that it has resolved is at the
    commit of the local branch that it has resolved, whether it had
    something to push or not. *)
Theorem push_brings_remote_branch_up_to_date
    (ticket : pyname) (remote : option string) (force : bool)
    (s s0 s' : state) (t : option Z) (b rb : string) (uc : bool) :
  push_resolve ticket remote s = (inr (t, b, rb, uc), s0) ->
  push ticket remote force s = (inr tt, s') ->
  exists c,
    remote_heads (git s') !! rb = Some c
    /\ local_branches (git s') !! b = Some c
    /\ local_branches (git s) !! b = Some c.
Proof.
  intros Hres H.
  pose proof (same_locals_push ticket remote force s) as [L _].
  rewrite H in L. cbn [snd] in L.
  unfold push in H. rewrite (bind_ok _ _ _ _ _ Hres) in H.
  cbn beta iota in H.
  pose proof (push_upload_post b rb force s0) as U.
  inv_bind H. rewrite H0 in U. destruct U as (c & U1 & U2).
  assert (R : same_heads s1 s').
  { destruct a; cbn [negb] in H.
    - assert (F : stable same_heads
                (match t with
                 | Some t0 => push_branch_field t0 b rb force
                 | None => ret tt
                 end ;;; push_dependencies t b)) by heads_framing.
      specialize (F s1). rewrite H in F. exact F.
    - inversion H; subst. apply same_heads_refl. }
  destruct R as (R1 & _ & R2).
  exists c. rewrite R2, R1. split; [assumption|]. split; [assumption|].
  rewrite <- L, R1. assumption.
Qed.

Lemma push_brings_remote_branch_up_to_date_witness :
  exists c,
    remote_heads
      (git (snd (push PNone None true Sample.field_moved_on)))
    !! "u/bob/ticket/1" = Some c
    /\ local_branches (git Sample.field_moved_on) !! "ticket/1" = Some c.
Proof.
  destruct (push_brings_remote_branch_up_to_date PNone None true
              Sample.field_moved_on
              (snd (push_resolve PNone None Sample.field_moved_on))
              (snd (push PNone None true Sample.field_moved_on))
              (Some 1) "ticket/1" "u/bob/ticket/1" false
              ltac:(vm_compute; reflexivity) ltac:(vm_compute; reflexivity))
    as (c & H1 & _ & H2).
  exists c. split; assumption.
Defined.

(** ** Ticket numbers and their names *)

Lemma digit_pretty_N_char (d : N) :
  (d < 10)%N -> PyInt.digit (pretty_N_char d) = Some (Z.of_N d).
Proof.
  intros H.
  assert (d = 0 \/ d = 1 \/ d = 2 \/ d = 3 \/ d = 4 \/ d = 5 \/ d = 6
          \/ d = 7 \/ d = 8 \/ d = 9)%N as C by lia.
  repeat (destruct C as [->|C]; [reflexivity|]). subst. reflexivity.
Qed.

Lemma is_space_pretty_N_char (d : N) :
  PyInt.is_space (pretty_N_char d) = false.
Proof. unfold pretty_N_char. repeat case_match; reflexivity. Qed.

(** The decimal digits of [x], followed by [s], are read back as [x]. *)
Lemma digits_pretty_N_go (x : N) :
  exists k : Z, 0 <= k /\ forall s acc,
    PyInt.digits acc (chars (pretty_N_go x s))
    = PyInt.digits (acc * 10 ^ k + Z.of_N x) (chars s).
Proof.
  induction (N.lt_wf_0 x) as [x _ IH].
  destruct (decide (x = 0)%N) as [->|Hx].
  - exists 0. split; [lia|]. intros s acc. rewrite pretty_N_go_0.
    f_equal. cbn. lia.
  - assert (Hpos : (0 < x)%N) by lia.
    destruct (IH (x `div` 10)%N) as (k & Hk & IHk).
    { apply N.div_lt; lia. }
    exists (k + 1). split; [lia|]. intros s acc.
    rewrite pretty_N_go_step by assumption. rewrite IHk.
    unfold chars. cbn [list_ascii_of_string PyInt.digits].
    rewrite digit_pretty_N_char by (apply N.mod_lt; lia).
    f_equal. rewrite Z.pow_add_r by lia.
    assert (E : x = (10 * (x `div` 10) + x `mod` 10)%N)
      by (apply N.div_mod; lia).
    rewrite Z.pow_1_r. rewrite E at 3.
    rewrite N2Z.inj_add, N2Z.inj_mul. change (Z.of_N 10) with 10. ring.
Qed.

(** The first and the last character of the digits are no whitespace. *)
Lemma pretty_N_go_shape (x : N) :
  (0 < x)%N ->
  forall s, exists d t,
    chars (pretty_N_go x s) = pretty_N_char d :: t ++ chars s.
Proof.
  induction (N.lt_wf_0 x) as [x _ IH]. intros Hx s.
  rewrite pretty_N_go_step by assumption.
  destruct (decide (x `div` 10 = 0)%N) as [E|E].
  - rewrite E, pretty_N_go_0. exists (x `mod` 10)%N, []. reflexivity.
  - assert (H1 : (x `div` 10 < x)%N) by (apply N.div_lt; lia).
    assert (H2 : (0 < x `div` 10)%N) by (now apply N.neq_0_lt_0).
    destruct (IH _ H1 H2 (String (pretty_N_char (x `mod` 10)) s))
      as (d & t & ->).
    exists d, (t ++ [pretty_N_char (x `mod` 10)]).
    rewrite <- app_assoc. reflexivity.
Qed.

Lemma pretty_N_go_no_space (x : N) : forall s,
  forallb (fun c => negb (PyInt.is_space c)) (chars s) = true ->
  forallb (fun c => negb (PyInt.is_space c)) (chars (pretty_N_go x s)) = true.
Proof.
  induction (N.lt_wf_0 x) as [x _ IH]. intros s Hs.
  destruct (decide (x = 0)%N) as [->|Hx]; [now rewrite pretty_N_go_0|].
  assert (Hpos : (0 < x)%N) by (now apply N.neq_0_lt_0).
  rewrite pretty_N_go_step by assumption. apply IH.
  - apply N.div_lt; [assumption|reflexivity].
  - unfold chars. cbn [list_ascii_of_string forallb].
    rewrite is_space_pretty_N_char. exact Hs.
Qed.

Lemma lstrip_no_space l :
  forallb (fun c => negb (PyInt.is_space c)) l = true -> PyInt.lstrip l = l.
Proof.
  destruct l as [|c l]; [reflexivity|]. cbn.
  destruct (PyInt.is_space c); [discriminate|reflexivity].
Qed.

Lemma strip_no_space l :
  forallb (fun c => negb (PyInt.is_space c)) l = true -> PyInt.strip l = l.
Proof.
  intros H. unfold PyInt.strip. rewrite (lstrip_no_space l H).
  rewrite lstrip_no_space; [apply rev_involutive|].
  rewrite forallb_forall in *. intros c Hc. apply H. now apply in_rev.
Qed.

(** [int] reads the decimal notation of a positive number back. *)
Lemma int_pretty_positive (p : positive) :
  PyInt.int (pretty (Z.pos p)) = Some (Z.pos p)
  /\ exists d t, pretty (Z.pos p) = String (pretty_N_char d) t.
Proof.
  change (pretty (Z.pos p)) with (pretty_N_go (N.pos p) "").
  destruct (pretty_N_go_shape (N.pos p) ltac:(reflexivity) "") as (d & t & E).
  destruct (digits_pretty_N_go (N.pos p)) as (k & _ & Hd).
  split.
  - unfold PyInt.int.
    rewrite strip_no_space by (now apply pretty_N_go_no_space).
    rewrite E.
    assert (Hc : Ascii.eqb (pretty_N_char d) "-" = false
                 /\ Ascii.eqb (pretty_N_char d) "+" = false).
    { unfold pretty_N_char. repeat case_match; split; reflexivity. }
    destruct Hc as [-> ->]. unfold PyInt.unsigned. rewrite <- E, Hd.
    reflexivity.
  - exists d, (string_of_list_ascii (t ++ chars "")).
    rewrite <- (string_of_list_ascii_of_string (pretty_N_go (N.pos p) "")).
    unfold chars in E. rewrite E. reflexivity.
Qed.

(** X23: The three ways in which the code names the ticket [n] ([n] itself, its
    decimal notation, and the notation with a leading [#]) are ticket
    names, and all denote [n]. *)
Theorem ticket_names_denote_their_ticket (n : Z) :
  0 <= n ->
  _ticket_from_ticket_name (PInt n) = inr n
  /\ _ticket_from_ticket_name (PStr (pretty n)) = inr n
  /\ _ticket_from_ticket_name (PStr ("#" +:+ pretty n)) = inr n
  /\ _is_ticket_name (PStr ("#" +:+ pretty n)) = true.
Proof.
  intros Hn.
  assert (Hlt : (n <? 0) = false) by (apply Z.ltb_ge; lia).
  assert (H3 : _ticket_from_ticket_name (PStr ("#" +:+ pretty n)) = inr n).
  { destruct n as [|p|p]; [reflexivity| |lia].
    destruct (int_pretty_positive p) as [Hi _].
    unfold _ticket_from_ticket_name.
    change ("#" +:+ pretty (Z.pos p)) with (String "#" (pretty (Z.pos p))).
    cbn [Ascii.eqb Bool.eqb]. cbv iota. now rewrite Hi. }
  split; [unfold _ticket_from_ticket_name; now rewrite Hlt|].
  split; [|split; [exact H3|unfold _is_ticket_name; now rewrite H3]].
  destruct n as [|p|p]; [reflexivity| |lia].
  destruct (int_pretty_positive p) as [Hi (d & t & E)].
  unfold _ticket_from_ticket_name. rewrite E.
  assert (Hc : Ascii.eqb (pretty_N_char d) "#" = false).
  { unfold pretty_N_char. repeat case_match; reflexivity. }
  rewrite Hc, <- E, Hi. reflexivity.
Qed.

Lemma ticket_names_denote_their_ticket_witness :
  _ticket_from_ticket_name (PStr ("#" +:+ pretty 14975)) = inr 14975.
Proof.
  exact (proj1 (proj2 (proj2 (ticket_names_denote_their_ticket 14975
                                ltac:(lia))))).
Defined.

(** ** What the registry lookups return *)

Lemma has_local_branch_for_ticket_true t s s' :
  _has_local_branch_for_ticket t s = (inr true, s') ->
  s' = s /\ has_branch s t = true.
Proof.
  unfold _has_local_branch_for_ticket, has_branch, bind, get.
  destruct (ticket_to_branch (reg s) !! t) as [b|]; [|discriminate].
  unfold _is_local_branch_name, get.
  destruct (is_local_branch_name (git s) b ExTrue); [|discriminate].
  intros [= <-]. auto.
Qed.

(** The end of both paths of [_local_branch_for_ticket]. *)
Lemma local_branch_lookup t (other : M string) s b s' :
  (forall s1 x s2, other s1 <> (inr x, s2)) ->
  (has <- _has_local_branch_for_ticket t ;;
   if has then
     t2b <- get (fun s => ticket_to_branch (reg s)) ;;
     match t2b !! t with
     | Some b => ret b
     | None => raise (KeyError "No branch for ticket #{0} in your repository.")
     end
   else other) s = (inr b, s') ->
  s' = s /\ ticket_to_branch (reg s) !! t = Some b
  /\ is_local_branch_name (git s) b ExTrue = true.
Proof.
  intros Hother H. inv_bind H. destruct a.
  - apply has_local_branch_for_ticket_true in H0 as [-> Hhas].
    apply has_branch_true in Hhas as (b' & Hl & Hb).
    unfold bind, get in H. rewrite Hl in H. inversion H; subst. auto.
  - exfalso. eapply Hother. exact H.
Qed.

(** X24: When [_local_branch_for_ticket] returns a branch, whether it found it
    or pulled it, that branch exists and is recorded as the branch of the
    ticket. *)
Theorem local_branch_for_ticket_is_recorded
    (t : Z) (pull_if_not_found : bool) (s s' : state) (b : string) :
  _local_branch_for_ticket t pull_if_not_found s = (inr b, s') ->
  ticket_to_branch (reg s') !! t = Some b
  /\ is_local_branch_name (git s') b ExTrue = true.
Proof.
  unfold _local_branch_for_ticket. intros H. inv_bind H. destruct a.
  - apply has_local_branch_for_ticket_true in H0 as [-> Hhas].
    apply has_branch_true in Hhas as (b' & Hl & Hb).
    unfold bind, get in H. rewrite Hl in H. inversion H; subst. auto.
  - destruct pull_if_not_found; cbn [negb] in H; [|discriminate].
    inv_bind H. inv_bind H. inv_bind H.
    destruct a1 as [remote_branch|]; [|discriminate].
    inv_bind H. inv_bind H. inv_bind H.
    apply local_branch_lookup in H as (-> & Hl & Hb); [auto|].
    intros ? ? ?. discriminate.
Qed.

Lemma local_branch_for_ticket_is_recorded_witness :
  exists b s',
    _local_branch_for_ticket 2 true Sample.base_to_pull = (inr b, s')
    /\ ticket_to_branch (reg s') !! 2 = Some b.
Proof.
  exists (match fst (_local_branch_for_ticket 2 true Sample.base_to_pull) with
          | inr b => b
          | inl _ => ""
          end),
         (snd (_local_branch_for_ticket 2 true Sample.base_to_pull)).
  split; [vm_compute; reflexivity|].
  exact (proj1 (local_branch_for_ticket_is_recorded 2 true Sample.base_to_pull
                  _ _ ltac:(vm_compute; reflexivity))).
Defined.

(** ** The generator of methods for PARI functions *)

Lemma function_re_spec function :
  Pari.function_re function = true
  <-> Pari.is_identifier (chars function)
      \/ exists l, chars function = l ++ [newline] /\ Pari.is_identifier l.
Proof.
  unfold Pari.function_re, Pari.is_identifier.
  destruct (chars function) as [|c rest].
  { split; [discriminate|].
    intros [(c & r & H & _)|(l & H & c & r & -> & _)]; discriminate. }
  rewrite andb_true_iff, orb_true_iff. split.
  - intros [Hc [Hr|Hr]]; [left; eauto|].
    destruct (Regex.before_final_newline rest) as [t|] eqn:E; [|discriminate].
    apply before_final_newline_inv in E. subst rest.
    right. exists (c :: t). split; [reflexivity|]. eauto.
  - intros [(c' & r & [= <- <-] & Hc & Hr)|(l & H & c' & r & -> & Hc & Hr)].
    + auto.
    + injection H as <- ->. split; [assumption|]. right.
      now rewrite before_final_newline_snoc.
Qed.

(** X25: [can_handle_function] accepts exactly the functions whose name is an
    identifier, possibly followed by one newline, and is not [O], whose C
    name is declared, whose class is given and is [basic] or [highlevel],
    and whose section is not [programming/control]. *)
Theorem can_handle_function_accepts
    (declared : gset string) (function cname : string)
    (kwds : gmap string string) :
  Pari.can_handle_function declared function cname kwds = true
  <-> (function <> "O"
       /\ (Pari.is_identifier (chars function)
           \/ exists l, chars function = l ++ [newline]
                        /\ Pari.is_identifier l)
       /\ cname ∈ declared
       /\ (kwds !! "class" = Some "basic"
           \/ kwds !! "class" = Some "highlevel")
       /\ kwds !! "section" <> Some "programming/control").
Proof.
  unfold Pari.can_handle_function, Pari.function_blacklist.
  rewrite <- function_re_spec.
  destruct (bool_decide (function ∈ ["O"])) eqn:E1.
  { apply bool_decide_eq_true, list_elem_of_singleton in E1.
    split; [discriminate|]. intros [H _]. contradiction. }
  apply bool_decide_eq_false in E1. rewrite list_elem_of_singleton in E1.
  destruct (Pari.function_re function); cbn [negb];
    [|split; [discriminate|intros (_ & H & _); discriminate]].
  destruct (bool_decide (cname ∈ declared)) eqn:E2; cbn [negb].
  2:{ apply bool_decide_eq_false in E2.
      split; [discriminate|intros (_ & _ & H & _); contradiction]. }
  apply bool_decide_eq_true in E2.
  destruct (bool_decide (default "unknown" (kwds !! "class")
                         ∈ ["basic"; "highlevel"])) eqn:E3; cbn [negb].
  2:{ apply bool_decide_eq_false in E3.
      split; [discriminate|].
      intros (_ & _ & _ & [H|H] & _); exfalso; apply E3;
        rewrite H; cbn; [apply elem_of_cons; now left|].
      apply elem_of_cons. right. apply elem_of_cons. now left. }
  apply bool_decide_eq_true in E3.
  assert (Hcls : kwds !! "class" = Some "basic"
                 \/ kwds !! "class" = Some "highlevel").
  { destruct (kwds !! "class") as [cls|]; cbn in E3.
    - apply elem_of_cons in E3 as [->|E3]; [now left|].
      apply list_elem_of_singleton in E3 as ->. now right.
    - apply elem_of_cons in E3 as [E3|E3]; [discriminate|].
      apply list_elem_of_singleton in E3. discriminate. }
  destruct (String.eqb (default "unknown" (kwds !! "section"))
              "programming/control") eqn:E4.
  - apply String.eqb_eq in E4. split; [discriminate|].
    intros (_ & _ & _ & _ & H). exfalso. apply H.
    destruct (kwds !! "section"); cbn in E4; [now subst|discriminate].
  - apply String.eqb_neq in E4. split; [intros _|reflexivity].
    repeat split; try assumption.
    intros H. apply E4. now rewrite H.
Qed.

(** ** Checking out a ticket on an existing branch *)

(** X26: [checkout_ticket] with the name of an existing branch: unless [base]
    is the master branch the call is refused, so it is refused with the
    default [base=''], and the master branch itself cannot be given to a
    ticket; in both cases nothing changes.  With [base='master'] the
    branch becomes the branch of the ticket and is checked out. *)
Theorem checkout_ticket_on_existing_branch
    (t : Z) (b : string) (base : pyname) (s : state) :
  0 <= t ->
  t ∈ known_tickets (trac s) ->
  is_local_branch_name (git s) b ExTrue = true ->
  (base <> PStr MASTER_BRANCH ->
   checkout_ticket (PInt t) (Some b) base s
   = (inl (SageDevValueError
             "base must not be specified if branch is an existing branch"),
      s))
  /\ (base = PStr MASTER_BRANCH -> b = MASTER_BRANCH ->
      checkout_ticket (PInt t) (Some b) base s
      = (inl (SageDevValueError "branch must not be the master branch"), s))
  /\ (base = PStr MASTER_BRANCH -> b <> MASTER_BRANCH ->
      checkout_ticket (PInt t) (Some b) base s
      = checkout_branch b true
          (State (git s) (trac s) (link t b (reg s)) (UI s))).
Proof.
  intros Ht Hk Hb.
  assert (Hc : _check_ticket_name (PInt t) true s = (inr tt, s)).
  { rewrite check_ticket_name_run by assumption.
    now rewrite bool_decide_eq_true_2. }
  assert (Hl : lift (_ticket_from_ticket_name (PInt t)) s = (inr t, s)).
  { unfold lift, _ticket_from_ticket_name.
    now replace (t <? 0) with false by (symmetry; apply Z.ltb_ge; lia). }
  assert (Hpre :
            checkout_ticket (PInt t) (Some b) base s
            = (if negb (bool_decide (base = PStr MASTER_BRANCH)) then
                 raise (SageDevValueError
                   "base must not be specified if branch is an existing branch")
               else if String.eqb b MASTER_BRANCH then
                 raise (SageDevValueError
                          "branch must not be the master branch")
               else
                 _set_local_branch_for_ticket t (Some b) ;;;
                 checkout_branch b true) s).
  { unfold checkout_ticket.
    run Hc. run Hl. run (is_local_branch_name_run s b ExTrue).
    rewrite Hb. reflexivity. }
  rewrite Hpre. clear Hpre. split; [|split].
  - intros Hbase. now rewrite bool_decide_eq_false_2.
  - intros -> ->. reflexivity.
  - intros -> Hne.
    rewrite bool_decide_eq_true_2 by reflexivity. cbn [negb].
    replace (String.eqb b MASTER_BRANCH) with false
      by (symmetry; now apply String.eqb_neq).
    unfold _set_local_branch_for_ticket.
    run (check_local_branch_name_ok _ _ Hb). reflexivity.
Qed.

Lemma checkout_ticket_on_existing_branch_witness :
  checkout_ticket (PInt 2) (Some "ticket/1") (PStr "") Sample.on_master
  = (inl (SageDevValueError
            "base must not be specified if branch is an existing branch"),
     Sample.on_master).
Proof.
  exact (proj1 (checkout_ticket_on_existing_branch 2 "ticket/1" (PStr "")
                  Sample.on_master ltac:(lia) ltac:(vm_compute; reflexivity)
                  ltac:(vm_compute; reflexivity))
           ltac:(discriminate)).
Defined.
